(** * Jal-Rakshya: the dynamic alert engine

    A shallow embedding of the alert engine of the Jal-Rakshya groundwater
    dashboard ([generateAlerts], [generateGovUpdates] and the table
    [ALERT_THRESHOLDS]) together with the properties its specification
    states about it.

    JavaScript numbers are IEEE 754 binary64 values; they are modelled by
    Rocq's primitive floats, whose comparisons and arithmetic are the
    IEEE ones (a comparison with NaN is false, [-0] equals [+0]).  Arrays
    of records live in a store, so that the copy made by [[...history]]
    and the in-place [sort] are visible. *)

From Stdlib Require Import ZArith QArith String Floats Uint63 Lia Bool Sorted.
From stdpp Require Import base list strings.

Local Open Scope string_scope.
Local Open Scope nat_scope.
Local Open Scope list_scope.

(** ** JavaScript values of the numeric fields *)

(** A numeric field of a record: missing ([undefined]), [null], or a
    number. *)
Inductive field : Type :=
  | Undefined
  | Null
  | Number (x : float).

(** ECMAScript [ToNumber]: [undefined] is NaN, [null] is [+0]. *)
Definition ToNumber (v : field) : float :=
  match v with
  | Undefined => nan
  | Null => 0%float
  | Number x => x
  end.

(** The relational operators on two numbers.  ECMAScript answers [false]
    as soon as an operand is NaN, which is what the IEEE comparisons do. *)
Definition num_ge (x y : float) : bool := PrimFloat.leb y x.
Definition num_le (x y : float) : bool := PrimFloat.leb x y.
Definition num_gt (x y : float) : bool := PrimFloat.ltb y x.
Definition num_lt (x y : float) : bool := PrimFloat.ltb x y.

(** [a >= b], [a <= b], [a > b], [a < b] on fields: both operands go
    through [ToNumber]. *)
Definition js_ge (a b : field) : bool := num_ge (ToNumber a) (ToNumber b).
Definition js_le (a b : field) : bool := num_le (ToNumber a) (ToNumber b).
Definition js_gt (a b : field) : bool := num_gt (ToNumber a) (ToNumber b).
Definition js_lt (a b : field) : bool := num_lt (ToNumber a) (ToNumber b).

(** An integer as a JavaScript number (exact below 2^53). *)
Definition Number_of_Z (z : Z) : float :=
  if (z <? 0)%Z then PrimFloat.opp (PrimFloat.of_uint63 (Uint63.of_Z (- z)))
  else PrimFloat.of_uint63 (Uint63.of_Z z).

Definition Number_of_nat (n : nat) : float := Number_of_Z (Z.of_nat n).

(** [Math.round]: the closest integer, a tie going towards +infinity;
    NaN, the infinities and the zeros are returned as they are, and a
    negative number that rounds to zero gives [-0]. *)
Definition Math_round (x : float) : float :=
  match Prim2SF x with
  | S754_finite s m e =>
      if (0 <=? e)%Z then x
      else
        let d := (2 ^ (- e))%Z in
        let n := ((2 * (if s then Z.neg m else Z.pos m) + d) / (2 * d))%Z in
        if (n =? 0)%Z then (if s then neg_zero else 0%float)
        else Number_of_Z n
  | _ => x
  end.

(** ** Records *)

(** One yearly record of a location.  [year] is an integer (the
    comparator [a.year - b.year] of the sort is then exact); each numeric
    metric is a number, [null] or missing; [location] and
    [scarcityLevel] are strings. *)
Record WaterRecord : Type := mkWaterRecord {
  year : Z;
  location : string;
  groundwaterLevel : field;
  depletionRate : field;
  rainfall : field;
  ph : field;
  agriculturalUsage : field;
  industrialUsage : field;
  householdUsage : field;
  consumption : field;
  scarcityLevel : string
}.

(** A template literal, kept as its pieces: the literal text and the
    interpolated values. *)
Inductive part : Type :=
  | Lit (s : string)
  | Interp (v : field)
  | InterpStr (s : string)
  | InterpNum (x : float)
  | InterpFixed1 (x : float)        (* x.toFixed(1) *)
  | InterpCount (n : nat).

Definition template := list part.

Inductive AlertType : Type := critical | warning | info.

Inductive Category : Type :=
  | WaterLevel | Depletion | Rainfall | WaterQuality | Consumption
  | Scarcity | Trend.

(** What an alert carries in [value] and [threshold]. *)
Inductive AlertValue : Type :=
  | OfField (v : field)
  | OfNumber (x : float)
  | OfCount (n : nat)
  | OfString (s : string)
  | OfTemplate (t : template).

Record Alert : Type := mkAlert {
  type : AlertType;
  category : Category;
  title : string;
  message : template;
  value : AlertValue;
  threshold : option AlertValue;
  recommendation : string;
  timestamp : string
}.

Record Thresholds : Type := mkThresholds {
  criticalWaterLevel : float;
  warningWaterLevel : float;
  highDepletion : float;
  criticalDepletion : float;
  lowRainfall : float;
  criticalRainfall : float;
  highPH : float;
  lowPH : float;
  highConsumption : float
}.

Definition ALERT_THRESHOLDS : Thresholds := {|
  criticalWaterLevel := 15%float;
  warningWaterLevel := 12%float;
  highDepletion := 5%float;
  criticalDepletion := 7%float;
  lowRainfall := 700%float;
  criticalRainfall := 600%float;
  highPH := 8.0%float;
  lowPH := 6.5%float;
  highConsumption := 500%float
|}.

(** ** The store of arrays and the monad of the engine *)

Abbreviation ref := nat (only parsing).

(** The store: the arrays of records that exist, by address. *)
Abbreviation heap := (list (list WaterRecord)) (only parsing).

(** What a call can end on instead of a value: a [TypeError], or the
    use of an address at which the store has no array (no JavaScript
    reference is such an address; the properties assume a history that
    is in the store). *)
Inductive error : Type :=
  | TypeError (what : string)
  | DanglingRef (r : ref).

(** The outcome of a computation: a value and the store it leaves, or
    an exception. *)
Inductive result (A : Type) : Type :=
  | Ok (a : A) (st : heap)
  | Throw (e : error).
Arguments Ok {A} a st.
Arguments Throw {A} e.

Definition M (A : Type) : Type := heap -> result A.

Definition ret {A} (a : A) : M A := fun st => Ok a st.

Definition bind {A B} (m : M A) (k : A -> M B) : M B :=
  fun st => match m st with
            | Ok a st' => k a st'
            | Throw e => Throw e
            end.

Definition throw {A} (e : error) : M A := fun _ => Throw e.

Notation "'let*' x ':=' m 'in' k" := (bind m (fun x => k))
  (at level 10, x name, m at level 100, k at level 200).

(** The elements of the array at [r]. *)
Definition Array_elements (r : ref) : M (list WaterRecord) :=
  fun st => match st !! r with
            | Some arr => Ok arr st
            | None => Throw (DanglingRef r)
            end.

(** A new array with the given elements. *)
Definition Array_new (arr : list WaterRecord) : M ref :=
  fun st => Ok (length st) (st ++ [arr]).

(** [[...a]]: a fresh array with the elements of [a]. *)
Definition spread (r : ref) : M ref :=
  let* arr := Array_elements r in Array_new arr.

(** [a.length]. *)
Definition Array_length (r : ref) : M nat :=
  let* arr := Array_elements r in ret (length arr).

(** [a[i]]: [undefined] ([None]) outside the array. *)
Definition Array_get (r : ref) (i : Z) : M (option WaterRecord) :=
  let* arr := Array_elements r in
  ret (if (i <? 0)%Z then None else arr !! Z.to_nat i).

(** Reading a property: a [TypeError] on [undefined]. *)
Definition prop {A} (f : WaterRecord -> A) (o : option WaterRecord) : M A :=
  match o with
  | Some d => ret (f d)
  | None => throw (TypeError "Cannot read properties of undefined")
  end.

(** [Array.prototype.sort] is stable and orders by the sign of the
    comparator: [insert_sorted] puts [x], which came first, before the
    first element it is not greater than. *)
Fixpoint insert_sorted {A} (comparefn : A -> A -> Z) (x : A) (l : list A)
  : list A :=
  match l with
  | [] => [x]
  | y :: l' =>
      if (0 <? comparefn x y)%Z then y :: insert_sorted comparefn x l'
      else x :: y :: l'
  end.

Fixpoint stable_sort {A} (comparefn : A -> A -> Z) (l : list A) : list A :=
  match l with
  | [] => []
  | x :: l' => insert_sorted comparefn x (stable_sort comparefn l')
  end.

(** [a.sort(comparefn)]: sorts the array at [r] in place and returns it. *)
Definition Array_sort (comparefn : WaterRecord -> WaterRecord -> Z) (r : ref)
  : M ref :=
  fun st => match st !! r with
            | Some arr => Ok r (<[r := stable_sort comparefn arr]> st)
            | None => Throw (DanglingRef r)
            end.

(** [arr.push(x)] on the local result array. *)
Definition push {A} (arr : list A) (x : A) : list A := arr ++ [x].

(** A counted loop: the body run for each index in turn. *)
Fixpoint for_each {S} (idx : list nat) (body : nat -> S -> M S) (s : S)
  : M S :=
  match idx with
  | [] => ret s
  | i :: rest => let* s' := body i s in for_each rest body s'
  end.

(** [scores.reduce((a, b) => a + b, 0) / scores.length]. *)
Definition average (scores : list float) : float :=
  PrimFloat.div (fold_left PrimFloat.add scores 0%float)
                (Number_of_nat (length scores)).

(** ** The alert engine *)

(** *** The threshold checks of [generateAlerts], one definition per block
    of the function; each takes the array [alerts] built so far and
    returns it after its [push]. *)

(** Lines 28-51, [// Water Level Alerts]. *)
Definition waterLevelAlerts (timestamp : string) (data : WaterRecord)
    (alerts : list Alert) : list Alert :=
  if js_ge (groundwaterLevel data) (Number (criticalWaterLevel ALERT_THRESHOLDS)) then
    push alerts {|
      type := critical;
      category := WaterLevel;
      title := "🚨 Critical Water Level";
      message := [Lit "Groundwater level at "; Interp (groundwaterLevel data);
                  Lit "m depth in "; InterpStr (location data);
                  Lit ". Immediate action required."];
      value := OfField (groundwaterLevel data);
      threshold := Some (OfNumber (criticalWaterLevel ALERT_THRESHOLDS));
      recommendation := "Implement water rationing and emergency recharge measures.";
      timestamp := timestamp |}
  else if js_ge (groundwaterLevel data) (Number (warningWaterLevel ALERT_THRESHOLDS)) then
    push alerts {|
      type := warning;
      category := WaterLevel;
      title := "⚠️ Low Water Table";
      message := [Lit "Water table at "; Interp (groundwaterLevel data);
                  Lit "m in "; InterpStr (location data);
                  Lit ". Monitor closely."];
      value := OfField (groundwaterLevel data);
      threshold := Some (OfNumber (warningWaterLevel ALERT_THRESHOLDS));
      recommendation := "Increase monitoring frequency. Consider water conservation measures.";
      timestamp := timestamp |}
  else alerts.

(** Lines 53-76, [// Depletion Alerts]. *)
Definition depletionAlerts (timestamp : string) (data : WaterRecord)
    (alerts : list Alert) : list Alert :=
  if js_ge (depletionRate data) (Number (criticalDepletion ALERT_THRESHOLDS)) then
    push alerts {|
      type := critical;
      category := Depletion;
      title := "🚨 Over-extraction Detected";
      message := [Lit "Groundwater depletion rate at "; Interp (depletionRate data);
                  Lit "% in "; InterpStr (location data);
                  Lit ". Aquifer stress is severe."];
      value := OfField (depletionRate data);
      threshold := Some (OfNumber (criticalDepletion ALERT_THRESHOLDS));
      recommendation := "Restrict bore-well usage. Implement mandatory rainwater harvesting.";
      timestamp := timestamp |}
  else if js_ge (depletionRate data) (Number (highDepletion ALERT_THRESHOLDS)) then
    push alerts {|
      type := warning;
      category := Depletion;
      title := "⚠️ High Depletion Rate";
      message := [Lit "Depletion rate "; Interp (depletionRate data);
                  Lit "% in "; InterpStr (location data);
                  Lit ". Extraction exceeds recharge."];
      value := OfField (depletionRate data);
      threshold := Some (OfNumber (highDepletion ALERT_THRESHOLDS));
      recommendation := "Promote water-efficient irrigation. Review extraction permits.";
      timestamp := timestamp |}
  else alerts.

(** Lines 78-101, [// Rainfall Alerts]. *)
Definition rainfallAlerts (timestamp : string) (data : WaterRecord)
    (alerts : list Alert) : list Alert :=
  if js_le (rainfall data) (Number (criticalRainfall ALERT_THRESHOLDS)) then
    push alerts {|
      type := critical;
      category := Rainfall;
      title := "🚨 Drought Risk";
      message := [Lit "Rainfall only "; Interp (rainfall data);
                  Lit "mm in "; InterpStr (location data);
                  Lit ". Severe drought conditions likely."];
      value := OfField (rainfall data);
      threshold := Some (OfNumber (criticalRainfall ALERT_THRESHOLDS));
      recommendation := "Activate drought contingency plans. Arrange water tanker supply.";
      timestamp := timestamp |}
  else if js_le (rainfall data) (Number (lowRainfall ALERT_THRESHOLDS)) then
    push alerts {|
      type := warning;
      category := Rainfall;
      title := "⚠️ Below Normal Rainfall";
      message := [Lit "Rainfall "; Interp (rainfall data);
                  Lit "mm in "; InterpStr (location data);
                  Lit ", below expected levels."];
      value := OfField (rainfall data);
      threshold := Some (OfNumber (lowRainfall ALERT_THRESHOLDS));
      recommendation := "Monitor reservoir levels. Advise farmers on drought-resistant crops.";
      timestamp := timestamp |}
  else alerts.

(** Lines 103-115, [// pH Alerts]. *)
Definition phAlerts (timestamp : string) (data : WaterRecord)
    (alerts : list Alert) : list Alert :=
  if js_ge (ph data) (Number (highPH ALERT_THRESHOLDS))
     || js_le (ph data) (Number (lowPH ALERT_THRESHOLDS)) then
    push alerts {|
      type := warning;
      category := WaterQuality;
      title := "⚠️ pH Imbalance";
      message := [Lit "pH level "; Interp (ph data);
                  Lit " in "; InterpStr (location data);
                  Lit ". Water quality may be affected."];
      value := OfField (ph data);
      threshold := Some (OfTemplate [InterpNum (lowPH ALERT_THRESHOLDS); Lit "-";
                                     InterpNum (highPH ALERT_THRESHOLDS)]);
      recommendation := "Test for contaminants. Advise water treatment before consumption.";
      timestamp := timestamp |}
  else alerts.

(** Lines 117-129, [// Consumption Alert]. *)
Definition consumptionAlert (timestamp : string) (data : WaterRecord)
    (alerts : list Alert) : list Alert :=
  if js_ge (consumption data) (Number (highConsumption ALERT_THRESHOLDS)) then
    push alerts {|
      type := info;
      category := Consumption;
      title := "ℹ️ High Water Consumption";
      message := [Lit "Total consumption "; Interp (consumption data);
                  Lit " Ml in "; InterpStr (location data);
                  Lit ". Above district average."];
      value := OfField (consumption data);
      threshold := Some (OfNumber (highConsumption ALERT_THRESHOLDS));
      recommendation := "Review industrial and agricultural water permits. Promote efficiency.";
      timestamp := timestamp |}
  else alerts.

(** Lines 131-142, [// Scarcity Level Alert]. *)
Definition scarcityAlert (timestamp : string) (data : WaterRecord)
    (alerts : list Alert) : list Alert :=
  if String.eqb (scarcityLevel data) "Severe"
     || String.eqb (scarcityLevel data) "Extreme" then
    push alerts {|
      type := critical;
      category := Scarcity;
      title := String.append "🚨 "
                 (String.append (scarcityLevel data) " Water Scarcity");
      message := [InterpStr (location data); Lit " classified as ";
                  InterpStr (scarcityLevel data);
                  Lit " water scarcity zone."];
      value := OfString (scarcityLevel data);
      threshold := None;
      recommendation := "Prioritize for government water supply augmentation schemes.";
      timestamp := timestamp |}
  else alerts.

(** *** The trend checks, on the copy of the history sorted by year *)

(** The three trend loops,
    [for (let i = 1; i < sorted.length; i++)
       if (worse(sorted[i], sorted[i - 1])) count++; else count = 0;]
    with [worse] the comparison of the metric at hand.  Nothing changes
    [sorted.length] in the loop, so the indices are [1 .. length - 1]. *)
Definition streak (sorted : ref) (worse : WaterRecord -> WaterRecord -> bool)
  : M nat :=
  let* len := Array_length sorted in
  for_each (seq 1 (len - 1))
    (fun i count =>
       let* cur := Array_get sorted (Z.of_nat i) in
       let* c := prop id cur in
       let* prev := Array_get sorted (Z.of_nat i - 1) in
       let* p := prop id prev in
       ret (if worse c p then S count else 0))
    0.

(** Lines 148-168, consecutive decline in water level (rising depth). *)
Definition waterLevelTrend (timestamp : string) (data : WaterRecord)
    (sorted : ref) (alerts : list Alert) : M (list Alert) :=
  let* consecutiveRise :=
    streak sorted (fun cur prev =>
      js_gt (groundwaterLevel cur) (groundwaterLevel prev)) in
  if 3 <=? consecutiveRise then
    let* sorted_length := Array_length sorted in
    let* last := Array_get sorted (Z.of_nat sorted_length - 1) in
    let* last_level := prop groundwaterLevel last in
    let* first :=
      Array_get sorted
        (Z.of_nat sorted_length - 1 - Z.of_nat consecutiveRise) in
    let* first_level := prop groundwaterLevel first in
    let totalRise :=
      PrimFloat.sub (ToNumber last_level) (ToNumber first_level) in
    ret (push alerts {|
      type := warning;
      category := Trend;
      title := "📉 Sustained Water Level Decline";
      message := [Lit "Water level in "; InterpStr (location data);
                  Lit " has been dropping for "; InterpCount consecutiveRise;
                  Lit " consecutive years ("; InterpFixed1 totalRise;
                  Lit "m increase in depth)."];
      value := OfCount consecutiveRise;
      threshold := None;
      recommendation := "Long-term recharge intervention needed. Consider artificial recharge structures.";
      timestamp := timestamp |})
  else ret alerts.

(** Lines 170-189, steady depletion increase. *)
Definition depletionTrend (timestamp : string) (data : WaterRecord)
    (sorted : ref) (alerts : list Alert) : M (list Alert) :=
  let* consecutiveDepIncrease :=
    streak sorted (fun cur prev =>
      js_gt (depletionRate cur) (depletionRate prev)) in
  ret (if 3 <=? consecutiveDepIncrease then
      push alerts {|
        type := critical;
        category := Trend;
        title := "📊 Accelerating Depletion Trend";
        message := [Lit "Depletion rate in "; InterpStr (location data);
                    Lit " has increased for "; InterpCount consecutiveDepIncrease;
                    Lit " consecutive years. Current: "; Interp (depletionRate data);
                    Lit "%."];
        value := OfCount consecutiveDepIncrease;
        threshold := None;
        recommendation := "Urgent policy intervention needed. Restrict new extraction permits.";
        timestamp := timestamp |}
    else alerts).

(** Lines 191-210, declining rainfall pattern. *)
Definition rainfallTrend (timestamp : string) (data : WaterRecord)
    (sorted : ref) (alerts : list Alert) : M (list Alert) :=
  let* consecutiveRainfallDrop :=
    streak sorted (fun cur prev =>
      js_lt (rainfall cur) (rainfall prev)) in
  ret (if 3 <=? consecutiveRainfallDrop then
      push alerts {|
        type := warning;
        category := Trend;
        title := "🌧️ Declining Rainfall Pattern";
        message := [Lit "Rainfall in "; InterpStr (location data);
                    Lit " has decreased for "; InterpCount consecutiveRainfallDrop;
                    Lit " consecutive years. Long-term drought risk elevated."];
        value := OfCount consecutiveRainfallDrop;
        threshold := None;
        recommendation := "Plan for drought resilience. Increase water storage capacity.";
        timestamp := timestamp |}
    else alerts).

(** The comparator of [sort]: [(a, b) => a.year - b.year]. *)
Definition comparefn (a b : WaterRecord) : Z := (year a - year b)%Z.

Section AlertEngine.

(** The water-health score of a record, between 0 and 100; it comes from
    the module [./waterScore], which the engine only calls. *)
Variable calculateWaterScore : WaterRecord -> float.

(** Lines 212-230, overall score deterioration. *)
Definition healthTrend (timestamp : string) (data : WaterRecord)
    (sorted : ref) (alerts : list Alert) : M (list Alert) :=
  let* elements := Array_elements sorted in
  let scores := map calculateWaterScore elements in
  let firstHalf := take (length scores / 2) scores in
  let secondHalf := drop (length scores / 2) scores in
  let avgFirst := average firstHalf in
  let avgSecond := average secondHalf in
  if num_lt avgSecond (PrimFloat.sub avgFirst 10) then
    ret (push alerts {|
      type := warning;
      category := Trend;
      title := "⚡ Overall Water Health Declining";
      message := [Lit "Water health score in "; InterpStr (location data);
                  Lit " has declined significantly (avg ";
                  InterpNum (Math_round avgFirst); Lit " → ";
                  InterpNum (Math_round avgSecond);
                  Lit ") over the monitoring period."];
      value := OfNumber (Math_round (PrimFloat.sub avgSecond avgFirst));
      threshold := None;
      recommendation := "Comprehensive water management review recommended for this location.";
      timestamp := timestamp |})
  else ret alerts.

(** [generateAlerts(data, history)]; [timestamp] is
    [new Date().toISOString()], read once per call. *)
Definition generateAlerts (timestamp : string) (data : WaterRecord)
    (history : option ref) : M (list Alert) :=
  let alerts : list Alert := [] in
  let alerts := waterLevelAlerts timestamp data alerts in
  let alerts := depletionAlerts timestamp data alerts in
  let alerts := rainfallAlerts timestamp data alerts in
  let alerts := phAlerts timestamp data alerts in
  let alerts := consumptionAlert timestamp data alerts in
  let alerts := scarcityAlert timestamp data alerts in
  (* ===== TREND-BASED ALERTS (require history) ===== *)
  match history with
  | None => ret alerts
  | Some history =>
    let* history_length := Array_length history in
    if 3 <=? history_length then
      let* copy := spread history in
      let* sorted := Array_sort comparefn copy in
      let* alerts := waterLevelTrend timestamp data sorted alerts in
      let* alerts := depletionTrend timestamp data sorted alerts in
      let* alerts := rainfallTrend timestamp data sorted alerts in
      healthTrend timestamp data sorted alerts
    else ret alerts
  end.

End AlertEngine.

(** ** Government-style updates *)

Inductive Priority : Type := high | normal.

Module Gov.
Record Update : Type := mkUpdate {
  id : nat;
  title : string;
  body : template;
  date : string;
  source : string;
  priority : Priority
}.
End Gov.

(** [today] is [new Date().toLocaleDateString('en-IN')]. *)
Definition generateGovUpdates (today : string) (locationData : list WaterRecord)
  : list Gov.Update :=
  match last locationData with
  | None => []
  | Some latest =>
    [ {| Gov.id := 1;
         Gov.title := "Groundwater Status Report";
         Gov.body := [Lit "Current groundwater level in "; InterpStr (location latest);
                      Lit " stands at "; Interp (groundwaterLevel latest);
                      Lit "m. Depletion rate: "; Interp (depletionRate latest);
                      Lit "%. Classification: "; InterpStr (scarcityLevel latest);
                      Lit "."];
         Gov.date := today;
         Gov.source := "Central Ground Water Board";
         Gov.priority :=
           if String.eqb (scarcityLevel latest) "Severe"
              || String.eqb (scarcityLevel latest) "Extreme"
           then high else normal |};
      {| Gov.id := 2;
         Gov.title := "Rainfall Monitoring Update";
         Gov.body := [Lit "Annual rainfall recorded: "; Interp (rainfall latest);
                      Lit "mm. ";
                      InterpStr (if js_lt (rainfall latest) (Number 700)
                                 then "Below normal levels. Drought alert issued."
                                 else "Within normal range.")];
         Gov.date := today;
         Gov.source := "India Meteorological Department";
         Gov.priority :=
           if js_lt (rainfall latest) (Number 700) then high else normal |};
      {| Gov.id := 3;
         Gov.title := "Water Quality Assessment";
         Gov.body := [Lit "pH level: "; Interp (ph latest); Lit ". ";
                      InterpStr (if js_ge (ph latest) (Number 6.5)
                                    && js_le (ph latest) (Number 8.0)
                                 then "Water quality is within acceptable BIS standards."
                                 else "Water quality needs attention.")];
         Gov.date := today;
         Gov.source := "State Pollution Control Board";
         Gov.priority := normal |};
      {| Gov.id := 4;
         Gov.title := "Usage Distribution Report";
         Gov.body := [Lit "Agricultural: "; Interp (agriculturalUsage latest);
                      Lit " Ml | Industrial: "; Interp (industrialUsage latest);
                      Lit " Ml | Household: "; Interp (householdUsage latest);
                      Lit " Ml. Total consumption: "; Interp (consumption latest);
                      Lit " Ml."];
         Gov.date := today;
         Gov.source := "Nashik District Water Authority";
         Gov.priority := normal |};
      {| Gov.id := 5;
         Gov.title := "Jal Shakti Abhiyan Advisory";
         Gov.body := [Lit "Under the National Jal Jeevan Mission, ";
                      InterpStr (location latest); Lit " is ";
                      InterpStr (if String.eqb (scarcityLevel latest) "High"
                                    || String.eqb (scarcityLevel latest) "Severe"
                                 then "marked for priority intervention. Community rainwater harvesting programs recommended."
                                 else "under regular monitoring. Continue existing conservation measures.")];
         Gov.date := today;
         Gov.source := "Ministry of Jal Shakti";
         Gov.priority :=
           if String.eqb (scarcityLevel latest) "High"
              || String.eqb (scarcityLevel latest) "Severe"
           then high else normal |} ]
  end.

(** ** Trend badges (the component [TrendIndicators]) *)

(** What [TrendBadge] decides about the element it returns: the colour
    class (gray, green or red, the same test for the icon box and for
    the change), the icon, the text shown for the current value, the
    arrow and the percentage next to it. *)
Inductive Tone : Type := gray | green | red.

Inductive Icon : Type :=
  | FiMinus | FiTrendingUp | FiTrendingDown
  | GivenIcon (name : string).

Module Trend.
Record Badge : Type := mkBadge {
  tone : Tone;
  icon : Icon;
  label : string;
  shown : part;
  unit : string;
  arrow : string;
  percent : option float
}.
End Trend.

(** What a component returns: [null], an element, or an exception. *)
Inductive rendering (A : Type) : Type :=
  | RenderNothing
  | Render (a : A)
  | RenderThrows (e : error).
Arguments RenderNothing {A}.
Arguments Render {A} a.
Arguments RenderThrows {A} e.

(** [v == null] and [v === 0] on a numeric field. *)
Definition is_nullish (v : field) : bool :=
  match v with
  | Undefined | Null => true
  | Number _ => false
  end.

Definition is_undefined (v : field) : bool :=
  match v with
  | Undefined => true
  | _ => false
  end.

Definition strictly_zero (v : field) : bool :=
  match v with
  | Number x => PrimFloat.eqb x 0
  | _ => false
  end.

(** What [TrendBadge] computes after its guards.  The two versions of the
    component compute these in the same way; the markup they put around
    them (class names, the hover animation of the earlier version, the
    caption "vs last year" against "vs prev year") is not part of
    [Trend.Badge].  [icon || ...] takes the icon of the caller unless it
    is missing or the empty string. *)
Definition badge_element (label : string) (current previous : field)
    (unit : string) (invert : bool) (icon : option string) : Trend.Badge :=
  let change :=
    PrimFloat.mul
      (PrimFloat.div (PrimFloat.sub (ToNumber current) (ToNumber previous))
                     (PrimFloat.abs (ToNumber previous)))
      100 in
  let isUp := num_gt change 0 in
  let isNeutral := num_lt (PrimFloat.abs change) 1 in
  let isGood := if invert then negb isUp else isUp in
  {| Trend.tone := if isNeutral then gray else if isGood then green else red;
     Trend.icon :=
       match icon with
       | Some (String _ _ as name) => GivenIcon name
       | _ => if isNeutral then FiMinus
              else if isUp then FiTrendingUp else FiTrendingDown
       end;
     Trend.label := label;
     Trend.shown :=
       match current with
       | Number x => InterpFixed1 x
       | _ => Interp current
       end;
     Trend.unit := unit;
     Trend.arrow := if isNeutral then "—" else if isUp then "↑" else "↓";
     Trend.percent := if isNeutral then None else Some (PrimFloat.abs change) |}.

(** The earlier version of the component:
    [if (current === undefined || previous === undefined
         || previous === undefined) return null;
     if (previous === 0) return null;]. *)
Module EarlierBadges.

Definition TrendBadge (label : string) (current previous : field)
    (unit : string) (invert : bool) (icon : option string)
  : option Trend.Badge :=
  if is_undefined current || is_undefined previous || is_undefined previous
  then None
  else if strictly_zero previous then None
  else Some (badge_element label current previous unit invert icon).

Definition TrendIndicators (data : list WaterRecord)
  : rendering (list (option Trend.Badge)) :=
  if length data <? 2 then RenderNothing
  else
    match data !! (length data - 1), data !! (length data - 2) with
    | Some curr, Some prev =>
        Render
          [ TrendBadge "Water Level" (groundwaterLevel curr)
              (groundwaterLevel prev) "m" true None;
            TrendBadge "Rainfall" (rainfall curr) (rainfall prev) "mm"
              false None;
            TrendBadge "Depletion Rate" (depletionRate curr)
              (depletionRate prev) "%" true None;
            TrendBadge "pH Level" (ph curr) (ph prev) "" false None ]
    | _, _ => RenderThrows (TypeError "Cannot read properties of undefined")
    end.

End EarlierBadges.

(** The later version:
    [if (current == null || previous == null) return null;
     if (previous === 0) return null;]. *)
Module LaterBadges.

Definition TrendBadge (label : string) (current previous : field)
    (unit : string) (invert : bool) (icon : option string)
  : option Trend.Badge :=
  if is_nullish current || is_nullish previous then None
  else if strictly_zero previous then None
  else Some (badge_element label current previous unit invert icon).

Definition TrendIndicators (data : list WaterRecord)
  : rendering (list (option Trend.Badge)) :=
  if length data <? 2 then RenderNothing
  else
    match data !! (length data - 1), data !! (length data - 2) with
    | Some curr, Some prev =>
        Render
          [ TrendBadge "Water Level" (groundwaterLevel curr)
              (groundwaterLevel prev) "m" true None;
            TrendBadge "Rainfall" (rainfall curr) (rainfall prev) "mm"
              false None;
            TrendBadge "Depletion" (depletionRate curr)
              (depletionRate prev) "%" true None;
            TrendBadge "pH Level" (ph curr) (ph prev) "" false None ]
    | _, _ => RenderThrows (TypeError "Cannot read properties of undefined")
    end.

End LaterBadges.

(** * The vocabulary of the properties *)

(** ** The order of the sorted copy and the scan of its steps *)

(** The key the order is on: [comparefn a b] is positive exactly when
    [a] has the later year. *)
Definition year_le (a b : WaterRecord) : Prop := (year a <= year b)%Z.

(** [sorted] is the history sorted by year: its years go up, and the
    records of any one year are those the history has for that year, in
    the order they have there.  Nothing here refers to how the engine
    sorts. *)
Definition sorted_by_year (records sorted : list WaterRecord) : Prop :=
  Sorted year_le sorted /\
  forall y, filter (fun d => year d = y) sorted
            = filter (fun d => year d = y) records.

(** The outcome of [worse] on each adjacent pair, oldest first. *)
Fixpoint steps (worse : WaterRecord -> WaterRecord -> bool)
    (l : list WaterRecord) : list bool :=
  match l with
  | prev :: (cur :: _) as rest => worse cur prev :: steps worse rest
  | _ => []
  end.

(** The counter of the loop: one more on a step in the bad direction,
    back to 0 on any other. *)
Definition count_from (c : nat) (bs : list bool) : nat :=
  fold_left (fun c (b : bool) => if b then S c else 0) bs c.

Definition count_streak (bs : list bool) : nat := count_from 0 bs.

(** The number of [true] at the head of a list. *)
Fixpoint leading_run (bs : list bool) : nat :=
  match bs with
  | true :: bs' => S (leading_run bs')
  | _ => 0
  end.

(** The length of the run of steps in the bad direction that ends at
    the last step. *)
Definition trailing_run (bs : list bool) : nat := leading_run (rev bs).

(** ** The mean of a half and the rounding of the difference

    The words of the specification on the health check, written on the
    values of IEEE 754 binary64 ([spec_float]) and on the rationals, with
    no reference to [average] or [Math_round]. *)








(** ** The alerts of the trend checks *)

(** The comparisons of the three trend loops. *)
Definition rising (cur prev : WaterRecord) : bool :=
  js_gt (groundwaterLevel cur) (groundwaterLevel prev).
Definition depleting (cur prev : WaterRecord) : bool :=
  js_gt (depletionRate cur) (depletionRate prev).
Definition drying (cur prev : WaterRecord) : bool :=
  js_lt (rainfall cur) (rainfall prev).

(** [sorted[i].groundwaterLevel] as a number. *)
Definition level_at (arr : list WaterRecord) (i : nat) : float :=
  match arr !! i with
  | Some d => ToNumber (groundwaterLevel d)
  | None => nan
  end.

(** The four alerts the trend checks push, by the values they
    interpolate. *)
Definition sustainedDecline (ts : string) (data : WaterRecord) (count : nat)
    (totalRise : float) : Alert := {|
  type := warning;
  category := Trend;
  title := "📉 Sustained Water Level Decline";
  message := [Lit "Water level in "; InterpStr (location data);
              Lit " has been dropping for "; InterpCount count;
              Lit " consecutive years ("; InterpFixed1 totalRise;
              Lit "m increase in depth)."];
  value := OfCount count;
  threshold := None;
  recommendation := "Long-term recharge intervention needed. Consider artificial recharge structures.";
  timestamp := ts |}.

Definition acceleratingDepletion (ts : string) (data : WaterRecord)
    (count : nat) : Alert := {|
  type := critical;
  category := Trend;
  title := "📊 Accelerating Depletion Trend";
  message := [Lit "Depletion rate in "; InterpStr (location data);
              Lit " has increased for "; InterpCount count;
              Lit " consecutive years. Current: "; Interp (depletionRate data);
              Lit "%."];
  value := OfCount count;
  threshold := None;
  recommendation := "Urgent policy intervention needed. Restrict new extraction permits.";
  timestamp := ts |}.

Definition decliningRainfall (ts : string) (data : WaterRecord)
    (count : nat) : Alert := {|
  type := warning;
  category := Trend;
  title := "🌧️ Declining Rainfall Pattern";
  message := [Lit "Rainfall in "; InterpStr (location data);
              Lit " has decreased for "; InterpCount count;
              Lit " consecutive years. Long-term drought risk elevated."];
  value := OfCount count;
  threshold := None;
  recommendation := "Plan for drought resilience. Increase water storage capacity.";
  timestamp := ts |}.

Definition healthDeclining (ts : string) (data : WaterRecord)
    (avgFirst avgSecond : float) : Alert := {|
  type := warning;
  category := Trend;
  title := "⚡ Overall Water Health Declining";
  message := [Lit "Water health score in "; InterpStr (location data);
              Lit " has declined significantly (avg ";
              InterpNum (Math_round avgFirst); Lit " → ";
              InterpNum (Math_round avgSecond);
              Lit ") over the monitoring period."];
  value := OfNumber (Math_round (PrimFloat.sub avgSecond avgFirst));
  threshold := None;
  recommendation := "Comprehensive water management review recommended for this location.";
  timestamp := ts |}.

(** What each streak check appends, from the sorted records. *)
Definition waterLevelTrendAlerts (ts : string) (data : WaterRecord)
    (sorted : list WaterRecord) : list Alert :=
  let count := count_streak (steps rising sorted) in
  if 3 <=? count then
    [sustainedDecline ts data count
       (PrimFloat.sub (level_at sorted (length sorted - 1))
                      (level_at sorted (length sorted - 1 - count)))]
  else [].

Definition depletionTrendAlerts (ts : string) (data : WaterRecord)
    (sorted : list WaterRecord) : list Alert :=
  let count := count_streak (steps depleting sorted) in
  if 3 <=? count then [acceleratingDepletion ts data count] else [].

Definition rainfallTrendAlerts (ts : string) (data : WaterRecord)
    (sorted : list WaterRecord) : list Alert :=
  let count := count_streak (steps drying sorted) in
  if 3 <=? count then [decliningRainfall ts data count] else [].

(** The alerts of the six threshold checks, in the order of the code. *)
Definition thresholdAlerts (ts : string) (data : WaterRecord) : list Alert :=
  waterLevelAlerts ts data [] ++ depletionAlerts ts data [] ++
  rainfallAlerts ts data [] ++ phAlerts ts data [] ++
  consumptionAlert ts data [] ++ scarcityAlert ts data [].

(** The block of [generateAlerts] that produces a category. *)
Definition block_of (c : Category) (ts : string) (data : WaterRecord)
  : list Alert :=
  match c with
  | WaterLevel => waterLevelAlerts ts data []
  | Depletion => depletionAlerts ts data []
  | Rainfall => rainfallAlerts ts data []
  | WaterQuality => phAlerts ts data []
  | Consumption => consumptionAlert ts data []
  | Scarcity => scarcityAlert ts data []
  | Trend => []
  end.

(** ** Reading the result *)

Global Instance Category_eq_dec : EqDecision Category.
Proof. solve_decision. Defined.

Global Instance AlertType_eq_dec : EqDecision AlertType.
Proof. solve_decision. Defined.

(** The alerts of one category, and those with a given title, in the
    order of the result. *)
Definition in_category (c : Category) (alerts : list Alert) : list Alert :=
  filter (fun a => category a = c) alerts.

Definition titled (t : string) (alerts : list Alert) : list Alert :=
  filter (fun a => title a = t) alerts.

Definition not_in_category (c : Category) (alerts : list Alert)
  : list Alert :=
  filter (fun a => category a <> c) alerts.

(** A history the caller can pass: none, or an array of the store. *)
Definition valid_history (st : heap) (history : option ref) : Prop :=
  match history with
  | None => True
  | Some h => is_Some (st !! h)
  end.

(** The records of the history passed; none when there is no history. *)
Definition history_records (st : heap) (history : option ref)
  : list WaterRecord :=
  match history with
  | None => []
  | Some h => default [] (st !! h)
  end.

(** ** The titles of the trend alerts *)

Definition sustained_title : string := "📉 Sustained Water Level Decline".
Definition accelerating_title : string := "📊 Accelerating Depletion Trend".
Definition declining_title : string := "🌧️ Declining Rainfall Pattern".
Definition health_title : string := "⚡ Overall Water Health Declining".

Definition trend_title (t : string) : Prop :=
  t = sustained_title \/ t = accelerating_title \/
  t = declining_title \/ t = health_title.

(** ** The order of the categories and the time of the call *)

(** The categories in the order the checks run; the four trend checks
    come last. *)
Definition category_order : list Category :=
  [WaterLevel; Depletion; Rainfall; WaterQuality; Consumption; Scarcity;
   Trend; Trend; Trend; Trend].

(** An alert as a call at another time would have stamped it. *)
Definition with_timestamp (ts : string) (a : Alert) : Alert :=
  {| type := type a;
     category := category a;
     title := title a;
     message := message a;
     value := value a;
     threshold := threshold a;
     recommendation := recommendation a;
     timestamp := ts |}.

(** ** Missing numeric fields *)

(** The five numeric fields the threshold checks read. *)
Inductive NumericField : Type :=
  | f_groundwaterLevel | f_depletionRate | f_rainfall | f_ph | f_consumption.

Definition get_field (f : NumericField) (d : WaterRecord) : field :=
  match f with
  | f_groundwaterLevel => groundwaterLevel d
  | f_depletionRate => depletionRate d
  | f_rainfall => rainfall d
  | f_ph => ph d
  | f_consumption => consumption d
  end.

(** The record [d] with its field [f] replaced by [v]. *)
Definition set_field (f : NumericField) (v : field) (d : WaterRecord)
  : WaterRecord :=
  {| year := year d;
     location := location d;
     groundwaterLevel :=
       match f with f_groundwaterLevel => v | _ => groundwaterLevel d end;
     depletionRate :=
       match f with f_depletionRate => v | _ => depletionRate d end;
     rainfall := match f with f_rainfall => v | _ => rainfall d end;
     ph := match f with f_ph => v | _ => ph d end;
     agriculturalUsage := agriculturalUsage d;
     industrialUsage := industrialUsage d;
     householdUsage := householdUsage d;
     consumption := match f with f_consumption => v | _ => consumption d end;
     scarcityLevel := scarcityLevel d |}.

(** The category of the alert a field guards. *)
Definition guarded_category (f : NumericField) : Category :=
  match f with
  | f_groundwaterLevel => WaterLevel
  | f_depletionRate => Depletion
  | f_rainfall => Rainfall
  | f_ph => WaterQuality
  | f_consumption => Consumption
  end.

(** A value that never triggers the check of [f]: [undefined] for every
    field, and [null] for the fields compared with [>=] only. *)
Definition absent (f : NumericField) (v : field) : Prop :=
  v = Undefined \/
  (v = Null /\ (f = f_groundwaterLevel \/ f = f_depletionRate \/
                f = f_consumption)).

(** ** The result of a call *)

Section ResultOfACall.

(** The score of a record, as in [generateAlerts]. *)
Variable calculateWaterScore : WaterRecord -> float.

(** The two halves of the scores of the sorted history. *)
Definition firstHalf (sorted : list WaterRecord) : list float :=
  take (length sorted / 2) (map calculateWaterScore sorted).
Definition secondHalf (sorted : list WaterRecord) : list float :=
  drop (length sorted / 2) (map calculateWaterScore sorted).

Definition healthTrendAlerts (ts : string) (data : WaterRecord)
    (sorted : list WaterRecord) : list Alert :=
  let avgFirst := average (firstHalf sorted) in
  let avgSecond := average (secondHalf sorted) in
  if num_lt avgSecond (PrimFloat.sub avgFirst 10) then
    [healthDeclining ts data avgFirst avgSecond]
  else [].

(** The trend alerts, from the history sorted by year. *)
Definition trendAlerts (ts : string) (data : WaterRecord)
    (sorted : list WaterRecord) : list Alert :=
  waterLevelTrendAlerts ts data sorted ++ depletionTrendAlerts ts data sorted ++
  rainfallTrendAlerts ts data sorted ++ healthTrendAlerts ts data sorted.

(** The alerts returned for a record and the records of a history. *)
Definition alerts_for (ts : string) (data : WaterRecord)
    (records : list WaterRecord) : list Alert :=
  thresholdAlerts ts data ++
  (if 3 <=? length records
   then trendAlerts ts data (stable_sort comparefn records)
   else []).

(** The store after the call: the sorted copy is its one new array. *)
Definition store_after (st : heap) (records : list WaterRecord) : heap :=
  if 3 <=? length records then st ++ [stable_sort comparefn records] else st.

End ResultOfACall.

(** ** Sample records *)

(** A record of the district with the given year and metrics. *)
Definition reading (y : Z) (level depletion rain : float) : WaterRecord :=
  {| year := y;
     location := "Nashik";
     groundwaterLevel := Number level;
     depletionRate := Number depletion;
     rainfall := Number rain;
     ph := Number 7;
     agriculturalUsage := Number 200;
     industrialUsage := Number 60;
     householdUsage := Number 40;
     consumption := Number 300;
     scarcityLevel := "Moderate" |}.

(** Four years out of order in which the water level rises, the
    depletion rate rises and the rainfall falls year after year. *)
Definition four_years : list WaterRecord :=
  [reading 2022 10 3 860; reading 2020 8 1 900;
   reading 2023 11 4 840; reading 2021 9 2 880].

(** The first three of these years. *)
Definition three_years : list WaterRecord :=
  [reading 2022 10 3 860; reading 2020 8 1 900; reading 2021 9 2 880].

(** A zone classified High and one classified Extreme. *)
Definition high_zone : WaterRecord :=
  {| year := 2024; location := "Sinnar";
     groundwaterLevel := Number 13; depletionRate := Number 4;
     rainfall := Number 800; ph := Number 7;
     agriculturalUsage := Number 200; industrialUsage := Number 60;
     householdUsage := Number 40; consumption := Number 300;
     scarcityLevel := "High" |}.

Definition extreme_zone : WaterRecord :=
  {| year := 2024; location := "Yeola";
     groundwaterLevel := Number 13; depletionRate := Number 4;
     rainfall := Number 800; ph := Number 7;
     agriculturalUsage := Number 200; industrialUsage := Number 60;
     householdUsage := Number 40; consumption := Number 300;
     scarcityLevel := "Extreme" |}.

(** A stand-in for the scoring module: the score of a record is read
    off its [consumption] field. *)
Definition synthetic_score (d : WaterRecord) : float :=
  ToNumber (consumption d).

(** A record of the given year whose synthetic score is [score]. *)
Definition scored (y : Z) (score : float) : WaterRecord :=
  {| year := y;
     location := "Nashik";
     groundwaterLevel := Number 9;
     depletionRate := Number 3;
     rainfall := Number 900;
     ph := Number 7;
     agriculturalUsage := Undefined;
     industrialUsage := Undefined;
     householdUsage := Undefined;
     consumption := Number score;
     scarcityLevel := "Moderate" |}.

Definition now : string := "2026-11-01T00:00:00.000Z".

(** A record with no numeric field at all, and one where they are all
    [null]. *)
Definition no_metrics : WaterRecord :=
  {| year := 2024; location := "Nashik";
     groundwaterLevel := Undefined; depletionRate := Undefined;
     rainfall := Undefined; ph := Undefined;
     agriculturalUsage := Undefined; industrialUsage := Undefined;
     householdUsage := Undefined; consumption := Undefined;
     scarcityLevel := "Low" |}.

Definition null_metrics : WaterRecord :=
  {| year := 2024; location := "Nashik";
     groundwaterLevel := Null; depletionRate := Null;
     rainfall := Null; ph := Null;
     agriculturalUsage := Null; industrialUsage := Null;
     householdUsage := Null; consumption := Null;
     scarcityLevel := "Low" |}.

(** Five years of rising water levels. *)
Definition five_years : list WaterRecord :=
  [reading 2019 7 2 850; reading 2020 8 2 850; reading 2021 9 2 850;
   reading 2022 10 2 850; reading 2023 11 2 850].

(** One record a year from 2000 on, with the given water levels. *)
Definition yearly (levels : list float) : list WaterRecord :=
  imap (fun i level => reading (2000 + Z.of_nat i) level 2 850) levels.

(** Scores 80, 80 then 65, 65 (given out of order): the averages are 80
    and 65. *)
Definition declining_scores : list WaterRecord :=
  [scored 2023 65; scored 2020 80; scored 2022 65; scored 2021 80].

(** The five years of rising water levels, latest year first. *)
Definition five_years_backwards : list WaterRecord := rev five_years.



(** ** What an alert reports *)

(** The value and the threshold an alert of a threshold check carries:
    the field that was tested, and the bound of the branch that fired
    (the two bounds of the pH check as a text; none for Scarcity and for
    the trend alerts). *)
Definition well_reported (data : WaterRecord) (a : Alert) : Prop :=
  match category a with
  | WaterLevel =>
      value a = OfField (groundwaterLevel data) /\
      ((type a = critical /\ threshold a = Some (OfNumber 15)) \/
       (type a = warning /\ threshold a = Some (OfNumber 12)))
  | Depletion =>
      value a = OfField (depletionRate data) /\
      ((type a = critical /\ threshold a = Some (OfNumber 7)) \/
       (type a = warning /\ threshold a = Some (OfNumber 5)))
  | Rainfall =>
      value a = OfField (rainfall data) /\
      ((type a = critical /\ threshold a = Some (OfNumber 600)) \/
       (type a = warning /\ threshold a = Some (OfNumber 700)))
  | WaterQuality =>
      value a = OfField (ph data) /\ type a = warning /\
      threshold a = Some (OfTemplate [InterpNum 6.5; Lit "-"; InterpNum 8])
  | Consumption =>
      value a = OfField (consumption data) /\ type a = info /\
      threshold a = Some (OfNumber 500)
  | Scarcity =>
      value a = OfString (scarcityLevel data) /\ type a = critical /\
      threshold a = None
  | Trend => threshold a = None
  end.

(** The trend alerts in the order of the checks, each with its
    severity. *)
Definition trend_sequence : list (string * AlertType) :=
  [(sustained_title, warning); (accelerating_title, critical);
   (declining_title, warning); (health_title, warning)].

(** ** Reading the updates *)

(** The update with a given id. *)
Definition find_update (n : nat) (updates : list Gov.Update)
  : option Gov.Update :=
  head (filter (fun u => Gov.id u = n) updates).

(** The two verdicts of the Water Quality Assessment. *)
Definition acceptable_text : string :=
  "Water quality is within acceptable BIS standards.".
Definition attention_text : string := "Water quality needs attention.".

(** The verdict an update states: the text of its last interpolation. *)
Definition verdict (u : Gov.Update) : option part := last (Gov.body u).

(** ** Reading the badges *)

(** A number that is neither a zero, nor an infinity, nor NaN. *)
Definition finite_nonzero (x : float) : bool :=
  match Prim2SF x with
  | S754_finite _ _ _ => true
  | _ => false
  end.

(** A badge with green and red exchanged. *)
Definition opposite (t : Tone) : Tone :=
  match t with
  | gray => gray
  | green => red
  | red => green
  end.

Definition recoloured (b : Trend.Badge) : Trend.Badge :=
  {| Trend.tone := opposite (Trend.tone b);
     Trend.icon := Trend.icon b;
     Trend.label := Trend.label b;
     Trend.shown := Trend.shown b;
     Trend.unit := Trend.unit b;
     Trend.arrow := Trend.arrow b;
     Trend.percent := Trend.percent b |}.

(** ** More sample records *)

(** Two years only. *)
Definition two_years : list WaterRecord :=
  [reading 2021 9 2 880; reading 2020 8 1 900].

(** Five years in which the water level, the depletion rate and the
    rainfall go the bad way and then stay where they were. *)
Definition plateau_years : list WaterRecord :=
  [reading 2000 1 1 900; reading 2001 2 2 890; reading 2002 3 3 880;
   reading 2003 4 4 870; reading 2004 4 4 870].

(** A zone classified Severe, with a rainfall of 700 and a pH of 8. *)
Definition severe_zone : WaterRecord :=
  {| year := 2024; location := "Malegaon";
     groundwaterLevel := Number 16; depletionRate := Number 7;
     rainfall := Number 700; ph := Number 8;
     agriculturalUsage := Number 400; industrialUsage := Number 80;
     householdUsage := Number 60; consumption := Number 540;
     scarcityLevel := "Severe" |}.

(** * Properties *)

Example Math_round_examples :
  (Math_round (-10.5), Math_round 2.5, Math_round (-2.5), Math_round 0.25,
   Math_round (-0.25), Math_round 2.25, Math_round (-15), Math_round 7.5)%float
  = (-10, 3, -2, 0, neg_zero, 2, -15, 8)%float.
Proof. vm_compute. reflexivity. Qed.

(** ** The order of JavaScript numbers *)

Lemma SFcompare_antisym (a b : spec_float) (c : comparison) :
  SFcompare a b = Some c -> SFcompare b a = Some (CompOpp c).
Proof.
  destruct a as [sa|sa| |sa ma ea], b as [sb|sb| |sb mb eb]; simpl;
    try discriminate;
    try (destruct sa); try (destruct sb); simpl;
    intros [= <-]; try reflexivity;
    rewrite (Z.compare_antisym ea eb);
    destruct (ea ?= eb)%Z; simpl; try reflexivity;
    rewrite !Pos.compare_cont_spec; simpl;
    rewrite (Pos.compare_antisym ma mb);
    destruct (ma ?= mb)%positive; reflexivity.
Qed.

Lemma SFcompare_lt_le_trans (a b c : spec_float) (o : comparison) :
  SFcompare a b = Some Lt -> SFcompare b c = Some o -> o <> Gt ->
  SFcompare a c = Some Lt.
Proof.
  destruct a as [sa|sa| |sa ma ea], b as [sb|sb| |sb mb eb],
           c as [sc|sc| |sc mc ec]; simpl; try discriminate;
    try (destruct sa); try (destruct sb); try (destruct sc); simpl;
    try discriminate; try reflexivity; try congruence;
    rewrite ?Pos.compare_cont_spec; simpl;
    intros H1 H2 Ho;
    repeat match goal with
      | H : context [(?x ?= ?y)%Z] |- _ =>
          destruct (Z.compare_spec x y); simpl in H
      | H : context [(?x ?= ?y)%positive] |- _ =>
          destruct (Pos.compare_spec x y); simpl in H
      end; try discriminate; try congruence; subst;
    repeat match goal with
      | |- context [(?x ?= ?y)%Z] =>
          destruct (Z.compare_spec x y); simpl
      | |- context [(?x ?= ?y)%positive] =>
          destruct (Pos.compare_spec x y); simpl
      end; try reflexivity; try lia; try congruence.
Qed.

(** [x < y] excludes [x >= y]. *)
Lemma num_lt_not_ge (x y : float) : num_lt x y = true -> num_ge x y = false.
Proof.
  unfold num_lt, num_ge. rewrite FloatAxioms.ltb_spec, FloatAxioms.leb_spec. unfold SFltb, SFleb.
  destruct (SFcompare (Prim2SF x) (Prim2SF y)) as [[]|] eqn:E;
    try discriminate.
  intros _. now rewrite (SFcompare_antisym _ _ _ E).
Qed.

(** [x < y] and [y <= z] exclude [x >= z]. *)
Lemma num_lt_le_not_ge (x y z : float) :
  num_lt x y = true -> num_le y z = true -> num_ge x z = false.
Proof.
  unfold num_lt, num_le, num_ge. rewrite FloatAxioms.ltb_spec, !FloatAxioms.leb_spec.
  unfold SFltb, SFleb.
  destruct (SFcompare (Prim2SF x) (Prim2SF y)) as [[]|] eqn:E1;
    try discriminate.
  destruct (SFcompare (Prim2SF y) (Prim2SF z)) as [[]|] eqn:E2;
    try discriminate; intros _ _;
    (assert (E3 : SFcompare (Prim2SF x) (Prim2SF z) = Some Lt)
       by (eapply SFcompare_lt_le_trans; [exact E1 | exact E2 | discriminate]));
    now rewrite (SFcompare_antisym _ _ _ E3).
Qed.

(** A NaN operand makes every comparison false. *)
Lemma num_cmp_nan_l (y : float) :
  num_ge nan y = false /\ num_le nan y = false /\
  num_gt nan y = false /\ num_lt nan y = false.
Proof.
  unfold num_ge, num_le, num_gt, num_lt. rewrite !FloatAxioms.ltb_spec, !FloatAxioms.leb_spec.
  unfold SFltb, SFleb.
  change (Prim2SF nan) with S754_nan.
  destruct (Prim2SF y); simpl; auto.
Qed.

(** [<] is strict: no number is below itself. *)
Lemma num_lt_irrefl (x : float) : num_lt x x = false.
Proof.
  unfold num_lt. rewrite FloatAxioms.ltb_spec. unfold SFltb.
  destruct (SFcompare (Prim2SF x) (Prim2SF x)) as [[]|] eqn:E;
    try reflexivity.
  pose proof (SFcompare_antisym _ _ _ E) as E'. simpl in E'. congruence.
Qed.


(** ** The mean and the rounding of the health check

    [average] is the mean in IEEE arithmetic, and [Math_round] gives the
    integer nearest to the exact value of its argument. *)















(** ** Stable sorting *)

Section Sorting.
Context {A : Type} (cmp : A -> A -> Z).

Lemma insert_sorted_Permutation (x : A) (l : list A) :
  insert_sorted cmp x l ≡ₚ x :: l.
Proof.
  induction l as [|y l IH]; simpl; [done|].
  destruct (0 <? cmp x y)%Z; [|done].
  rewrite IH. apply Permutation_swap.
Qed.

Lemma stable_sort_Permutation (l : list A) : stable_sort cmp l ≡ₚ l.
Proof.
  induction l as [|x l IH]; simpl; [done|].
  now rewrite insert_sorted_Permutation, IH.
Qed.

Lemma stable_sort_length (l : list A) :
  length (stable_sort cmp l) = length l.
Proof. apply Permutation_length, stable_sort_Permutation. Qed.

End Sorting.

Lemma insert_sorted_year (x : WaterRecord) (l : list WaterRecord) :
  Sorted year_le l -> Sorted year_le (insert_sorted comparefn x l).
Proof.
  induction 1 as [|y l Hl IH Hhd]; simpl.
  - repeat constructor.
  - unfold comparefn at 1. destruct (Z.ltb_spec 0 (year x - year y)) as [Hc|Hc].
    + constructor; [exact IH|].
      destruct l as [|z l]; simpl.
      * constructor. unfold year_le. lia.
      * unfold comparefn. destruct (0 <? year x - year z)%Z.
        -- constructor. now inversion Hhd.
        -- constructor. unfold year_le. lia.
    + constructor; [now constructor|]. constructor. unfold year_le. lia.
Qed.

Lemma stable_sort_year_Sorted (l : list WaterRecord) :
  Sorted year_le (stable_sort comparefn l).
Proof.
  induction l as [|x l IH]; simpl; [constructor|].
  now apply insert_sorted_year.
Qed.

(** Records of the same year keep the order they had (stability):
    the records of any one year, read off the sorted array, are those
    of the history in their order there. *)
Lemma insert_sorted_filter_year (y : Z) (x : WaterRecord)
    (l : list WaterRecord) :
  Sorted year_le l ->
  filter (fun d => year d = y) (insert_sorted comparefn x l)
  = filter (fun d => year d = y) (x :: l).
Proof.
  induction 1 as [|z l Hl IH Hhd]; simpl; [done|].
  unfold comparefn at 1. destruct (Z.ltb_spec 0 (year x - year z)) as [Hc|Hc];
    [|done].
  rewrite !filter_cons in *. rewrite IH.
  destruct (decide (year x = y)), (decide (year z = y)); try done; lia.
Qed.

Lemma stable_sort_stable (y : Z) (l : list WaterRecord) :
  filter (fun d => year d = y) (stable_sort comparefn l)
  = filter (fun d => year d = y) l.
Proof.
  induction l as [|x l IH]; simpl; [done|].
  rewrite insert_sorted_filter_year by apply stable_sort_year_Sorted.
  rewrite !filter_cons. now rewrite IH.
Qed.

Lemma year_le_head_min (a : WaterRecord) (l : list WaterRecord) :
  Sorted year_le (a :: l) -> forall x, x ∈ a :: l -> year_le a x.
Proof.
  intros Hs. apply Sorted_StronglySorted in Hs.
  - apply StronglySorted_inv in Hs as [_ Hall].
    intros x [->|Hx]%elem_of_cons; [unfold year_le; lia|].
    rewrite Forall_forall in Hall. now apply Hall.
  - intros x y z. unfold year_le. lia.
Qed.

(** Two lists sorted by year that hold, for each year, the same records
    in the same order are the same list. *)
Lemma year_sorted_unique (l1 l2 : list WaterRecord) :
  Sorted year_le l1 -> Sorted year_le l2 ->
  (forall y, filter (fun d => year d = y) l1
             = filter (fun d => year d = y) l2) ->
  l1 = l2.
Proof.
  revert l2. induction l1 as [|a l1 IH]; intros [|b l2] S1 S2 Hf; [done| | |].
  - specialize (Hf (year b)). rewrite filter_cons in Hf.
    now destruct (decide (year b = year b)).
  - specialize (Hf (year a)). rewrite filter_cons in Hf.
    now destruct (decide (year a = year a)).
  - assert (Hab : year a = year b).
    { assert (Ha : a ∈ b :: l2).
      { pose proof (Hf (year a)) as H.
        assert (Hin : a ∈ filter (fun d => year d = year a) (a :: l1))
          by (apply list_elem_of_filter; split; [done|left]).
        rewrite H in Hin. now apply list_elem_of_filter in Hin as [_ ?]. }
      assert (Hb : b ∈ a :: l1).
      { pose proof (Hf (year b)) as H.
        assert (Hin : b ∈ filter (fun d => year d = year b) (b :: l2))
          by (apply list_elem_of_filter; split; [done|left]).
        rewrite <- H in Hin. now apply list_elem_of_filter in Hin as [_ ?]. }
      pose proof (year_le_head_min _ _ S2 a Ha).
      pose proof (year_le_head_min _ _ S1 b Hb).
      unfold year_le in *. lia. }
    assert (a = b).
    { specialize (Hf (year a)). rewrite !filter_cons in Hf.
      destruct (decide (year a = year a)); [|done].
      destruct (decide (year b = year a)); [|lia]. now injection Hf. }
    subst b. f_equal. apply IH.
    + now apply Sorted_inv in S1.
    + now apply Sorted_inv in S2.
    + intros y. specialize (Hf y). rewrite !filter_cons in Hf.
      destruct (decide (year a = y)); [now injection Hf|done].
Qed.

(** So the sorted copy does not depend on how the engine sorts: every
    stable sort by year returns [stable_sort comparefn]. *)
Lemma stable_sort_unique (l sorted : list WaterRecord) :
  Sorted year_le sorted ->
  (forall y, filter (fun d => year d = y) sorted
             = filter (fun d => year d = y) l) ->
  sorted = stable_sort comparefn l.
Proof.
  intros Hs Hf. apply year_sorted_unique; [exact Hs| |].
  - apply stable_sort_year_Sorted.
  - intros y. now rewrite Hf, stable_sort_stable.
Qed.

Lemma filter_year_none (y : Z) (l : list WaterRecord) :
  y ∉ map year l -> filter (fun d => year d = y) l = [].
Proof.
  induction l as [|x l IH]; [done|].
  cbn [map]. rewrite not_elem_of_cons. intros [Hx Hl].
  rewrite filter_cons. destruct (decide (year x = y)); [congruence|auto].
Qed.

Lemma filter_year_short (y : Z) (l : list WaterRecord) :
  NoDup (map year l) -> length (filter (fun d => year d = y) l) <= 1.
Proof.
  induction l as [|x l IH]; [cbn; lia|].
  cbn [map]. rewrite NoDup_cons. intros [Hx Hl].
  rewrite filter_cons. destruct (decide (year x = y)) as [<-|]; [|auto].
  rewrite filter_year_none by exact Hx. cbn. lia.
Qed.

(** With one record a year, the sorted copy does not depend on the
    order in which the caller gives the records. *)
Lemma stable_sort_Permutation_eq (l1 l2 : list WaterRecord) :
  l1 ≡ₚ l2 -> NoDup (map year l1) ->
  stable_sort comparefn l1 = stable_sort comparefn l2.
Proof.
  intros Hp Hnd. apply stable_sort_unique; [apply stable_sort_year_Sorted|].
  intros y. rewrite stable_sort_stable.
  pose proof (filter_year_short y l1 Hnd) as Hlen.
  assert (Hf : filter (fun d => year d = y) l1
               ≡ₚ filter (fun d => year d = y) l2) by (now rewrite Hp).
  destruct (filter (fun d => year d = y) l1) as [|a [|b k]];
    cbn [length] in Hlen; [| |lia].
  - now apply Permutation_nil_l in Hf.
  - now apply Permutation_singleton_l in Hf.
Qed.

(** The sorted copy of the engine is the history sorted by year, and it is
    the only list that is. *)
Lemma sorted_by_year_stable_sort (records : list WaterRecord) :
  sorted_by_year records (stable_sort comparefn records).
Proof.
  split; [apply stable_sort_year_Sorted|].
  intros y. apply stable_sort_stable.
Qed.

Lemma sorted_by_year_unique (records sorted : list WaterRecord) :
  sorted_by_year records sorted -> sorted = stable_sort comparefn records.
Proof. intros [Hs Hf]. now apply stable_sort_unique. Qed.

Lemma sorted_by_year_Permutation (records sorted : list WaterRecord) :
  sorted_by_year records sorted -> sorted ≡ₚ records.
Proof.
  intros H. rewrite (sorted_by_year_unique _ _ H).
  apply stable_sort_Permutation.
Qed.

(** With one record a year, any arrangement of the records in which the
    years go up is the history sorted by year. *)
Lemma sorted_by_year_distinct (records sorted : list WaterRecord) :
  Sorted year_le sorted -> sorted ≡ₚ records -> NoDup (map year records) ->
  sorted_by_year records sorted.
Proof.
  intros Hs Hp Hnd. split; [exact Hs|]. intros y.
  pose proof (filter_year_short y records Hnd) as Hlen.
  assert (Hf : filter (fun d => year d = y) records
               ≡ₚ filter (fun d => year d = y) sorted) by (now rewrite Hp).
  destruct (filter (fun d => year d = y) records) as [|a [|b k]];
    cbn [length] in Hlen; [| |lia].
  - now apply Permutation_nil_l in Hf.
  - now apply Permutation_singleton_l in Hf.
Qed.

(** ** Running the array operations *)

Lemma bind_Ok {A B} (m : M A) (k : A -> M B) (st st' : heap) (a : A) :
  m st = Ok a st' -> bind m k st = k a st'.
Proof. unfold bind. now intros ->. Qed.

Lemma Array_elements_run (st : heap) (r : ref) (arr : list WaterRecord) :
  st !! r = Some arr -> Array_elements r st = Ok arr st.
Proof. unfold Array_elements. now intros ->. Qed.

Lemma Array_length_run (st : heap) (r : ref) (arr : list WaterRecord) :
  st !! r = Some arr -> Array_length r st = Ok (length arr) st.
Proof.
  intros H. unfold Array_length.
  now rewrite (bind_Ok _ _ _ _ _ (Array_elements_run _ _ _ H)).
Qed.

Lemma Array_get_run (st : heap) (r : ref) (arr : list WaterRecord) (i : nat) :
  st !! r = Some arr ->
  Array_get r (Z.of_nat i) st = Ok (arr !! i) st.
Proof.
  intros H. unfold Array_get.
  rewrite (bind_Ok _ _ _ _ _ (Array_elements_run _ _ _ H)). unfold ret.
  destruct (Z.ltb_spec (Z.of_nat i) 0); [lia|]. now rewrite Nat2Z.id.
Qed.


(** ** The trend loops as a scan of the adjacent pairs *)

Lemma steps_length worse (l : list WaterRecord) :
  length (steps worse l) = length l - 1.
Proof.
  induction l as [|x [|y l] IH]; simpl in *; try done. rewrite IH. lia.
Qed.

(** Step [i] compares record [i + 1] with record [i]. *)
Lemma steps_lookup worse (l : list WaterRecord) (i : nat)
    (prev cur : WaterRecord) :
  l !! i = Some prev -> l !! S i = Some cur ->
  steps worse l !! i = Some (worse cur prev).
Proof.
  revert i. induction l as [|x [|y l] IH]; intros i Hp Hc.
  - apply lookup_lt_Some in Hc. cbn in Hc. lia.
  - apply lookup_lt_Some in Hc. cbn in Hc. lia.
  - destruct i as [|i].
    + cbn in Hp, Hc. now simplify_eq.
    + cbn [steps]. exact (IH i Hp Hc).
Qed.

Lemma count_from_le (c : nat) (bs : list bool) :
  count_from c bs <= c + length bs.
Proof.
  revert c. induction bs as [|[] bs IH]; intros c; simpl; [lia| |].
  - specialize (IH (S c)). unfold count_from in *. lia.
  - specialize (IH 0). unfold count_from in *. lia.
Qed.

Lemma count_streak_le (bs : list bool) : count_streak bs <= length bs.
Proof. apply (count_from_le 0). Qed.

Lemma for_each_steps (st : heap) (r : ref) (arr : list WaterRecord)
    (worse : WaterRecord -> WaterRecord -> bool) :
  st !! r = Some arr ->
  forall (rest pre : list WaterRecord) (prev : WaterRecord) (c : nat),
    arr = pre ++ prev :: rest ->
    for_each (seq (S (length pre)) (length rest))
      (fun (i count : nat) =>
         let* cur := Array_get r (Z.of_nat i) in
         let* c := prop id cur in
         let* prev := Array_get r (Z.of_nat i - 1) in
         let* p := prop id prev in
         ret (if worse c p then S count else 0)) c st
    = Ok (count_from c (steps worse (prev :: rest))) st.
Proof.
  intros Hr. induction rest as [|cur rest IH]; intros pre prev c Harr.
  - reflexivity.
  - cbn [length seq for_each].
    assert (Hcur : arr !! S (length pre) = Some cur).
    { subst arr. rewrite lookup_app_r by lia.
      now replace (S (length pre) - length pre) with 1 by lia. }
    assert (Hprev : arr !! length pre = Some prev).
    { subst arr. rewrite lookup_app_r by lia. now rewrite Nat.sub_diag. }
    erewrite bind_Ok; cycle 1.
    { unfold bind. rewrite (Array_get_run _ _ _ _ Hr), Hcur. cbn [prop ret].
      replace (Z.of_nat (S (length pre)) - 1)%Z with (Z.of_nat (length pre))
        by lia.
      rewrite (Array_get_run _ _ _ _ Hr), Hprev. reflexivity. }
    cbn [id].
    specialize (IH (pre ++ [prev]) cur
                  (if worse cur prev then S c else 0)).
    rewrite length_app, Nat.add_1_r in IH.
    rewrite IH by (now rewrite <- app_assoc).
    reflexivity.
Qed.

Lemma streak_run (st : heap) (r : ref) (arr : list WaterRecord)
    (worse : WaterRecord -> WaterRecord -> bool) :
  st !! r = Some arr ->
  streak r worse st = Ok (count_streak (steps worse arr)) st.
Proof.
  intros Hr. unfold streak.
  rewrite (bind_Ok _ _ _ _ _ (Array_length_run _ _ _ Hr)).
  destruct arr as [|x rest]; [reflexivity|].
  cbn [length]. rewrite Nat.sub_succ, Nat.sub_0_r.
  exact (for_each_steps st r (x :: rest) worse Hr rest [] x 0 eq_refl).
Qed.

(** ** What each block of [generateAlerts] appends *)

Ltac split_ifs :=
  repeat match goal with
    | |- context [if ?b then _ else _] => destruct b
    end.

Lemma waterLevelAlerts_app ts data (alerts : list Alert) :
  waterLevelAlerts ts data alerts = alerts ++ waterLevelAlerts ts data [].
Proof. unfold waterLevelAlerts, push. split_ifs; now rewrite ?app_nil_r. Qed.

Lemma depletionAlerts_app ts data (alerts : list Alert) :
  depletionAlerts ts data alerts = alerts ++ depletionAlerts ts data [].
Proof. unfold depletionAlerts, push. split_ifs; now rewrite ?app_nil_r. Qed.

Lemma rainfallAlerts_app ts data (alerts : list Alert) :
  rainfallAlerts ts data alerts = alerts ++ rainfallAlerts ts data [].
Proof. unfold rainfallAlerts, push. split_ifs; now rewrite ?app_nil_r. Qed.

Lemma phAlerts_app ts data (alerts : list Alert) :
  phAlerts ts data alerts = alerts ++ phAlerts ts data [].
Proof. unfold phAlerts, push. split_ifs; now rewrite ?app_nil_r. Qed.

Lemma consumptionAlert_app ts data (alerts : list Alert) :
  consumptionAlert ts data alerts = alerts ++ consumptionAlert ts data [].
Proof. unfold consumptionAlert, push. split_ifs; now rewrite ?app_nil_r. Qed.

Lemma scarcityAlert_app ts data (alerts : list Alert) :
  scarcityAlert ts data alerts = alerts ++ scarcityAlert ts data [].
Proof. unfold scarcityAlert, push. split_ifs; now rewrite ?app_nil_r. Qed.

Lemma threshold_chain ts data :
  scarcityAlert ts data
    (consumptionAlert ts data
      (phAlerts ts data
        (rainfallAlerts ts data
          (depletionAlerts ts data (waterLevelAlerts ts data [])))))
  = thresholdAlerts ts data.
Proof.
  rewrite scarcityAlert_app, consumptionAlert_app, phAlerts_app,
    rainfallAlerts_app, depletionAlerts_app.
  unfold thresholdAlerts. now rewrite <- !app_assoc.
Qed.

Lemma waterLevelTrend_run (st : heap) (r : ref) (arr : list WaterRecord)
    ts data (alerts : list Alert) :
  st !! r = Some arr ->
  waterLevelTrend ts data r alerts st
  = Ok (alerts ++ waterLevelTrendAlerts ts data arr) st.
Proof.
  intros Hr. unfold waterLevelTrend, waterLevelTrendAlerts.
  rewrite (bind_Ok _ _ _ _ _ (streak_run st r arr rising Hr)).
  pose proof (count_streak_le (steps rising arr)) as Hle.
  rewrite steps_length in Hle.
  destruct (Nat.leb_spec 3 (count_streak (steps rising arr))) as [Hc|Hc];
    [|now rewrite app_nil_r].
  set (count := count_streak (steps rising arr)) in *.
  rewrite (bind_Ok _ _ _ _ _ (Array_length_run _ _ _ Hr)).
  replace (Z.of_nat (length arr) - 1)%Z with (Z.of_nat (length arr - 1))
    by lia.
  rewrite (bind_Ok _ _ _ _ _ (Array_get_run _ _ _ _ Hr)).
  destruct (lookup_lt_is_Some_2 arr (length arr - 1)) as [last Hlast];
    [lia|].
  rewrite Hlast. cbn [prop]. rewrite (bind_Ok _ _ st st (groundwaterLevel last))
    by reflexivity.
  replace (Z.of_nat (length arr - 1) - Z.of_nat count)%Z
    with (Z.of_nat (length arr - 1 - count)) by lia.
  rewrite (bind_Ok _ _ _ _ _ (Array_get_run _ _ _ _ Hr)).
  destruct (lookup_lt_is_Some_2 arr (length arr - 1 - count)) as [first Hfirst];
    [lia|].
  rewrite Hfirst. cbn [prop]. rewrite (bind_Ok _ _ st st (groundwaterLevel first))
    by reflexivity.
  unfold level_at. rewrite Hlast, Hfirst. reflexivity.
Qed.

Lemma depletionTrend_run (st : heap) (r : ref) (arr : list WaterRecord)
    ts data (alerts : list Alert) :
  st !! r = Some arr ->
  depletionTrend ts data r alerts st
  = Ok (alerts ++ depletionTrendAlerts ts data arr) st.
Proof.
  intros Hr. unfold depletionTrend, depletionTrendAlerts.
  rewrite (bind_Ok _ _ _ _ _ (streak_run st r arr depleting Hr)).
  unfold ret. destruct (3 <=? _); [reflexivity|now rewrite app_nil_r].
Qed.

Lemma rainfallTrend_run (st : heap) (r : ref) (arr : list WaterRecord)
    ts data (alerts : list Alert) :
  st !! r = Some arr ->
  rainfallTrend ts data r alerts st
  = Ok (alerts ++ rainfallTrendAlerts ts data arr) st.
Proof.
  intros Hr. unfold rainfallTrend, rainfallTrendAlerts.
  rewrite (bind_Ok _ _ _ _ _ (streak_run st r arr drying Hr)).
  unfold ret. destruct (3 <=? _); [reflexivity|now rewrite app_nil_r].
Qed.

(** ** Reading the result *)

Lemma in_category_same (c : Category) (l : list Alert) :
  Forall (fun a => category a = c) l -> in_category c l = l.
Proof.
  unfold in_category. induction 1 as [|a l Ha _ IH]; [done|].
  rewrite filter_cons, IH. now destruct (decide (category a = c)).
Qed.

Lemma in_category_other (c c' : Category) (l : list Alert) :
  c <> c' -> Forall (fun a => category a = c') l -> in_category c l = [].
Proof.
  unfold in_category. intros Hne. induction 1 as [|a l Ha _ IH]; [done|].
  rewrite filter_cons, IH. destruct (decide (category a = c)); congruence.
Qed.

Lemma titled_none (t : string) (l : list Alert) :
  Forall (fun a => title a <> t) l -> titled t l = [].
Proof.
  unfold titled. induction 1 as [|a l Ha _ IH]; [done|].
  rewrite filter_cons, IH. now destruct (decide (title a = t)).
Qed.

Ltac block_category :=
  intros; split_ifs; unfold push; simpl; repeat constructor.

Lemma waterLevelAlerts_category ts data :
  Forall (fun a => category a = WaterLevel) (waterLevelAlerts ts data []).
Proof. unfold waterLevelAlerts. block_category. Qed.

Lemma depletionAlerts_category ts data :
  Forall (fun a => category a = Depletion) (depletionAlerts ts data []).
Proof. unfold depletionAlerts. block_category. Qed.

Lemma rainfallAlerts_category ts data :
  Forall (fun a => category a = Rainfall) (rainfallAlerts ts data []).
Proof. unfold rainfallAlerts. block_category. Qed.

Lemma phAlerts_category ts data :
  Forall (fun a => category a = WaterQuality) (phAlerts ts data []).
Proof. unfold phAlerts. block_category. Qed.

Lemma consumptionAlert_category ts data :
  Forall (fun a => category a = Consumption) (consumptionAlert ts data []).
Proof. unfold consumptionAlert. block_category. Qed.

Lemma scarcityAlert_category ts data :
  Forall (fun a => category a = Scarcity) (scarcityAlert ts data []).
Proof. unfold scarcityAlert. block_category. Qed.

Ltac filter_block blk blk_category cat :=
  match goal with
  | |- context [in_category ?c (blk ?ts ?d [])] =>
      first
        [ rewrite (in_category_same c _ (blk_category ts d))
        | rewrite (in_category_other c cat _ ltac:(discriminate)
                     (blk_category ts d)) ]
  end.

Ltac filter_blocks :=
  filter_block waterLevelAlerts waterLevelAlerts_category WaterLevel;
  filter_block depletionAlerts depletionAlerts_category Depletion;
  filter_block rainfallAlerts rainfallAlerts_category Rainfall;
  filter_block phAlerts phAlerts_category WaterQuality;
  filter_block consumptionAlert consumptionAlert_category Consumption;
  filter_block scarcityAlert scarcityAlert_category Scarcity.

Lemma in_category_app (c : Category) (l k : list Alert) :
  in_category c (l ++ k) = in_category c l ++ in_category c k.
Proof. apply filter_app. Qed.

Lemma in_category_threshold (c : Category) ts data :
  in_category c (thresholdAlerts ts data) = block_of c ts data.
Proof.
  unfold thresholdAlerts. rewrite !in_category_app.
  destruct c; cbn [block_of]; filter_blocks; now rewrite ?app_nil_r.
Qed.

Lemma waterLevelTrendAlerts_category ts data sorted :
  Forall (fun a => category a = Trend) (waterLevelTrendAlerts ts data sorted).
Proof. unfold waterLevelTrendAlerts. block_category. Qed.

Lemma depletionTrendAlerts_category ts data sorted :
  Forall (fun a => category a = Trend) (depletionTrendAlerts ts data sorted).
Proof. unfold depletionTrendAlerts. block_category. Qed.

Lemma rainfallTrendAlerts_category ts data sorted :
  Forall (fun a => category a = Trend) (rainfallTrendAlerts ts data sorted).
Proof. unfold rainfallTrendAlerts. block_category. Qed.

(** ** The titles of the trend alerts *)

Ltac other_titles :=
  intros [-> | [-> | [-> | ->]]]; split_ifs; unfold push; cbn [app];
  repeat constructor; cbn [title String.append]; discriminate.

Lemma waterLevelAlerts_titles ts data t :
  trend_title t -> Forall (fun a => title a <> t) (waterLevelAlerts ts data []).
Proof. unfold waterLevelAlerts. other_titles. Qed.

Lemma depletionAlerts_titles ts data t :
  trend_title t -> Forall (fun a => title a <> t) (depletionAlerts ts data []).
Proof. unfold depletionAlerts. other_titles. Qed.

Lemma rainfallAlerts_titles ts data t :
  trend_title t -> Forall (fun a => title a <> t) (rainfallAlerts ts data []).
Proof. unfold rainfallAlerts. other_titles. Qed.

Lemma phAlerts_titles ts data t :
  trend_title t -> Forall (fun a => title a <> t) (phAlerts ts data []).
Proof. unfold phAlerts. other_titles. Qed.

Lemma consumptionAlert_titles ts data t :
  trend_title t -> Forall (fun a => title a <> t) (consumptionAlert ts data []).
Proof. unfold consumptionAlert. other_titles. Qed.

Lemma scarcityAlert_titles ts data t :
  trend_title t -> Forall (fun a => title a <> t) (scarcityAlert ts data []).
Proof. unfold scarcityAlert. other_titles. Qed.

(** No threshold alert has the title of a trend alert. *)
Lemma thresholdAlerts_titles ts data t :
  trend_title t -> titled t (thresholdAlerts ts data) = [].
Proof.
  intros Ht. apply titled_none. unfold thresholdAlerts. rewrite !Forall_app.
  auto 10 using waterLevelAlerts_titles, depletionAlerts_titles,
    rainfallAlerts_titles, phAlerts_titles, consumptionAlert_titles,
    scarcityAlert_titles.
Qed.

Lemma titled_app (t : string) (l k : list Alert) :
  titled t (l ++ k) = titled t l ++ titled t k.
Proof. apply filter_app. Qed.

Lemma titled_one (t : string) (a : Alert) :
  title a = t -> titled t [a] = [a].
Proof.
  intros H. unfold titled. rewrite filter_cons.
  now destruct (decide (title a = t)).
Qed.

Lemma titled_skip (t : string) (a : Alert) :
  title a <> t -> titled t [a] = [].
Proof.
  intros H. unfold titled. rewrite filter_cons.
  now destruct (decide (title a = t)).
Qed.

(** Each trend check is alone in using its title. *)
Lemma waterLevelTrendAlerts_titled ts data sorted t :
  trend_title t ->
  titled t (waterLevelTrendAlerts ts data sorted)
  = if decide (t = sustained_title)
    then waterLevelTrendAlerts ts data sorted else [].
Proof.
  unfold waterLevelTrendAlerts.
  intros [-> | [-> | [-> | ->]]]; cbv zeta; destruct (3 <=? _);
    try reflexivity;
    first [ now rewrite titled_one | now rewrite titled_skip ].
Qed.

Lemma depletionTrendAlerts_titled ts data sorted t :
  trend_title t ->
  titled t (depletionTrendAlerts ts data sorted)
  = if decide (t = accelerating_title)
    then depletionTrendAlerts ts data sorted else [].
Proof.
  unfold depletionTrendAlerts.
  intros [-> | [-> | [-> | ->]]]; cbv zeta; destruct (3 <=? _);
    try reflexivity;
    first [ now rewrite titled_one | now rewrite titled_skip ].
Qed.

Lemma rainfallTrendAlerts_titled ts data sorted t :
  trend_title t ->
  titled t (rainfallTrendAlerts ts data sorted)
  = if decide (t = declining_title)
    then rainfallTrendAlerts ts data sorted else [].
Proof.
  unfold rainfallTrendAlerts.
  intros [-> | [-> | [-> | ->]]]; cbv zeta; destruct (3 <=? _);
    try reflexivity;
    first [ now rewrite titled_one | now rewrite titled_skip ].
Qed.

(** ** The trailing run *)

Lemma count_from_snoc (c : nat) (bs : list bool) (b : bool) :
  count_from c (bs ++ [b]) = if b then S (count_from c bs) else 0.
Proof. unfold count_from. now rewrite fold_left_app. Qed.

(** The counter of the loop ends on the trailing run. *)
Lemma count_streak_trailing_run (bs : list bool) :
  count_streak bs = trailing_run bs.
Proof.
  unfold count_streak, trailing_run.
  induction bs as [|b bs IH] using rev_ind; [reflexivity|].
  rewrite count_from_snoc, rev_app_distr. cbn [rev app leading_run].
  destruct b; now rewrite ?IH.
Qed.

(** The trailing run is the whole tail of [true]s: what comes before it
    is empty or ends on a [false]. *)
Lemma trailing_run_spec (bs : list bool) :
  exists pre,
    bs = pre ++ replicate (trailing_run bs) true /\
    (pre = [] \/ exists pre', pre = pre' ++ [false]).
Proof.
  unfold trailing_run.
  induction bs as [|b bs [pre [Hbs Hpre]]] using rev_ind.
  - exists []. now split; [|left].
  - rewrite rev_app_distr. cbn [rev app leading_run]. destruct b.
    + exists pre. split; [|exact Hpre].
      rewrite Hbs at 1. rewrite <- app_assoc. f_equal.
      change [true] with (replicate 1 true).
      rewrite <- replicate_add. f_equal. lia.
    + exists (bs ++ [false]). split; [now rewrite app_nil_r|].
      right. now exists bs.
Qed.

Lemma count_from_all (c : nat) (bs : list bool) :
  forallb id bs = true -> count_from c bs = c + length bs.
Proof.
  revert c. induction bs as [|b bs IH]; intros c; cbn [forallb length].
  - intros _. unfold count_from. simpl. lia.
  - intros [Hb Hbs]%andb_prop. destruct b; [|discriminate].
    change (count_from c (true :: bs)) with (count_from (S c) bs).
    rewrite IH by exact Hbs. lia.
Qed.

Lemma count_streak_all (bs : list bool) :
  forallb id bs = true -> count_streak bs = length bs.
Proof. apply (count_from_all 0). Qed.

(** ** The order of the categories and the time of the call *)

Ltac by_cases_on_ifs := intros; split_ifs; reflexivity.

Lemma waterLevelAlerts_retime ts ts' data :
  waterLevelAlerts ts' data []
  = map (with_timestamp ts') (waterLevelAlerts ts data []).
Proof. unfold waterLevelAlerts. by_cases_on_ifs. Qed.

Lemma depletionAlerts_retime ts ts' data :
  depletionAlerts ts' data []
  = map (with_timestamp ts') (depletionAlerts ts data []).
Proof. unfold depletionAlerts. by_cases_on_ifs. Qed.

Lemma rainfallAlerts_retime ts ts' data :
  rainfallAlerts ts' data []
  = map (with_timestamp ts') (rainfallAlerts ts data []).
Proof. unfold rainfallAlerts. by_cases_on_ifs. Qed.

Lemma phAlerts_retime ts ts' data :
  phAlerts ts' data [] = map (with_timestamp ts') (phAlerts ts data []).
Proof. unfold phAlerts. by_cases_on_ifs. Qed.

Lemma consumptionAlert_retime ts ts' data :
  consumptionAlert ts' data []
  = map (with_timestamp ts') (consumptionAlert ts data []).
Proof. unfold consumptionAlert. by_cases_on_ifs. Qed.

Lemma scarcityAlert_retime ts ts' data :
  scarcityAlert ts' data []
  = map (with_timestamp ts') (scarcityAlert ts data []).
Proof. unfold scarcityAlert. by_cases_on_ifs. Qed.

Lemma thresholdAlerts_retime ts ts' data :
  thresholdAlerts ts' data
  = map (with_timestamp ts') (thresholdAlerts ts data).
Proof.
  unfold thresholdAlerts. rewrite !map_app.
  now rewrite <- waterLevelAlerts_retime, <- depletionAlerts_retime,
    <- rainfallAlerts_retime, <- phAlerts_retime,
    <- consumptionAlert_retime, <- scarcityAlert_retime.
Qed.

Lemma waterLevelTrendAlerts_retime ts ts' data sorted :
  waterLevelTrendAlerts ts' data sorted
  = map (with_timestamp ts') (waterLevelTrendAlerts ts data sorted).
Proof. unfold waterLevelTrendAlerts. by_cases_on_ifs. Qed.

Lemma depletionTrendAlerts_retime ts ts' data sorted :
  depletionTrendAlerts ts' data sorted
  = map (with_timestamp ts') (depletionTrendAlerts ts data sorted).
Proof. unfold depletionTrendAlerts. by_cases_on_ifs. Qed.

Lemma rainfallTrendAlerts_retime ts ts' data sorted :
  rainfallTrendAlerts ts' data sorted
  = map (with_timestamp ts') (rainfallTrendAlerts ts data sorted).
Proof. unfold rainfallTrendAlerts. by_cases_on_ifs. Qed.

(** A list of alerts of one category, one alert at most. *)
Lemma one_category_sublist (c : Category) (l : list Alert) :
  Forall (fun a => category a = c) l -> length l <= 1 ->
  map category l `sublist_of` [c].
Proof.
  intros Hc Hlen. destruct l as [|a [|b l]]; cbn in *; try lia.
  - apply sublist_nil_l.
  - inversion_clear Hc as [|? ? Ha _]. now rewrite Ha.
Qed.

Ltac at_most_one := intros; split_ifs; cbn; lia.

Lemma waterLevelAlerts_length ts data :
  length (waterLevelAlerts ts data []) <= 1.
Proof. unfold waterLevelAlerts. at_most_one. Qed.

Lemma depletionAlerts_length ts data :
  length (depletionAlerts ts data []) <= 1.
Proof. unfold depletionAlerts. at_most_one. Qed.

Lemma rainfallAlerts_length ts data :
  length (rainfallAlerts ts data []) <= 1.
Proof. unfold rainfallAlerts. at_most_one. Qed.

Lemma phAlerts_length ts data : length (phAlerts ts data []) <= 1.
Proof. unfold phAlerts. at_most_one. Qed.

Lemma consumptionAlert_length ts data :
  length (consumptionAlert ts data []) <= 1.
Proof. unfold consumptionAlert. at_most_one. Qed.

Lemma scarcityAlert_length ts data :
  length (scarcityAlert ts data []) <= 1.
Proof. unfold scarcityAlert. at_most_one. Qed.

Lemma waterLevelTrendAlerts_length ts data sorted :
  length (waterLevelTrendAlerts ts data sorted) <= 1.
Proof. unfold waterLevelTrendAlerts. at_most_one. Qed.

Lemma depletionTrendAlerts_length ts data sorted :
  length (depletionTrendAlerts ts data sorted) <= 1.
Proof. unfold depletionTrendAlerts. at_most_one. Qed.

Lemma rainfallTrendAlerts_length ts data sorted :
  length (rainfallTrendAlerts ts data sorted) <= 1.
Proof. unfold rainfallTrendAlerts. at_most_one. Qed.

(** Every check pushes one alert at most, of its own category, so the
    threshold alerts come in the order of the checks. *)
Lemma thresholdAlerts_order ts data :
  map category (thresholdAlerts ts data)
  `sublist_of` [WaterLevel; Depletion; Rainfall; WaterQuality; Consumption;
                Scarcity].
Proof.
  unfold thresholdAlerts. rewrite !map_app.
  change [WaterLevel; Depletion; Rainfall; WaterQuality; Consumption; Scarcity]
    with ([WaterLevel] ++ [Depletion] ++ [Rainfall] ++ [WaterQuality] ++
          [Consumption] ++ [Scarcity]).
  repeat apply sublist_app;
    auto using one_category_sublist,
      waterLevelAlerts_category, waterLevelAlerts_length,
      depletionAlerts_category, depletionAlerts_length,
      rainfallAlerts_category, rainfallAlerts_length,
      phAlerts_category, phAlerts_length,
      consumptionAlert_category, consumptionAlert_length,
      scarcityAlert_category, scarcityAlert_length.
Qed.

(** ** Missing numeric fields *)

Lemma absent_block_empty (f : NumericField) ts data :
  absent f (get_field f data) -> block_of (guarded_category f) ts data = [].
Proof.
  intros [H | [H Hf]]; destruct f; cbn [get_field] in H;
    cbn [guarded_category block_of];
    try (destruct Hf as [Hf | [Hf | Hf]]; discriminate Hf);
    unfold waterLevelAlerts, depletionAlerts, rainfallAlerts, phAlerts,
      consumptionAlert; rewrite H; reflexivity.
Qed.

Lemma not_in_category_same (c : Category) (l : list Alert) :
  Forall (fun a => category a = c) l -> not_in_category c l = [].
Proof.
  unfold not_in_category. induction 1 as [|a l Ha _ IH]; [done|].
  rewrite filter_cons, IH. now destruct (decide (category a <> c)).
Qed.

Lemma not_in_category_other (c c' : Category) (l : list Alert) :
  c <> c' -> Forall (fun a => category a = c') l -> not_in_category c l = l.
Proof.
  unfold not_in_category. intros Hne. induction 1 as [|a l Ha _ IH]; [done|].
  rewrite filter_cons, IH.
  destruct (decide (category a <> c)) as [|n]; [done|].
  exfalso. apply n. congruence.
Qed.

Lemma not_in_category_app (c : Category) (l k : list Alert) :
  not_in_category c (l ++ k) = not_in_category c l ++ not_in_category c k.
Proof. apply filter_app. Qed.

Ltac drop_block blk blk_category cat :=
  match goal with
  | |- context [not_in_category ?c (blk ?ts ?d [])] =>
      first
        [ rewrite (not_in_category_same c _ (blk_category ts d))
        | rewrite (not_in_category_other c cat _ ltac:(discriminate)
                     (blk_category ts d)) ]
  end.

(** Making a field absent removes the alerts of its category from the
    threshold alerts and changes nothing else. *)
Lemma thresholdAlerts_absent (f : NumericField) (v : field) ts data :
  absent f v ->
  thresholdAlerts ts (set_field f v data)
  = not_in_category (guarded_category f) (thresholdAlerts ts data).
Proof.
  intros Habs. unfold thresholdAlerts at 2.
  rewrite !not_in_category_app.
  destruct Habs as [-> | [-> Hf]]; destruct f; cbn [guarded_category];
    try (destruct Hf as [Hf | [Hf | Hf]]; discriminate Hf);
    drop_block waterLevelAlerts waterLevelAlerts_category WaterLevel;
    drop_block depletionAlerts depletionAlerts_category Depletion;
    drop_block rainfallAlerts rainfallAlerts_category Rainfall;
    drop_block phAlerts phAlerts_category WaterQuality;
    drop_block consumptionAlert consumptionAlert_category Consumption;
    drop_block scarcityAlert scarcityAlert_category Scarcity;
    reflexivity.
Qed.

(** ** The result of [generateAlerts] *)

Section AlertEngineFacts.

Variable calculateWaterScore : WaterRecord -> float.

Local Abbreviation generateAlerts := (generateAlerts calculateWaterScore).
Local Abbreviation firstHalf := (firstHalf calculateWaterScore).
Local Abbreviation secondHalf := (secondHalf calculateWaterScore).
Local Abbreviation healthTrendAlerts := (healthTrendAlerts calculateWaterScore).
Local Abbreviation trendAlerts := (trendAlerts calculateWaterScore).
Local Abbreviation alerts_for := (alerts_for calculateWaterScore).

Lemma healthTrend_run (st : heap) (r : ref) (arr : list WaterRecord)
    ts data (alerts : list Alert) :
  st !! r = Some arr ->
  healthTrend calculateWaterScore ts data r alerts st
  = Ok (alerts ++ healthTrendAlerts ts data arr) st.
Proof.
  intros Hr. unfold healthTrend, healthTrendAlerts, firstHalf, secondHalf.
  rewrite (bind_Ok _ _ _ _ _ (Array_elements_run _ _ _ Hr)).
  cbv zeta. rewrite length_map.
  destruct (num_lt _ _); [reflexivity|]. unfold ret. now rewrite app_nil_r.
Qed.

(** Without a history the result is that of the threshold checks. *)
Lemma generateAlerts_no_history ts data (st : heap) :
  generateAlerts ts data None st
  = Ok (thresholdAlerts ts data) st.
Proof.
  unfold generateAlerts. cbv zeta. now rewrite threshold_chain.
Qed.

(** A history of fewer than 3 records is left alone. *)
Lemma generateAlerts_short_history ts data (st : heap) (history : ref)
    (records : list WaterRecord) :
  st !! history = Some records -> length records < 3 ->
  generateAlerts ts data (Some history) st
  = Ok (thresholdAlerts ts data) st.
Proof.
  intros Hr Hlen. unfold generateAlerts. cbv zeta. rewrite threshold_chain.
  rewrite (bind_Ok _ _ _ _ _ (Array_length_run _ _ _ Hr)).
  destruct (Nat.leb_spec 3 (length records)); [lia|reflexivity].
Qed.

(** With 3 records or more, the trend alerts of the sorted copy follow;
    the copy is the one new array of the store. *)
Lemma generateAlerts_with_history ts data (st : heap) (history : ref)
    (records : list WaterRecord) :
  st !! history = Some records -> 3 <= length records ->
  generateAlerts ts data (Some history) st
  = Ok (thresholdAlerts ts data
          ++ trendAlerts ts data (stable_sort comparefn records))
       (st ++ [stable_sort comparefn records]).
Proof.
  intros Hr Hlen. unfold generateAlerts. cbv zeta. rewrite threshold_chain.
  rewrite (bind_Ok _ _ _ _ _ (Array_length_run _ _ _ Hr)).
  destruct (Nat.leb_spec 3 (length records)); [|lia].
  set (sorted := stable_sort comparefn records).
  assert (Hs : (st ++ [sorted]) !! length st = Some sorted).
  { rewrite lookup_app_r by lia. now rewrite Nat.sub_diag. }
  rewrite (bind_Ok _ _ st (st ++ [records]) (length st)); cycle 1.
  { unfold spread.
    now rewrite (bind_Ok _ _ _ _ _ (Array_elements_run _ _ _ Hr)). }
  rewrite (bind_Ok _ _ _ (st ++ [sorted]) (length st)); cycle 1.
  { unfold Array_sort. rewrite lookup_app_r by lia. rewrite Nat.sub_diag.
    simpl. f_equal. rewrite insert_app_r_alt by lia.
    now rewrite Nat.sub_diag. }
  rewrite (bind_Ok _ _ _ _ _ (waterLevelTrend_run _ _ _ ts data _ Hs)).
  rewrite (bind_Ok _ _ _ _ _ (depletionTrend_run _ _ _ ts data _ Hs)).
  rewrite (bind_Ok _ _ _ _ _ (rainfallTrend_run _ _ _ ts data _ Hs)).
  rewrite (healthTrend_run _ _ _ ts data _ Hs).
  unfold trendAlerts. now rewrite <- !app_assoc.
Qed.

Lemma healthTrendAlerts_category ts data sorted :
  Forall (fun a => category a = Trend) (healthTrendAlerts ts data sorted).
Proof. unfold healthTrendAlerts. block_category. Qed.

Lemma trendAlerts_category ts data sorted :
  Forall (fun a => category a = Trend) (trendAlerts ts data sorted).
Proof.
  unfold trendAlerts. rewrite !Forall_app.
  auto using waterLevelTrendAlerts_category, depletionTrendAlerts_category,
    rainfallTrendAlerts_category, healthTrendAlerts_category.
Qed.

(** [generateAlerts] always returns, and returns [alerts_for]. *)
Lemma generateAlerts_run ts data (st : heap) (history : option ref) :
  valid_history st history ->
  generateAlerts ts data history st
  = Ok (alerts_for ts data (history_records st history))
       (store_after st (history_records st history)).
Proof.
  unfold alerts_for, store_after.
  destruct history as [h|]; cbn [valid_history history_records].
  - intros [records Hr]. rewrite Hr.
    change (default [] (Some records)) with records.
    destruct (Nat.leb_spec 3 (length records)).
    + now apply generateAlerts_with_history.
    + rewrite app_nil_r.
      now apply (generateAlerts_short_history ts data st h records).
  - intros _. cbn [length Nat.leb]. rewrite app_nil_r.
    apply generateAlerts_no_history.
Qed.

Lemma in_category_alerts_for (c : Category) ts data records :
  c <> Trend ->
  in_category c (alerts_for ts data records) = block_of c ts data.
Proof.
  intros Hc. unfold alerts_for. rewrite in_category_app, in_category_threshold.
  destruct (3 <=? length records).
  - rewrite (in_category_other c Trend _ Hc (trendAlerts_category _ _ _)).
    now rewrite app_nil_r.
  - now rewrite app_nil_r.
Qed.

Lemma healthTrendAlerts_titled ts data sorted t :
  trend_title t ->
  titled t (healthTrendAlerts ts data sorted)
  = if decide (t = health_title)
    then healthTrendAlerts ts data sorted else [].
Proof.
  unfold healthTrendAlerts.
  intros [-> | [-> | [-> | ->]]]; cbv zeta; destruct (num_lt _ _);
    try reflexivity;
    first [ now rewrite titled_one | now rewrite titled_skip ].
Qed.

(** The alerts of a trend title in the result. *)
Lemma titled_alerts_for ts data records t :
  trend_title t ->
  titled t (alerts_for ts data records)
  = if 3 <=? length records then
      let sorted := stable_sort comparefn records in
      (if decide (t = sustained_title)
       then waterLevelTrendAlerts ts data sorted else []) ++
      (if decide (t = accelerating_title)
       then depletionTrendAlerts ts data sorted else []) ++
      (if decide (t = declining_title)
       then rainfallTrendAlerts ts data sorted else []) ++
      (if decide (t = health_title)
       then healthTrendAlerts ts data sorted else [])
    else [].
Proof.
  intros Ht. unfold alerts_for.
  rewrite titled_app, thresholdAlerts_titles by exact Ht. cbn [app].
  destruct (3 <=? length records); [|reflexivity].
  unfold trendAlerts. rewrite !titled_app.
  now rewrite waterLevelTrendAlerts_titled, depletionTrendAlerts_titled,
    rainfallTrendAlerts_titled, healthTrendAlerts_titled by exact Ht.
Qed.

Lemma titled_sustained ts data records :
  titled sustained_title (alerts_for ts data records)
  = if 3 <=? length records
    then waterLevelTrendAlerts ts data (stable_sort comparefn records)
    else [].
Proof.
  rewrite titled_alerts_for by (now left).
  destruct (3 <=? length records); [|reflexivity].
  cbv zeta. now rewrite app_nil_r.
Qed.

Lemma titled_accelerating ts data records :
  titled accelerating_title (alerts_for ts data records)
  = if 3 <=? length records
    then depletionTrendAlerts ts data (stable_sort comparefn records)
    else [].
Proof.
  rewrite titled_alerts_for by (right; now left).
  destruct (3 <=? length records); [|reflexivity].
  cbv zeta. now rewrite app_nil_r.
Qed.

Lemma titled_declining ts data records :
  titled declining_title (alerts_for ts data records)
  = if 3 <=? length records
    then rainfallTrendAlerts ts data (stable_sort comparefn records)
    else [].
Proof.
  rewrite titled_alerts_for by (right; right; now left).
  destruct (3 <=? length records); [|reflexivity].
  cbv zeta. now rewrite app_nil_r.
Qed.


(** *** C3: the water-level classification *)

(** C3.  For every record, whatever history comes with it: when
    [groundwaterLevel >= 15] the result holds exactly one Water Level
    alert and it is critical; when [12 <= groundwaterLevel < 15] it
    holds exactly one and it is a warning; when [groundwaterLevel < 12]
    it holds none.  Both bounds are inclusive: a level of exactly 12
    gives the warning and a level of exactly 15 the critical alert. *)
Theorem water_level_classification ts data (st : heap)
    (history : option ref) :
  valid_history st history ->
  exists alerts st',
    generateAlerts ts data history st = Ok alerts st' /\
    (js_ge (groundwaterLevel data) (Number 15) = true ->
       exists a, in_category WaterLevel alerts = [a] /\ type a = critical) /\
    (js_ge (groundwaterLevel data) (Number 12) = true ->
     js_lt (groundwaterLevel data) (Number 15) = true ->
       exists a, in_category WaterLevel alerts = [a] /\ type a = warning) /\
    (js_lt (groundwaterLevel data) (Number 12) = true ->
       in_category WaterLevel alerts = []) /\
    (groundwaterLevel data = Number 12 ->
       exists a, in_category WaterLevel alerts = [a] /\ type a = warning) /\
    (groundwaterLevel data = Number 15 ->
       exists a, in_category WaterLevel alerts = [a] /\ type a = critical).
Proof.
  intros Hv. eexists _, _. split; [exact (generateAlerts_run _ _ _ _ Hv)|].
  rewrite in_category_alerts_for by discriminate. cbn [block_of].
  unfold waterLevelAlerts, push, js_ge, js_lt. cbn [ToNumber criticalWaterLevel
    warningWaterLevel ALERT_THRESHOLDS app].
  repeat split.
  - intros ->. eexists. split; reflexivity.
  - intros H12 H15. rewrite (num_lt_not_ge _ _ H15), H12.
    eexists. split; reflexivity.
  - intros H12.
    rewrite (num_lt_le_not_ge _ 12 15 H12 eq_refl), (num_lt_not_ge _ _ H12).
    reflexivity.
  - intros ->. cbn [ToNumber].
    change (num_ge 12 15) with false. change (num_ge 12 12) with true.
    eexists. split; reflexivity.
  - intros ->. cbn [ToNumber]. change (num_ge 15 15) with true.
    eexists. split; reflexivity.
Qed.

(** *** C1: missing numeric fields *)

(** C1.  The call returns (it does not throw) for every record and
    every history the caller can pass, and a numeric field that is
    [undefined] never has its alert in the result; nor has a [null]
    [groundwaterLevel], [depletionRate] or [consumption].  A record whose
    five numeric fields are all absent in this sense gets alerts of the
    categories Scarcity and Trend only.  Making one field absent removes
    the alerts of its category from the result of the threshold checks
    and leaves the others as they were. *)
Theorem absent_field_no_alert ts data (st : heap) (history : option ref) :
  valid_history st history ->
  exists alerts st',
    generateAlerts ts data history st = Ok alerts st' /\
    (forall f, absent f (get_field f data) ->
       in_category (guarded_category f) alerts = []) /\
    ((forall f, absent f (get_field f data)) ->
       Forall (fun a => category a = Scarcity \/ category a = Trend) alerts) /\
    (forall f v, absent f v ->
       exists alerts0,
         generateAlerts ts data None st = Ok alerts0 st /\
         generateAlerts ts (set_field f v data) None st
         = Ok (filter (fun a => category a <> guarded_category f) alerts0) st).
Proof.
  intros Hv. eexists _, _. split; [exact (generateAlerts_run _ _ _ _ Hv)|].
  split; [|split].
  - intros f Hf. rewrite in_category_alerts_for by (destruct f; discriminate).
    now apply absent_block_empty.
  - intros Hall. unfold alerts_for. rewrite Forall_app. split.
    + unfold thresholdAlerts.
      pose proof (absent_block_empty _ ts data (Hall f_groundwaterLevel)) as H1.
      pose proof (absent_block_empty _ ts data (Hall f_depletionRate)) as H2.
      pose proof (absent_block_empty _ ts data (Hall f_rainfall)) as H3.
      pose proof (absent_block_empty _ ts data (Hall f_ph)) as H4.
      pose proof (absent_block_empty _ ts data (Hall f_consumption)) as H5.
      cbn [guarded_category block_of] in *.
      rewrite H1, H2, H3, H4, H5. cbn [app].
      eapply Forall_impl; [apply scarcityAlert_category|].
      intros a Ha. now left.
    + destruct (3 <=? _); [|constructor].
      eapply Forall_impl; [apply trendAlerts_category|].
      intros a Ha. now right.
  - intros f v Habs. eexists. split; [apply generateAlerts_no_history|].
    rewrite generateAlerts_no_history. f_equal.
    now apply thresholdAlerts_absent.
Qed.

(** *** C2: the trailing run of rising water levels *)

Lemma waterLevelTrendAlerts_run_length ts data sorted :
  let run := trailing_run (steps rising sorted) in
  (3 <= run ->
     exists a, waterLevelTrendAlerts ts data sorted = [a] /\
               value a = OfCount run /\ type a = warning /\
               category a = Trend) /\
  (run < 3 -> waterLevelTrendAlerts ts data sorted = []).
Proof.
  cbv zeta. unfold waterLevelTrendAlerts.
  rewrite count_streak_trailing_run.
  destruct (Nat.leb_spec 3 (trailing_run (steps rising sorted))); split;
    try lia; intros _; [|reflexivity].
  eexists. repeat split; reflexivity.
Qed.

(** C2.  For every history of 3 records or more, and [sorted] the
    history sorted by year (its years go up, the records of one year in
    the order the history has them: a rearrangement of the history,
    whatever the order it came in), take the steps of [sorted]: step [i]
    tells whether the [groundwaterLevel] of record [i + 1] is strictly
    above that of record [i].  The run is the number of rising steps at
    the end of the scan: the steps are some earlier steps, empty or
    ending on a step that does not rise, followed by [run] rising steps.
    The alert "Sustained Water Level Decline" is in the result exactly
    when the run is 3 or more; it is then there once and its value is
    the run, which is the counter of the loop (one more on a rising
    step, back to 0 on any other).  A history of 5 records whose steps
    all rise gives the value 4. *)
Theorem sustained_decline_trailing_run ts data (st : heap) (history : ref)
    (records sorted : list WaterRecord) :
  st !! history = Some records ->
  3 <= length records ->
  sorted_by_year records sorted ->
  let rises := steps rising sorted in
  let run := trailing_run rises in
  exists alerts st',
    generateAlerts ts data (Some history) st = Ok alerts st' /\
    sorted ≡ₚ records /\
    length rises = length records - 1 /\
    (forall i prev cur,
       sorted !! i = Some prev -> sorted !! S i = Some cur ->
       rises !! i
       = Some (js_gt (groundwaterLevel cur) (groundwaterLevel prev))) /\
    (exists earlier,
       rises = earlier ++ replicate run true /\
       (earlier = [] \/ exists before, earlier = before ++ [false])) /\
    run = count_streak rises /\
    (3 <= run ->
       exists a, titled sustained_title alerts = [a] /\
                 value a = OfCount run /\ type a = warning /\
                 category a = Trend) /\
    (run < 3 -> titled sustained_title alerts = []) /\
    (length records = 5 -> forallb id rises = true ->
       exists a, titled sustained_title alerts = [a] /\
                 value a = OfCount 4).
Proof.
  intros Hr Hlen Hsorted rises run.
  pose proof (sorted_by_year_Permutation _ _ Hsorted) as Hperm.
  assert (Hv : valid_history st (Some history)) by (now exists records).
  eexists _, _. split; [exact (generateAlerts_run _ _ _ _ Hv)|].
  cbn [history_records]. rewrite Hr.
  change (default [] (Some records)) with records.
  rewrite titled_sustained.
  destruct (Nat.leb_spec 3 (length records)); [|lia].
  rewrite <- (sorted_by_year_unique _ _ Hsorted).
  destruct (waterLevelTrendAlerts_run_length ts data sorted) as [Hyes Hno].
  fold rises run in Hyes, Hno.
  assert (Hsteps : length rises = length records - 1).
  { unfold rises. now rewrite steps_length, Hperm. }
  split; [exact Hperm|]. split; [exact Hsteps|].
  split; [intros i prev cur Hp Hc; exact (steps_lookup rising _ _ _ _ Hp Hc)|].
  split; [apply trailing_run_spec|].
  split; [symmetry; apply count_streak_trailing_run|].
  split; [exact Hyes|]. split; [exact Hno|].
  intros H5 Hall.
  assert (Hrun : run = 4).
  { unfold run. rewrite <- count_streak_trailing_run.
    rewrite count_streak_all by exact Hall. lia. }
  destruct Hyes as [a [Ha [Hval _]]]; [lia|].
  exists a. split; [exact Ha|]. now rewrite Hval, Hrun.
Qed.

(** *** C5 and C10: how many records a streak alert needs *)

Lemma steps_count_bound worse (sorted : list WaterRecord) :
  count_streak (steps worse sorted) <= length sorted - 1.
Proof. rewrite <- (steps_length worse). apply count_streak_le. Qed.

(** C5.  For every history of exactly 4 records: when the three steps
    between adjacent records of the history sorted by year all go the
    bad way for a metric (the water level rises, the depletion rate
    rises, the rainfall falls), the trend alert of that metric is in the
    result, with the value 3. *)
Theorem four_records_streak_alert ts data (st : heap) (history : ref)
    (records : list WaterRecord) :
  st !! history = Some records ->
  length records = 4 ->
  let sorted := stable_sort comparefn records in
  exists alerts st',
    generateAlerts ts data (Some history) st = Ok alerts st' /\
    (forallb id (steps rising sorted) = true ->
       exists a, titled sustained_title alerts = [a] /\
                 value a = OfCount 3) /\
    (forallb id (steps depleting sorted) = true ->
       exists a, titled accelerating_title alerts = [a] /\
                 value a = OfCount 3) /\
    (forallb id (steps drying sorted) = true ->
       exists a, titled declining_title alerts = [a] /\
                 value a = OfCount 3).
Proof.
  intros Hr Hlen sorted.
  assert (Hv : valid_history st (Some history)) by (now exists records).
  eexists _, _. split; [exact (generateAlerts_run _ _ _ _ Hv)|].
  cbn [history_records]. rewrite Hr.
  change (default [] (Some records)) with records.
  rewrite titled_sustained, titled_accelerating, titled_declining.
  rewrite Hlen. cbn [Nat.leb]. fold sorted.
  assert (Hsteps : forall worse, length (steps worse sorted) = 3).
  { intros worse. rewrite steps_length. unfold sorted.
    rewrite stable_sort_length. lia. }
  unfold waterLevelTrendAlerts, depletionTrendAlerts, rainfallTrendAlerts.
  repeat split; intros Hall; rewrite (count_streak_all _ Hall), Hsteps;
    cbn [Nat.leb]; eexists; split; reflexivity.
Qed.

(** C10.  For every history of fewer than 4 records, and when no history
    is passed, none of the three streak alerts (Sustained Water Level
    Decline, Accelerating Depletion Trend, Declining Rainfall Pattern) is
    in the result: [n] records have [n - 1] steps, so the counter ends on
    2 at most. *)
Theorem short_history_no_streak_alert ts data (st : heap)
    (history : option ref) :
  valid_history st history ->
  length (history_records st history) < 4 ->
  exists alerts st',
    generateAlerts ts data history st = Ok alerts st' /\
    (forall worse,
       count_streak
         (steps worse (stable_sort comparefn (history_records st history)))
       <= 2) /\
    titled sustained_title alerts = [] /\
    titled accelerating_title alerts = [] /\
    titled declining_title alerts = [] /\
    (exists alerts4 st4,
       length four_years = 4 /\
       generateAlerts ts data (Some 0) [four_years] = Ok alerts4 st4 /\
       titled sustained_title alerts4 <> [] /\
       titled accelerating_title alerts4 <> [] /\
       titled declining_title alerts4 <> []).
Proof.
  intros Hv Hlen.
  assert (Hfour : exists alerts4 st4,
             length four_years = 4 /\
             generateAlerts ts data (Some 0) [four_years] = Ok alerts4 st4 /\
             titled sustained_title alerts4 <> [] /\
             titled accelerating_title alerts4 <> [] /\
             titled declining_title alerts4 <> []).
  { assert (Hv4 : valid_history [four_years] (Some 0))
      by (now exists four_years).
    eexists _, _. split; [reflexivity|].
    split; [exact (generateAlerts_run _ _ _ _ Hv4)|].
    change (history_records [four_years] (Some 0)) with four_years.
    rewrite titled_sustained, titled_accelerating, titled_declining.
    unfold waterLevelTrendAlerts, depletionTrendAlerts, rainfallTrendAlerts.
    cbv zeta.
    replace (count_streak (steps rising (stable_sort comparefn four_years)))
      with 3 by (vm_compute; reflexivity).
    replace (count_streak (steps depleting (stable_sort comparefn four_years)))
      with 3 by (vm_compute; reflexivity).
    replace (count_streak (steps drying (stable_sort comparefn four_years)))
      with 3 by (vm_compute; reflexivity).
    repeat split; discriminate. }
  eexists _, _.
  split; [exact (generateAlerts_run _ _ _ _ Hv)|].
  set (records := history_records st history) in *.
  assert (Hc : forall worse,
             count_streak (steps worse (stable_sort comparefn records)) <= 2).
  { intros worse.
    pose proof (steps_count_bound worse (stable_sort comparefn records)) as Hb.
    rewrite stable_sort_length in Hb. lia. }
  assert (Hnone : forall worse,
             (3 <=? count_streak
                      (steps worse (stable_sort comparefn records))) = false).
  { intros worse. apply Nat.leb_gt. specialize (Hc worse). lia. }
  split; [exact Hc|].
  split; [|split; [|split; [|exact Hfour]]].
  - rewrite titled_sustained. unfold waterLevelTrendAlerts. cbv zeta.
    rewrite Hnone. now destruct (3 <=? length records).
  - rewrite titled_accelerating. unfold depletionTrendAlerts. cbv zeta.
    rewrite Hnone. now destruct (3 <=? length records).
  - rewrite titled_declining. unfold rainfallTrendAlerts. cbv zeta.
    rewrite Hnone. now destruct (3 <=? length records).
Qed.

(** *** C4: the decline of the health score *)


(** *** C6: the order of the result *)

Lemma healthTrendAlerts_retime ts ts' data sorted :
  healthTrendAlerts ts' data sorted
  = map (with_timestamp ts') (healthTrendAlerts ts data sorted).
Proof. unfold healthTrendAlerts. by_cases_on_ifs. Qed.

Lemma healthTrendAlerts_length ts data sorted :
  length (healthTrendAlerts ts data sorted) <= 1.
Proof. unfold healthTrendAlerts. at_most_one. Qed.

Lemma alerts_for_retime ts ts' data records :
  alerts_for ts' data records
  = map (with_timestamp ts') (alerts_for ts data records).
Proof.
  unfold alerts_for, trendAlerts. rewrite map_app.
  rewrite <- thresholdAlerts_retime. f_equal.
  destruct (3 <=? length records); [|reflexivity].
  rewrite !map_app.
  now rewrite <- waterLevelTrendAlerts_retime, <- depletionTrendAlerts_retime,
    <- rainfallTrendAlerts_retime, <- healthTrendAlerts_retime.
Qed.

Lemma trendAlerts_order ts data sorted :
  map category (trendAlerts ts data sorted)
  `sublist_of` [Trend; Trend; Trend; Trend].
Proof.
  unfold trendAlerts. rewrite !map_app.
  change [Trend; Trend; Trend; Trend]
    with ([Trend] ++ [Trend] ++ [Trend] ++ [Trend]).
  repeat apply sublist_app;
    auto using one_category_sublist,
      waterLevelTrendAlerts_category, waterLevelTrendAlerts_length,
      depletionTrendAlerts_category, depletionTrendAlerts_length,
      rainfallTrendAlerts_category, rainfallTrendAlerts_length,
      healthTrendAlerts_category, healthTrendAlerts_length.
Qed.

(** C6.  For every input the categories of the result, read in order,
    are taken in order from Water Level, Depletion, Rainfall, Water
    Quality, Consumption, Scarcity and then Trend (up to four times): the
    trend alerts come after all the threshold alerts.  A call on the same
    input at another time returns the same alerts in the same order, the
    timestamp apart. *)
Theorem alert_order_fixed ts ts' data (st : heap) (history : option ref) :
  valid_history st history ->
  exists alerts st',
    generateAlerts ts data history st = Ok alerts st' /\
    map category alerts `sublist_of` category_order /\
    (exists threshold_part trend_part,
       alerts = threshold_part ++ trend_part /\
       Forall (fun a => category a <> Trend) threshold_part /\
       Forall (fun a => category a = Trend) trend_part) /\
    generateAlerts ts' data history st
    = Ok (map (with_timestamp ts') alerts) st' /\
    generateAlerts ts data history st = Ok alerts st'.
Proof.
  intros Hv. eexists _, _.
  split; [exact (generateAlerts_run _ _ _ _ Hv)|].
  split; [|split; [|split]].
  - unfold alerts_for, category_order. rewrite map_app.
    change [WaterLevel; Depletion; Rainfall; WaterQuality; Consumption;
            Scarcity; Trend; Trend; Trend; Trend]
      with ([WaterLevel; Depletion; Rainfall; WaterQuality; Consumption;
             Scarcity] ++ [Trend; Trend; Trend; Trend]).
    apply sublist_app; [apply thresholdAlerts_order|].
    destruct (3 <=? _); [apply trendAlerts_order|apply sublist_nil_l].
  - eexists _, _. split; [reflexivity|]. split.
    + apply Forall_forall. intros a Ha Htrend.
      assert (Hin : a ∈ in_category Trend (thresholdAlerts ts data)).
      { unfold in_category. apply list_elem_of_filter. now split. }
      rewrite in_category_threshold in Hin. cbn [block_of] in Hin.
      now apply not_elem_of_nil in Hin.
    + destruct (3 <=? _); [apply trendAlerts_category|constructor].
  - rewrite (generateAlerts_run _ _ _ _ Hv). f_equal.
    apply alerts_for_retime.
  - exact (generateAlerts_run _ _ _ _ Hv).
Qed.

(** *** C9: the history of the caller *)

(** C9.  For every call with a history, the array of the caller holds
    the same records in the same order after the call, as does every
    array that was in the store; when the trend scan runs (3 records or
    more) the sorted records are in a new array, the only change of the
    store. *)
Theorem history_unchanged ts data (st : heap) (history : ref)
    (records : list WaterRecord) :
  st !! history = Some records ->
  exists alerts st',
    generateAlerts ts data (Some history) st = Ok alerts st' /\
    st' !! history = Some records /\
    (forall r arr, st !! r = Some arr -> st' !! r = Some arr) /\
    (3 <= length records ->
       st' = st ++ [stable_sort comparefn records] /\
       st' !! length st = Some (stable_sort comparefn records) /\
       history <> length st) /\
    (length records < 3 -> st' = st).
Proof.
  intros Hr.
  assert (Hv : valid_history st (Some history)) by (now exists records).
  eexists _, _. split; [exact (generateAlerts_run _ _ _ _ Hv)|].
  cbn [history_records]. rewrite Hr.
  change (default [] (Some records)) with records.
  unfold store_after.
  assert (Hlt : history < length st) by (now apply lookup_lt_Some in Hr).
  destruct (Nat.leb_spec 3 (length records)).
  - split; [now apply lookup_app_l_Some|].
    split; [intros r arr Ha; now apply lookup_app_l_Some|].
    split; [|lia]. intros _. split; [reflexivity|]. split; [|lia].
    rewrite lookup_app_r by lia. now rewrite Nat.sub_diag.
  - split; [exact Hr|]. split; [auto|]. split; [lia|reflexivity].
Qed.

End AlertEngineFacts.

(** ** The government-style updates *)

Lemma last_snoc_record (prefix : list WaterRecord) (latest : WaterRecord) :
  last (prefix ++ [latest]) = Some latest.
Proof. apply last_snoc. Qed.

(** C7.  For every array [locationData] that is not empty, whatever the
    fields of its last record, [generateGovUpdates] returns exactly 5
    updates, with the ids 1 to 5 in this order; for the empty array it
    returns the empty list. *)
Theorem gov_updates_five (today : string) (prefix : list WaterRecord)
    (latest : WaterRecord) :
  map Gov.id (generateGovUpdates today (prefix ++ [latest])) = [1; 2; 3; 4; 5]
  /\ length (generateGovUpdates today (prefix ++ [latest])) = 5
  /\ generateGovUpdates today [] = [].
Proof.
  unfold generateGovUpdates. rewrite last_snoc_record. repeat split.
Qed.

(** The guard of [generateGovUpdates]: no record, no update. *)
Lemma gov_updates_empty :
  generateGovUpdates "1/11/2026" [] = [] /\
  length (generateGovUpdates "1/11/2026" []) <> 5.
Proof. split; [reflexivity|discriminate]. Qed.

(** C8.  For every latest record, the updates 3 and 4 have the priority
    normal; the Groundwater Status Report (id 1) has the priority high
    exactly when [scarcityLevel] is Severe or Extreme; the Rainfall
    Monitoring Update (id 2) has it exactly when [rainfall < 700]; the Jal
    Shakti Abhiyan Advisory (id 5) has it when [scarcityLevel] is High or
    Severe, and has the priority normal when [scarcityLevel] is none of
    High, Severe and Extreme. *)
Theorem gov_update_priorities (today : string) (prefix : list WaterRecord)
    (latest : WaterRecord) :
  let level := scarcityLevel latest in
  exists p1 p2 p5,
    map Gov.priority (generateGovUpdates today (prefix ++ [latest]))
    = [p1; p2; normal; normal; p5] /\
    (p1 = high <-> level = "Severe" \/ level = "Extreme") /\
    (p2 = high <-> js_lt (rainfall latest) (Number 700) = true) /\
    (level = "High" \/ level = "Severe" -> p5 = high) /\
    (level <> "High" -> level <> "Severe" -> level <> "Extreme" ->
       p5 = normal).
Proof.
  intros level. unfold generateGovUpdates. rewrite last_snoc_record.
  eexists _, _, _. split; [reflexivity|]. fold level.
  destruct (String.eqb_spec level "Severe") as [Hs|Hs];
    destruct (String.eqb_spec level "Extreme") as [He|He];
    destruct (String.eqb_spec level "High") as [Hh|Hh];
    destruct (js_lt (rainfall latest) (Number 700));
    cbn [orb Gov.priority]; repeat split; intros;
    try tauto; try congruence; try (exfalso; intuition congruence).
Qed.

(** For the zone classified High the status report keeps the priority
    normal, and for the one classified Extreme the advisory keeps it. *)
Lemma high_scarcity_status_normal :
  map (fun u => (Gov.id u, Gov.priority u))
      (generateGovUpdates "1/11/2026" [high_zone])
  = [(1, normal); (2, normal); (3, normal); (4, normal); (5, high)] /\
  map (fun u => (Gov.id u, Gov.priority u))
      (generateGovUpdates "1/11/2026" [extreme_zone])
  = [(1, high); (2, normal); (3, normal); (4, normal); (5, normal)].
Proof. split; vm_compute; reflexivity. Qed.

(** ** The engine on sample inputs *)

Lemma absent_field_no_alert_witness :
  valid_history [] None /\
  exists alerts st',
    generateAlerts synthetic_score now no_metrics None [] = Ok alerts st' /\
    forall f, in_category (guarded_category f) alerts = [].
Proof.
  assert (Hv : valid_history [] None) by exact I.
  split; [exact Hv|].
  destruct (absent_field_no_alert synthetic_score now no_metrics [] None Hv)
    as (alerts & st' & Hrun & Hnone & _).
  exists alerts, st'. split; [exact Hrun|].
  intros f. apply Hnone. left. destruct f; reflexivity.
Defined.

(** With [null] in every numeric field the rainfall check and the pH
    check fire: [null] counts as 0, which is below 600 and below 6.5. *)
Lemma null_rainfall_raises_alert :
  get_field f_rainfall null_metrics = Null /\
  get_field f_ph null_metrics = Null /\
  exists alerts,
    generateAlerts synthetic_score now null_metrics None [] = Ok alerts [] /\
    map (fun a => (category a, type a)) alerts
    = [(Rainfall, critical); (WaterQuality, warning)] /\
    in_category (guarded_category f_rainfall) alerts <> [].
Proof.
  split; [reflexivity|]. split; [reflexivity|].
  eexists. split; [vm_compute; reflexivity|].
  split; [reflexivity|]. vm_compute. discriminate.
Qed.

Lemma sustained_decline_trailing_run_witness :
  [five_years_backwards] !! 0 = Some five_years_backwards /\
  3 <= length five_years_backwards /\
  sorted_by_year five_years_backwards five_years /\
  exists alerts st',
    generateAlerts synthetic_score now (reading 2023 11 2 850) (Some 0)
      [five_years_backwards] = Ok alerts st' /\
    st' = [five_years_backwards; five_years] /\
    map title alerts = [sustained_title] /\
    exists a, titled sustained_title alerts = [a] /\ value a = OfCount 4.
Proof.
  assert (H0 : [five_years_backwards] !! 0 = Some five_years_backwards)
    by reflexivity.
  assert (H3 : 3 <= length five_years_backwards) by (vm_compute; lia).
  assert (Hs : sorted_by_year five_years_backwards five_years).
  { apply sorted_by_year_distinct.
    - repeat (apply Sorted_cons || apply Sorted_nil || apply HdRel_cons
              || apply HdRel_nil); unfold year_le; cbn; lia.
    - apply Permutation_rev.
    - apply (bool_decide_unpack _). vm_compute. reflexivity. }
  split; [exact H0|]. split; [exact H3|]. split; [exact Hs|].
  destruct (sustained_decline_trailing_run synthetic_score now
              (reading 2023 11 2 850) [five_years_backwards] 0
              five_years_backwards five_years H0 H3 Hs)
    as (alerts & st' & Hrun & _ & _ & _ & _ & _ & _ & _ & Hfive).
  exists alerts, st'. split; [exact Hrun|].
  split; [|split; [|apply Hfive; vm_compute; reflexivity]].
  - vm_compute in Hrun. now injection Hrun as _ <-.
  - vm_compute in Hrun. now injection Hrun as <- _.
Defined.

(** Only the run that ends on the last year counts: an earlier run of
    four rising steps followed by a plateau and two rising steps raises
    no alert, and after a plateau the count starts again. *)
Lemma trailing_run_examples :
  let run levels :=
    match generateAlerts synthetic_score now (reading 2007 7 2 850) (Some 0)
            [yearly levels] with
    | Ok alerts _ => Some (map value (titled sustained_title alerts))
    | Throw _ => None
    end in
  run [1; 2; 3; 4; 5; 5; 6; 7]%float = Some [] /\
  run [1; 2; 3; 3; 4; 5; 6]%float = Some [OfCount 3] /\
  run [1; 2; 3; 4; 5]%float = Some [OfCount 4] /\
  run [1; 2; 3; 4]%float = Some [OfCount 3] /\
  run [1; 2; 3]%float = Some [].
Proof. repeat split; vm_compute; reflexivity. Qed.

Lemma water_level_classification_witness :
  valid_history [four_years] (Some 0) /\
  exists alerts st',
    generateAlerts synthetic_score now (reading 2024 15 2 850) (Some 0)
      [four_years] = Ok alerts st' /\
    exists a, in_category WaterLevel alerts = [a] /\ type a = critical.
Proof.
  assert (Hv : valid_history [four_years] (Some 0))
    by (exists four_years; reflexivity).
  split; [exact Hv|].
  destruct (water_level_classification synthetic_score now
              (reading 2024 15 2 850) [four_years] (Some 0) Hv)
    as (alerts & st' & Hrun & Hcritical & _).
  exists alerts, st'. split; [exact Hrun|].
  apply Hcritical. vm_compute. reflexivity.
Defined.


(** The bound of the health check is strict: averages 80 and 70 (a
    difference of -10) and averages 80 and 71 (-9) raise no alert; with
    three scores 90, 70, 70 the middle one counts in the second half,
    whose average 70 is below 90 - 10. *)
Lemma health_decline_boundaries :
  let run scores :=
    match generateAlerts synthetic_score now (scored 2023 65) (Some 0)
            [scores] with
    | Ok alerts _ => Some (map value (titled health_title alerts))
    | Throw _ => None
    end in
  run [scored 2020 80; scored 2021 80; scored 2022 65; scored 2023 65]
    = Some [OfNumber (-15)%float] /\
  run [scored 2020 80; scored 2021 80; scored 2022 70; scored 2023 70]
    = Some [] /\
  run [scored 2020 80; scored 2021 80; scored 2022 71; scored 2023 71]
    = Some [] /\
  run [scored 2020 90; scored 2021 70; scored 2022 70]
    = Some [OfNumber (-20)%float].
Proof. repeat split; vm_compute; reflexivity. Qed.

(** Halves whose scores differ, and differences that are no integers:
    the means are the sums over the counts, and the value is the nearest
    integer, the upper one for a tie (-18.5 gives -18).  Scores 100, 60
    then 71, 71 have the means 80 and 71, and raise no alert although
    the first score is 29 above the third. *)
Lemma health_decline_uneven_halves :
  let run scores :=
    match generateAlerts synthetic_score now (scored 2023 65) (Some 0)
            [scores] with
    | Ok alerts _ => Some (map value (titled health_title alerts))
    | Throw _ => None
    end in
  run [scored 2020 90; scored 2021 70; scored 2022 62; scored 2023 61]
    = Some [OfNumber (-18)%float] /\
  run [scored 2020 90; scored 2021 70; scored 2022 60; scored 2023 50.5]
    = Some [OfNumber (-25)%float] /\
  run [scored 2020 81.5; scored 2021 80; scored 2022 70; scored 2023 70]
    = Some [OfNumber (-11)%float] /\
  run [scored 2020 100; scored 2021 60; scored 2022 71; scored 2023 71]
    = Some [] /\
  run [scored 2020 90; scored 2021 80; scored 2022 70; scored 2023 70;
       scored 2024 60]
    = Some [OfNumber (-18)%float] /\
  run [scored 2023 61; scored 2020 90; scored 2022 62; scored 2021 70]
    = Some [OfNumber (-18)%float].
Proof. repeat split; vm_compute; reflexivity. Qed.

(** Three years in which every step goes the bad way for the three
    metrics: the history has two steps only, and no streak alert. *)
Lemma three_records_no_streak_alert :
  length three_years = 3 /\
  steps rising (stable_sort comparefn three_years) = [true; true] /\
  steps depleting (stable_sort comparefn three_years) = [true; true] /\
  steps drying (stable_sort comparefn three_years) = [true; true] /\
  exists alerts st',
    generateAlerts synthetic_score now (reading 2022 10 3 860) (Some 0)
      [three_years] = Ok alerts st' /\
    titled sustained_title alerts = [] /\
    titled accelerating_title alerts = [] /\
    titled declining_title alerts = [] /\
    in_category Trend alerts = [].
Proof.
  repeat split; try (vm_compute; reflexivity).
  eexists _, _. split; [vm_compute; reflexivity|].
  repeat split; vm_compute; reflexivity.
Qed.

Lemma four_records_streak_alert_witness :
  [four_years] !! 0 = Some four_years /\
  length four_years = 4 /\
  exists alerts st',
    generateAlerts synthetic_score now (reading 2023 11 4 840) (Some 0)
      [four_years] = Ok alerts st' /\
    (exists a, titled sustained_title alerts = [a] /\ value a = OfCount 3) /\
    (exists a, titled accelerating_title alerts = [a] /\
               value a = OfCount 3) /\
    (exists a, titled declining_title alerts = [a] /\ value a = OfCount 3).
Proof.
  assert (H0 : [four_years] !! 0 = Some four_years) by reflexivity.
  assert (H4 : length four_years = 4) by reflexivity.
  split; [exact H0|]. split; [exact H4|].
  destruct (four_records_streak_alert synthetic_score now
              (reading 2023 11 4 840) [four_years] 0 four_years H0 H4)
    as (alerts & st' & Hrun & Hrise & Hdep & Hrain).
  exists alerts, st'. split; [exact Hrun|].
  split; [apply Hrise; vm_compute; reflexivity|].
  split; [apply Hdep; vm_compute; reflexivity|].
  apply Hrain; vm_compute; reflexivity.
Defined.

Lemma alert_order_fixed_witness :
  valid_history [four_years] (Some 0) /\
  exists alerts st',
    generateAlerts synthetic_score now (reading 2023 11 4 840) (Some 0)
      [four_years] = Ok alerts st' /\
    map category alerts `sublist_of` category_order /\
    generateAlerts synthetic_score "2026-11-02T00:00:00.000Z"
      (reading 2023 11 4 840) (Some 0) [four_years]
    = Ok (map (with_timestamp "2026-11-02T00:00:00.000Z") alerts) st'.
Proof.
  assert (Hv : valid_history [four_years] (Some 0))
    by (exists four_years; reflexivity).
  split; [exact Hv|].
  destruct (alert_order_fixed synthetic_score now "2026-11-02T00:00:00.000Z"
              (reading 2023 11 4 840) [four_years] (Some 0) Hv)
    as (alerts & st' & Hrun & Horder & _ & Hagain & _).
  exists alerts, st'. split; [exact Hrun|]. split; [exact Horder|].
  exact Hagain.
Defined.

Lemma history_unchanged_witness :
  [four_years] !! 0 = Some four_years /\
  exists alerts st',
    generateAlerts synthetic_score now (reading 2023 11 4 840) (Some 0)
      [four_years] = Ok alerts st' /\
    st' !! 0 = Some four_years.
Proof.
  assert (H0 : [four_years] !! 0 = Some four_years) by reflexivity.
  split; [exact H0|].
  destruct (history_unchanged synthetic_score now (reading 2023 11 4 840)
              [four_years] 0 four_years H0)
    as (alerts & st' & Hrun & Hsame & _).
  exists alerts, st'. split; [exact Hrun|]. exact Hsame.
Defined.

(** The store after a call on the four years: the history as it was,
    and its sorted copy next to it. *)
Lemma sorted_copy_example :
  match generateAlerts synthetic_score now (reading 2023 11 4 840) (Some 0)
          [four_years] with
  | Ok _ st' => map (map year) st'
  | Throw _ => []
  end = [[2022; 2020; 2023; 2021]; [2020; 2021; 2022; 2023]]%Z.
Proof. vm_compute. reflexivity. Qed.

Lemma short_history_no_streak_alert_witness :
  valid_history [three_years] (Some 0) /\
  length (history_records [three_years] (Some 0)) < 4 /\
  exists alerts st',
    generateAlerts synthetic_score now (reading 2022 10 3 860) (Some 0)
      [three_years] = Ok alerts st' /\
    titled sustained_title alerts = [] /\
    titled accelerating_title alerts = [] /\
    titled declining_title alerts = [].
Proof.
  assert (Hv : valid_history [three_years] (Some 0))
    by (exists three_years; reflexivity).
  assert (Hlen : length (history_records [three_years] (Some 0)) < 4)
    by (vm_compute; lia).
  split; [exact Hv|]. split; [exact Hlen|].
  destruct (short_history_no_streak_alert synthetic_score now
              (reading 2022 10 3 860) [three_years] (Some 0) Hv Hlen)
    as (alerts & st' & Hrun & _ & H1 & H2 & H3 & _).
  exists alerts, st'. repeat split; assumption.
Defined.


(** * Further properties of the engine *)

(** ** More on the order of JavaScript numbers *)

Lemma SFcompare_le_lt_trans (a b c : spec_float) (o : comparison) :
  SFcompare a b = Some o -> o <> Gt -> SFcompare b c = Some Lt ->
  SFcompare a c = Some Lt.
Proof.
  destruct a as [sa|sa| |sa ma ea], b as [sb|sb| |sb mb eb],
           c as [sc|sc| |sc mc ec]; simpl; try discriminate;
    try (destruct sa); try (destruct sb); try (destruct sc); simpl;
    try discriminate; try reflexivity; try congruence;
    rewrite ?Pos.compare_cont_spec; simpl;
    intros H1 Ho H2;
    repeat match goal with
      | H : context [(?x ?= ?y)%Z] |- _ =>
          destruct (Z.compare_spec x y); simpl in H
      | H : context [(?x ?= ?y)%positive] |- _ =>
          destruct (Pos.compare_spec x y); simpl in H
      end; try discriminate; try congruence; subst;
    repeat match goal with
      | |- context [(?x ?= ?y)%Z] =>
          destruct (Z.compare_spec x y); simpl
      | |- context [(?x ?= ?y)%positive] =>
          destruct (Pos.compare_spec x y); simpl
      end; try reflexivity; try lia; try congruence.
Qed.

(** [x <= y] and [y < z] exclude [z <= x]. *)
Lemma num_le_lt_not_le (x y z : float) :
  num_le x y = true -> num_lt y z = true -> num_le z x = false.
Proof.
  unfold num_lt, num_le.
  rewrite FloatAxioms.ltb_spec, !FloatAxioms.leb_spec. unfold SFltb, SFleb.
  destruct (SFcompare (Prim2SF x) (Prim2SF y)) as [[]|] eqn:E1;
    try discriminate;
    (destruct (SFcompare (Prim2SF y) (Prim2SF z)) as [[]|] eqn:E2;
     try discriminate; intros _ _;
     assert (E3 : SFcompare (Prim2SF x) (Prim2SF z) = Some Lt)
       by (eapply SFcompare_le_lt_trans; [exact E1 | discriminate | exact E2]);
     now rewrite (SFcompare_antisym _ _ _ E3)).
Qed.

(** [x < y] gives [x <= y]. *)
Lemma num_lt_le (x y : float) : num_lt x y = true -> num_le x y = true.
Proof.
  unfold num_lt, num_le.
  rewrite FloatAxioms.ltb_spec, FloatAxioms.leb_spec. unfold SFltb, SFleb.
  now destruct (SFcompare (Prim2SF x) (Prim2SF y)) as [[]|].
Qed.

(** [x <= y] and [y <= x] hold together exactly when [x === y]. *)
Lemma num_le_antisym (x y : float) :
  num_le x y && num_le y x = PrimFloat.eqb x y.
Proof.
  unfold num_le.
  rewrite !FloatAxioms.leb_spec, FloatAxioms.eqb_spec. unfold SFleb, SFeqb.
  destruct (SFcompare (Prim2SF x) (Prim2SF y)) as [c|] eqn:E.
  - rewrite (SFcompare_antisym _ _ _ E). now destruct c.
  - destruct (SFcompare (Prim2SF y) (Prim2SF x)) as [c|] eqn:E'; [|reflexivity].
    pose proof (SFcompare_antisym _ _ _ E'). congruence.
Qed.

(** No number is strictly above itself, whatever the field holds. *)
Lemma js_gt_irrefl (v : field) : js_gt v v = false.
Proof. unfold js_gt, num_gt. apply (num_lt_irrefl (ToNumber v)). Qed.

Lemma js_lt_irrefl (v : field) : js_lt v v = false.
Proof. unfold js_lt. apply num_lt_irrefl. Qed.

(** ** The other threshold checks *)

Section ThresholdChecks.

Variable calculateWaterScore : WaterRecord -> float.

Local Abbreviation generateAlerts := (generateAlerts calculateWaterScore).
Local Abbreviation alerts_for := (alerts_for calculateWaterScore).
Local Abbreviation trendAlerts := (trendAlerts calculateWaterScore).
Local Abbreviation healthTrendAlerts := (healthTrendAlerts calculateWaterScore).

(** X1.  For every record and every history: a depletion rate of 7 or
    more gives exactly one Depletion alert, critical; a rate of 5 or more
    but below 7 gives exactly one, a warning; a rate below 5 gives
    none. *)
Theorem depletion_classification ts data (st : heap)
    (history : option ref) :
  valid_history st history ->
  exists alerts st',
    generateAlerts ts data history st = Ok alerts st' /\
    (js_ge (depletionRate data) (Number 7) = true ->
       exists a, in_category Depletion alerts = [a] /\ type a = critical) /\
    (js_ge (depletionRate data) (Number 5) = true ->
     js_lt (depletionRate data) (Number 7) = true ->
       exists a, in_category Depletion alerts = [a] /\ type a = warning) /\
    (js_lt (depletionRate data) (Number 5) = true ->
       in_category Depletion alerts = []).
Proof.
  intros Hv. eexists _, _. split; [exact (generateAlerts_run _ _ _ _ _ Hv)|].
  rewrite in_category_alerts_for by discriminate. cbn [block_of].
  unfold depletionAlerts, push, js_ge, js_lt.
  cbn [ToNumber criticalDepletion highDepletion ALERT_THRESHOLDS app].
  repeat split.
  - intros ->. eexists. split; reflexivity.
  - intros H5 H7. rewrite (num_lt_not_ge _ _ H7), H5.
    eexists. split; reflexivity.
  - intros H5.
    rewrite (num_lt_le_not_ge _ 5 7 H5 eq_refl), (num_lt_not_ge _ _ H5).
    reflexivity.
Qed.

(** X2.  For every record and every history: a rainfall of 600 or less
    gives exactly one Rainfall alert, critical; a rainfall above 600 and
    of 700 or less gives exactly one, a warning; a rainfall above 700
    gives none. *)
Theorem rainfall_classification ts data (st : heap)
    (history : option ref) :
  valid_history st history ->
  exists alerts st',
    generateAlerts ts data history st = Ok alerts st' /\
    (js_le (rainfall data) (Number 600) = true ->
       exists a, in_category Rainfall alerts = [a] /\ type a = critical) /\
    (js_gt (rainfall data) (Number 600) = true ->
     js_le (rainfall data) (Number 700) = true ->
       exists a, in_category Rainfall alerts = [a] /\ type a = warning) /\
    (js_gt (rainfall data) (Number 700) = true ->
       in_category Rainfall alerts = []).
Proof.
  intros Hv. eexists _, _. split; [exact (generateAlerts_run _ _ _ _ _ Hv)|].
  rewrite in_category_alerts_for by discriminate. cbn [block_of].
  unfold rainfallAlerts, push, js_le, js_gt, num_gt.
  cbn [ToNumber criticalRainfall lowRainfall ALERT_THRESHOLDS app].
  repeat split.
  - intros ->. eexists. split; reflexivity.
  - intros H600 H700.
    change (PrimFloat.ltb 600 (ToNumber (rainfall data)))
      with (num_lt 600 (ToNumber (rainfall data))) in H600.
    pose proof (num_lt_not_ge _ _ H600) as Hno. unfold num_ge in Hno.
    unfold num_le at 1. rewrite Hno, H700.
    eexists. split; reflexivity.
  - intros H700.
    change (PrimFloat.ltb 700 (ToNumber (rainfall data)))
      with (num_lt 700 (ToNumber (rainfall data))) in H700.
    pose proof (num_lt_not_ge _ _ H700) as Hno7. unfold num_ge in Hno7.
    pose proof (num_le_lt_not_le 600 700 _ eq_refl H700) as Hno6.
    unfold num_le in *. now rewrite Hno6, Hno7.
Qed.

(** X3.  For every record and every history: a pH of 8 or more, or of
    6.5 or less, gives exactly one Water Quality alert, a warning; a pH
    strictly between 6.5 and 8 gives none.  Both bounds raise the alert:
    a pH of exactly 8 or exactly 6.5 does, a pH of 7 does not. *)
Theorem ph_classification ts data (st : heap) (history : option ref) :
  valid_history st history ->
  exists alerts st',
    generateAlerts ts data history st = Ok alerts st' /\
    (js_ge (ph data) (Number 8) = true \/ js_le (ph data) (Number 6.5) = true ->
       exists a, in_category WaterQuality alerts = [a] /\ type a = warning) /\
    (js_gt (ph data) (Number 6.5) = true ->
     js_lt (ph data) (Number 8) = true ->
       in_category WaterQuality alerts = []) /\
    (ph data = Number 8 \/ ph data = Number 6.5 ->
       exists a, in_category WaterQuality alerts = [a] /\ type a = warning) /\
    (ph data = Number 7 -> in_category WaterQuality alerts = []).
Proof.
  intros Hv. eexists _, _. split; [exact (generateAlerts_run _ _ _ _ _ Hv)|].
  rewrite in_category_alerts_for by discriminate. cbn [block_of].
  unfold phAlerts, push, js_ge, js_le, js_gt, js_lt, num_gt.
  cbn [ToNumber highPH lowPH ALERT_THRESHOLDS app].
  repeat split.
  - intros [-> | ->]; rewrite ?orb_true_r; eexists; split; reflexivity.
  - intros Hlow Hhigh.
    change (PrimFloat.ltb 6.5 (ToNumber (ph data)))
      with (num_lt 6.5 (ToNumber (ph data))) in Hlow.
    pose proof (num_lt_not_ge _ _ Hlow) as Hno. unfold num_ge in Hno.
    unfold num_le. now rewrite (num_lt_not_ge _ _ Hhigh), Hno.
  - intros [-> | ->]; cbn [ToNumber].
    + change (num_ge 8 8) with true. eexists. split; reflexivity.
    + change (num_ge 6.5 8) with false. change (num_le 6.5 6.5) with true.
      eexists. split; reflexivity.
  - intros ->. cbn [ToNumber].
    change (num_ge 7 8) with false. change (num_le 7 6.5) with false.
    reflexivity.
Qed.

(** X4.  For every record and every history: a consumption of 500 or
    more gives exactly one Consumption alert, of type info; a
    consumption below 500 gives none. *)
Theorem consumption_classification ts data (st : heap)
    (history : option ref) :
  valid_history st history ->
  exists alerts st',
    generateAlerts ts data history st = Ok alerts st' /\
    (js_ge (consumption data) (Number 500) = true ->
       exists a, in_category Consumption alerts = [a] /\ type a = info) /\
    (js_lt (consumption data) (Number 500) = true ->
       in_category Consumption alerts = []).
Proof.
  intros Hv. eexists _, _. split; [exact (generateAlerts_run _ _ _ _ _ Hv)|].
  rewrite in_category_alerts_for by discriminate. cbn [block_of].
  unfold consumptionAlert, push, js_ge, js_lt.
  cbn [ToNumber highConsumption ALERT_THRESHOLDS app].
  split.
  - intros ->. eexists. split; reflexivity.
  - intros H. now rewrite (num_lt_not_ge _ _ H).
Qed.

(** X5.  For every record and every history: the Scarcity alert is in
    the result exactly when [scarcityLevel] is Severe or Extreme; it is
    then there once, critical, with the level as its value and in its
    title, and without a threshold. *)
Theorem scarcity_classification ts data (st : heap)
    (history : option ref) :
  valid_history st history ->
  exists alerts st',
    generateAlerts ts data history st = Ok alerts st' /\
    (scarcityLevel data = "Severe" \/ scarcityLevel data = "Extreme" ->
       exists a, in_category Scarcity alerts = [a] /\ type a = critical /\
                 value a = OfString (scarcityLevel data) /\
                 title a = String.append "🚨 "
                             (String.append (scarcityLevel data)
                                            " Water Scarcity") /\
                 threshold a = None) /\
    (scarcityLevel data <> "Severe" -> scarcityLevel data <> "Extreme" ->
       in_category Scarcity alerts = []).
Proof.
  intros Hv. eexists _, _. split; [exact (generateAlerts_run _ _ _ _ _ Hv)|].
  rewrite in_category_alerts_for by discriminate. cbn [block_of].
  unfold scarcityAlert, push.
  destruct (String.eqb_spec (scarcityLevel data) "Severe") as [Hs|Hs];
    destruct (String.eqb_spec (scarcityLevel data) "Extreme") as [He|He];
    cbn [orb app]; split; intros; try tauto; try congruence;
    try (eexists; repeat split; reflexivity).
Qed.

End ThresholdChecks.

(** ** The result as a whole *)

Ltac block_forall := intros; split_ifs; unfold push; cbn [app];
  repeat (apply Forall_cons_2); try apply Forall_nil_2.

Lemma waterLevelAlerts_reported ts data :
  Forall (well_reported data) (waterLevelAlerts ts data []).
Proof.
  unfold waterLevelAlerts. block_forall; unfold well_reported; cbn; auto.
Qed.

Lemma depletionAlerts_reported ts data :
  Forall (well_reported data) (depletionAlerts ts data []).
Proof.
  unfold depletionAlerts. block_forall; unfold well_reported; cbn; auto.
Qed.

Lemma rainfallAlerts_reported ts data :
  Forall (well_reported data) (rainfallAlerts ts data []).
Proof.
  unfold rainfallAlerts. block_forall; unfold well_reported; cbn; auto.
Qed.

Lemma phAlerts_reported ts data :
  Forall (well_reported data) (phAlerts ts data []).
Proof. unfold phAlerts. block_forall; unfold well_reported; cbn; auto. Qed.

Lemma consumptionAlert_reported ts data :
  Forall (well_reported data) (consumptionAlert ts data []).
Proof.
  unfold consumptionAlert. block_forall; unfold well_reported; cbn; auto.
Qed.

Lemma scarcityAlert_reported ts data :
  Forall (well_reported data) (scarcityAlert ts data []).
Proof.
  unfold scarcityAlert. block_forall; unfold well_reported; cbn; auto.
Qed.

Lemma thresholdAlerts_reported ts data :
  Forall (well_reported data) (thresholdAlerts ts data).
Proof.
  unfold thresholdAlerts. rewrite !Forall_app.
  auto 10 using waterLevelAlerts_reported, depletionAlerts_reported,
    rainfallAlerts_reported, phAlerts_reported, consumptionAlert_reported,
    scarcityAlert_reported.
Qed.

Section WholeResult.

Variable calculateWaterScore : WaterRecord -> float.

Local Abbreviation generateAlerts := (generateAlerts calculateWaterScore).
Local Abbreviation alerts_for := (alerts_for calculateWaterScore).
Local Abbreviation trendAlerts := (trendAlerts calculateWaterScore).
Local Abbreviation healthTrendAlerts := (healthTrendAlerts calculateWaterScore).

Lemma trendAlerts_reported ts data sorted :
  Forall (well_reported data) (trendAlerts ts data sorted).
Proof.
  unfold trendAlerts, waterLevelTrendAlerts, depletionTrendAlerts,
    rainfallTrendAlerts, healthTrendAlerts.
  rewrite !Forall_app. cbv zeta.
  repeat split; split_ifs;
    repeat (apply Forall_cons_2); try apply Forall_nil_2; reflexivity.
Qed.

(** X6.  For every record and every history, each alert of the result
    reports the field its check tested as its value and the bound of the
    branch that fired as its threshold: 15 or 12 for a critical or a
    warning Water Level alert, 7 or 5 for Depletion, 600 or 700 for
    Rainfall, the text of the two bounds 6.5 and 8 for Water Quality, 500
    for Consumption; the Scarcity alert and the trend alerts have no
    threshold. *)
Theorem alerts_report_value_and_threshold ts data (st : heap)
    (history : option ref) :
  valid_history st history ->
  exists alerts st',
    generateAlerts ts data history st = Ok alerts st' /\
    Forall (well_reported data) alerts.
Proof.
  intros Hv. eexists _, _. split; [exact (generateAlerts_run _ _ _ _ _ Hv)|].
  unfold alerts_for. rewrite Forall_app.
  split; [apply thresholdAlerts_reported|].
  destruct (3 <=? _); [apply trendAlerts_reported|constructor].
Qed.

(** X7.  For every record and every history, all the alerts of one call
    carry the timestamp read at the start of the call. *)
Theorem alerts_share_timestamp ts data (st : heap) (history : option ref) :
  valid_history st history ->
  exists alerts st',
    generateAlerts ts data history st = Ok alerts st' /\
    Forall (fun a => timestamp a = ts) alerts.
Proof.
  intros Hv. eexists _, _. split; [exact (generateAlerts_run _ _ _ _ _ Hv)|].
  rewrite (alerts_for_retime calculateWaterScore ts ts).
  apply Forall_forall. intros a [b [-> _]]%list_elem_of_fmap. reflexivity.
Qed.

(** X8.  For every record and every history, the result holds 10 alerts
    at most: one at most in each of the six threshold categories and
    four trend alerts at most; without a history, or with a history of
    fewer than 3 records, it holds 6 at most and no trend alert. *)
Theorem alerts_count_bounds ts data (st : heap) (history : option ref) :
  valid_history st history ->
  exists alerts st',
    generateAlerts ts data history st = Ok alerts st' /\
    length alerts <= 10 /\
    (forall c, c <> Trend -> length (in_category c alerts) <= 1) /\
    length (in_category Trend alerts) <= 4 /\
    (length (history_records st history) < 3 ->
       length alerts <= 6 /\ in_category Trend alerts = []).
Proof.
  intros Hv. eexists _, _. split; [exact (generateAlerts_run _ _ _ _ _ Hv)|].
  pose proof (thresholdAlerts_order ts data) as Hth.
  apply sublist_length in Hth. rewrite length_map in Hth. cbn [length] in Hth.
  assert (Htr : forall sorted, length (trendAlerts ts data sorted) <= 4).
  { intros sorted.
    pose proof (trendAlerts_order calculateWaterScore ts data sorted) as H.
    apply sublist_length in H. now rewrite length_map in H. }
  split; [|split; [|split]].
  - unfold alerts_for. rewrite length_app.
    destruct (3 <=? _); [specialize (Htr (stable_sort comparefn
      (history_records st history)))|cbn [length]]; lia.
  - intros c Hc. rewrite in_category_alerts_for by exact Hc.
    destruct c; cbn [block_of];
      auto using waterLevelAlerts_length, depletionAlerts_length,
        rainfallAlerts_length, phAlerts_length, consumptionAlert_length,
        scarcityAlert_length.
  - unfold alerts_for. rewrite in_category_app, in_category_threshold.
    cbn [block_of app].
    destruct (3 <=? _); [|cbn; lia].
    rewrite (in_category_same _ _ (trendAlerts_category _ _ _ _)).
    apply Htr.
  - intros Hshort. unfold alerts_for.
    destruct (Nat.leb_spec 3 (length (history_records st history))); [lia|].
    rewrite app_nil_r. split; [exact Hth|apply in_category_threshold].
Qed.

(** X9.  A history of fewer than 3 records changes nothing: the call
    returns what it returns without a history, and leaves the store as
    it was. *)
Theorem short_history_is_no_history ts data (st : heap) (history : ref)
    (records : list WaterRecord) :
  st !! history = Some records ->
  length records < 3 ->
  generateAlerts ts data (Some history) st = generateAlerts ts data None st /\
  exists alerts, generateAlerts ts data (Some history) st = Ok alerts st.
Proof.
  intros Hr Hlen.
  rewrite (generateAlerts_short_history _ _ _ _ _ _ Hr Hlen).
  rewrite generateAlerts_no_history. split; [reflexivity|]. now eexists.
Qed.

(** X10.  The history never changes the threshold alerts: taking the
    trend alerts out of the result of a call with a history gives, in
    the same order, the result of the call without a history. *)
Theorem threshold_alerts_ignore_history ts data (st : heap)
    (history : option ref) :
  valid_history st history ->
  exists alerts st',
    generateAlerts ts data history st = Ok alerts st' /\
    generateAlerts ts data None st
    = Ok (filter (fun a => category a <> Trend) alerts) st.
Proof.
  intros Hv. eexists _, _. split; [exact (generateAlerts_run _ _ _ _ _ Hv)|].
  rewrite generateAlerts_no_history. f_equal.
  unfold alerts_for. rewrite filter_app.
  change (filter (fun a => category a <> Trend))
    with (not_in_category Trend).
  assert (Hth : not_in_category Trend (thresholdAlerts ts data)
                = thresholdAlerts ts data).
  { unfold thresholdAlerts. rewrite !not_in_category_app.
    now rewrite
      (not_in_category_other Trend WaterLevel _ ltac:(discriminate)
         (waterLevelAlerts_category _ _)),
      (not_in_category_other Trend Depletion _ ltac:(discriminate)
         (depletionAlerts_category _ _)),
      (not_in_category_other Trend Rainfall _ ltac:(discriminate)
         (rainfallAlerts_category _ _)),
      (not_in_category_other Trend WaterQuality _ ltac:(discriminate)
         (phAlerts_category _ _)),
      (not_in_category_other Trend Consumption _ ltac:(discriminate)
         (consumptionAlert_category _ _)),
      (not_in_category_other Trend Scarcity _ ltac:(discriminate)
         (scarcityAlert_category _ _)). }
  rewrite Hth.
  destruct (3 <=? _); [|now rewrite app_nil_r].
  rewrite (not_in_category_same _ _ (trendAlerts_category _ _ _ _)).
  now rewrite app_nil_r.
Qed.

End WholeResult.

(** ** The trend checks *)

Lemma steps_snoc worse (pre : list WaterRecord) (p l : WaterRecord) :
  steps worse (pre ++ [p; l]) = steps worse (pre ++ [p]) ++ [worse l p].
Proof.
  induction pre as [|x pre IH]; [reflexivity|].
  destruct pre as [|y pre]; [reflexivity|].
  cbn [app steps] in *. now rewrite IH.
Qed.

(** A last step that does not go the bad way leaves the counter on 0. *)
Lemma count_streak_last_step worse (pre : list WaterRecord)
    (p l : WaterRecord) :
  worse l p = false -> count_streak (steps worse (pre ++ [p; l])) = 0.
Proof.
  intros H. rewrite steps_snoc. unfold count_streak.
  now rewrite count_from_snoc, H.
Qed.

Lemma depletionTrendAlerts_run_length ts data sorted :
  let run := trailing_run (steps depleting sorted) in
  (3 <= run ->
     exists a, depletionTrendAlerts ts data sorted = [a] /\
               value a = OfCount run /\ type a = critical /\
               category a = Trend) /\
  (run < 3 -> depletionTrendAlerts ts data sorted = []).
Proof.
  cbv zeta. unfold depletionTrendAlerts.
  rewrite count_streak_trailing_run.
  destruct (Nat.leb_spec 3 (trailing_run (steps depleting sorted))); split;
    try lia; intros _; [|reflexivity].
  eexists. repeat split; reflexivity.
Qed.

Lemma rainfallTrendAlerts_run_length ts data sorted :
  let run := trailing_run (steps drying sorted) in
  (3 <= run ->
     exists a, rainfallTrendAlerts ts data sorted = [a] /\
               value a = OfCount run /\ type a = warning /\
               category a = Trend) /\
  (run < 3 -> rainfallTrendAlerts ts data sorted = []).
Proof.
  cbv zeta. unfold rainfallTrendAlerts.
  rewrite count_streak_trailing_run.
  destruct (Nat.leb_spec 3 (trailing_run (steps drying sorted))); split;
    try lia; intros _; [|reflexivity].
  eexists. repeat split; reflexivity.
Qed.

Section TrendChecks.

Variable calculateWaterScore : WaterRecord -> float.

Local Abbreviation generateAlerts := (generateAlerts calculateWaterScore).
Local Abbreviation alerts_for := (alerts_for calculateWaterScore).
Local Abbreviation trendAlerts := (trendAlerts calculateWaterScore).
Local Abbreviation healthTrendAlerts := (healthTrendAlerts calculateWaterScore).

(** X11.  For every history of 3 records or more, the alert
    "Accelerating Depletion Trend" is in the result exactly when the run
    of strictly rising [depletionRate] steps that ends at the last record
    of the history sorted by year has length 3 or more; it is then there
    once, critical, and its value is the length of that run. *)
Theorem depletion_trend_trailing_run ts data (st : heap) (history : ref)
    (records : list WaterRecord) :
  st !! history = Some records ->
  3 <= length records ->
  let run :=
    trailing_run (steps depleting (stable_sort comparefn records)) in
  exists alerts st',
    generateAlerts ts data (Some history) st = Ok alerts st' /\
    (3 <= run ->
       exists a, titled accelerating_title alerts = [a] /\
                 value a = OfCount run /\ type a = critical /\
                 category a = Trend) /\
    (run < 3 -> titled accelerating_title alerts = []).
Proof.
  intros Hr Hlen run.
  assert (Hv : valid_history st (Some history)) by (now exists records).
  eexists _, _. split; [exact (generateAlerts_run _ _ _ _ _ Hv)|].
  cbn [history_records]. rewrite Hr.
  change (default [] (Some records)) with records.
  rewrite titled_accelerating.
  destruct (Nat.leb_spec 3 (length records)); [|lia].
  apply depletionTrendAlerts_run_length.
Qed.

(** X12.  For every history of 3 records or more, the alert "Declining
    Rainfall Pattern" is in the result exactly when the run of strictly
    falling [rainfall] steps that ends at the last record of the history
    sorted by year has length 3 or more; it is then there once, a
    warning, and its value is the length of that run. *)
Theorem rainfall_trend_trailing_run ts data (st : heap) (history : ref)
    (records : list WaterRecord) :
  st !! history = Some records ->
  3 <= length records ->
  let run := trailing_run (steps drying (stable_sort comparefn records)) in
  exists alerts st',
    generateAlerts ts data (Some history) st = Ok alerts st' /\
    (3 <= run ->
       exists a, titled declining_title alerts = [a] /\
                 value a = OfCount run /\ type a = warning /\
                 category a = Trend) /\
    (run < 3 -> titled declining_title alerts = []).
Proof.
  intros Hr Hlen run.
  assert (Hv : valid_history st (Some history)) by (now exists records).
  eexists _, _. split; [exact (generateAlerts_run _ _ _ _ _ Hv)|].
  cbn [history_records]. rewrite Hr.
  change (default [] (Some records)) with records.
  rewrite titled_declining.
  destruct (Nat.leb_spec 3 (length records)); [|lia].
  apply rainfallTrendAlerts_run_length.
Qed.

(** X13.  A plateau at the end breaks every streak: when the two latest
    records of the history sorted by year carry the same value in
    [groundwaterLevel], the alert "Sustained Water Level Decline" is not
    in the result, however long the water level rose before; the same
    holds for [depletionRate] and "Accelerating Depletion Trend", and
    for [rainfall] and "Declining Rainfall Pattern". *)
Theorem plateau_breaks_streak ts data (st : heap) (history : ref)
    (records earlier : list WaterRecord) (previous latest : WaterRecord) :
  st !! history = Some records ->
  stable_sort comparefn records = earlier ++ [previous; latest] ->
  exists alerts st',
    generateAlerts ts data (Some history) st = Ok alerts st' /\
    (groundwaterLevel latest = groundwaterLevel previous ->
       titled sustained_title alerts = []) /\
    (depletionRate latest = depletionRate previous ->
       titled accelerating_title alerts = []) /\
    (rainfall latest = rainfall previous ->
       titled declining_title alerts = []).
Proof.
  intros Hr Hsorted.
  assert (Hv : valid_history st (Some history)) by (now exists records).
  eexists _, _. split; [exact (generateAlerts_run _ _ _ _ _ Hv)|].
  cbn [history_records]. rewrite Hr.
  change (default [] (Some records)) with records.
  rewrite titled_sustained, titled_accelerating, titled_declining.
  rewrite Hsorted.
  unfold waterLevelTrendAlerts, depletionTrendAlerts, rainfallTrendAlerts.
  cbv zeta.
  repeat split; intros Heq; destruct (3 <=? length records); try reflexivity;
    rewrite count_streak_last_step; try reflexivity.
  - unfold rising. rewrite Heq. apply js_gt_irrefl.
  - unfold depleting. rewrite Heq. apply js_gt_irrefl.
  - unfold drying. rewrite Heq. apply js_lt_irrefl.
Qed.

(** X14.  With one record a year at most, the order in which the caller
    gives the history does not matter: two histories that hold the same
    records in different orders give the same alerts. *)
Theorem history_order_irrelevant ts data (st1 st2 : heap) (h1 h2 : ref)
    (records1 records2 : list WaterRecord) :
  st1 !! h1 = Some records1 ->
  st2 !! h2 = Some records2 ->
  records1 ≡ₚ records2 ->
  NoDup (map year records1) ->
  exists alerts st1' st2',
    generateAlerts ts data (Some h1) st1 = Ok alerts st1' /\
    generateAlerts ts data (Some h2) st2 = Ok alerts st2'.
Proof.
  intros H1 H2 Hp Hnd.
  assert (Hv1 : valid_history st1 (Some h1)) by (now exists records1).
  assert (Hv2 : valid_history st2 (Some h2)) by (now exists records2).
  eexists _, _, _. split; [exact (generateAlerts_run _ _ _ _ _ Hv1)|].
  rewrite (generateAlerts_run _ _ _ _ _ Hv2).
  cbn [history_records]. rewrite H1, H2.
  change (default [] (Some records1)) with records1.
  change (default [] (Some records2)) with records2.
  unfold alerts_for.
  rewrite (stable_sort_Permutation_eq _ _ Hp Hnd).
  now rewrite (Permutation_length Hp).
Qed.

(** X15.  The trend alerts of a result come in the order of the checks,
    each with its severity: Sustained Water Level Decline (warning),
    Accelerating Depletion Trend (critical), Declining Rainfall Pattern
    (warning), Overall Water Health Declining (warning), each once at
    most. *)
Theorem trend_alerts_sequence ts data (st : heap) (history : option ref) :
  valid_history st history ->
  exists alerts st',
    generateAlerts ts data history st = Ok alerts st' /\
    map (fun a => (title a, type a)) (in_category Trend alerts)
    `sublist_of` trend_sequence.
Proof.
  intros Hv. eexists _, _. split; [exact (generateAlerts_run _ _ _ _ _ Hv)|].
  unfold alerts_for. rewrite in_category_app, in_category_threshold.
  cbn [block_of app].
  destruct (3 <=? _); [|apply sublist_nil_l].
  rewrite (in_category_same _ _ (trendAlerts_category _ _ _ _)).
  unfold trendAlerts, trend_sequence. rewrite !map_app.
  change [(sustained_title, warning); (accelerating_title, critical);
          (declining_title, warning); (health_title, warning)]
    with ([(sustained_title, warning)] ++ [(accelerating_title, critical)] ++
          [(declining_title, warning)] ++ [(health_title, warning)]).
  unfold waterLevelTrendAlerts, depletionTrendAlerts, rainfallTrendAlerts,
    healthTrendAlerts.
  cbv zeta.
  repeat apply sublist_app; split_ifs;
    first [apply sublist_nil_l | reflexivity].
Qed.

(** X16.  When the alert "Sustained Water Level Decline" is raised, the
    rise of depth its message reports is the water level of the last
    record of the sorted history minus that of the record where the run
    starts, [run] records before the last; both records exist. *)
Theorem sustained_decline_window ts data (st : heap) (history : ref)
    (records : list WaterRecord) :
  st !! history = Some records ->
  let sorted := stable_sort comparefn records in
  let run := trailing_run (steps rising sorted) in
  3 <= run ->
  exists alerts st' a first last,
    generateAlerts ts data (Some history) st = Ok alerts st' /\
    titled sustained_title alerts = [a] /\
    run <= length records - 1 /\
    sorted !! (length records - 1) = Some last /\
    sorted !! (length records - 1 - run) = Some first /\
    message a
    = [Lit "Water level in "; InterpStr (location data);
       Lit " has been dropping for "; InterpCount run;
       Lit " consecutive years (";
       InterpFixed1 (PrimFloat.sub (ToNumber (groundwaterLevel last))
                                   (ToNumber (groundwaterLevel first)));
       Lit "m increase in depth)."].
Proof.
  intros Hr sorted run Hrun.
  assert (Hv : valid_history st (Some history)) by (now exists records).
  assert (Hbound : run <= length records - 1).
  { unfold run. rewrite <- count_streak_trailing_run.
    pose proof (steps_count_bound rising sorted) as H.
    unfold sorted in H at 2. now rewrite stable_sort_length in H. }
  assert (Hlen : length sorted = length records)
    by apply stable_sort_length.
  destruct (lookup_lt_is_Some_2 sorted (length records - 1)) as [last Hlast];
    [lia|].
  destruct (lookup_lt_is_Some_2 sorted (length records - 1 - run))
    as [first Hfirst]; [lia|].
  eexists _, _, _, first, last.
  split; [exact (generateAlerts_run _ _ _ _ _ Hv)|].
  cbn [history_records]. rewrite Hr.
  change (default [] (Some records)) with records.
  rewrite titled_sustained.
  destruct (Nat.leb_spec 3 (length records)); [|lia].
  fold sorted. unfold waterLevelTrendAlerts.
  rewrite count_streak_trailing_run. fold run.
  destruct (Nat.leb_spec 3 run); [|lia].
  split; [reflexivity|]. split; [exact Hbound|].
  split; [exact Hlast|]. split; [exact Hfirst|].
  cbn [message sustainedDecline]. unfold level_at.
  now rewrite Hlen, Hlast, Hfirst.
Qed.

End TrendChecks.

(** ** The updates and the alerts on the same record *)

(** [x <= y] without [x < y] is [x === y]. *)
Lemma num_le_not_lt (x y : float) :
  num_le x y && negb (num_lt x y) = PrimFloat.eqb x y.
Proof.
  unfold num_le, num_lt.
  rewrite FloatAxioms.leb_spec, FloatAxioms.ltb_spec, FloatAxioms.eqb_spec.
  unfold SFleb, SFltb, SFeqb.
  now destruct (SFcompare (Prim2SF x) (Prim2SF y)) as [[]|].
Qed.

(** At or below 600 is below 700. *)
Lemma below_600_below_700 (x : float) :
  num_le x 600 = true -> num_lt x 700 = true.
Proof.
  unfold num_le, num_lt.
  rewrite FloatAxioms.leb_spec, FloatAxioms.ltb_spec. unfold SFleb, SFltb.
  destruct (SFcompare (Prim2SF x) (Prim2SF 600)) as [c|] eqn:E;
    [|discriminate].
  intros Hc.
  assert (H : SFcompare (Prim2SF x) (Prim2SF 700) = Some Lt).
  { eapply (SFcompare_le_lt_trans _ (Prim2SF 600) _ c); [exact E| |reflexivity].
    destruct c; [discriminate|discriminate|discriminate Hc]. }
  now rewrite H.
Qed.

(** A pH in the range 6.5 to 8 of the assessment that also meets the
    test of the alert is one of the two bounds. *)
Lemma ph_range_and_alert (x : float) :
  (num_ge x 6.5 && num_le x 8) && (num_ge x 8 || num_le x 6.5)
  = PrimFloat.eqb x 6.5 || PrimFloat.eqb x 8.
Proof.
  rewrite <- (num_le_antisym x 6.5), <- (num_le_antisym x 8).
  unfold num_ge.
  destruct (num_le x 6.5) eqn:Hlow.
  - (* x <= 6.5 < 8, so x <= 8 and not 8 <= x *)
    assert (Hlt : num_lt x 8 = true).
    { unfold num_lt, num_le in *.
      rewrite FloatAxioms.ltb_spec. rewrite FloatAxioms.leb_spec in Hlow.
      unfold SFltb, SFleb in *.
      destruct (SFcompare (Prim2SF x) (Prim2SF 6.5)) as [c|] eqn:E;
        [|discriminate].
      assert (H : SFcompare (Prim2SF x) (Prim2SF 8) = Some Lt).
      { eapply (SFcompare_le_lt_trans _ (Prim2SF 6.5) _ c);
          [exact E| |reflexivity].
        destruct c; [discriminate|discriminate|discriminate Hlow]. }
      now rewrite H. }
    pose proof (num_lt_le _ _ Hlt) as H8.
    pose proof (num_lt_not_ge _ _ Hlt) as Hno. unfold num_ge in Hno.
    unfold num_le in *. rewrite H8, Hno.
    now destruct (PrimFloat.leb 6.5 x).
  - (* 8 <= x gives 6.5 <= x *)
    assert (Hup : num_le 8 x = true -> num_le 6.5 x = true).
    { intros H. apply num_lt_le. revert H. unfold num_le, num_lt.
      rewrite FloatAxioms.leb_spec, FloatAxioms.ltb_spec.
      unfold SFleb, SFltb.
      destruct (SFcompare (Prim2SF 8) (Prim2SF x)) as [c|] eqn:E;
        [|discriminate].
      intros Hc.
      assert (H : SFcompare (Prim2SF 6.5) (Prim2SF x) = Some Lt).
      { eapply (SFcompare_lt_le_trans _ (Prim2SF 8) _ c);
          [reflexivity|exact E|].
        destruct c; [discriminate|discriminate|discriminate Hc]. }
      now rewrite H. }
    unfold num_le in *.
    destruct (PrimFloat.leb 8 x); [rewrite Hup by reflexivity|];
      now destruct (PrimFloat.leb x 8); try destruct (PrimFloat.leb 6.5 x).
Qed.

Section UpdatesAndAlerts.

Variable calculateWaterScore : WaterRecord -> float.

Local Abbreviation generateAlerts := (generateAlerts calculateWaterScore).
Local Abbreviation alerts_for := (alerts_for calculateWaterScore).

(** X17.  The Groundwater Status Report agrees with the alerts on the
    same record: its priority is high exactly when [generateAlerts]
    raises the Scarcity alert for that record. *)
Theorem status_report_matches_scarcity_alert ts today
    (prefix : list WaterRecord) (latest : WaterRecord) (st : heap)
    (history : option ref) :
  valid_history st history ->
  exists alerts st' report,
    generateAlerts ts latest history st = Ok alerts st' /\
    find_update 1 (generateGovUpdates today (prefix ++ [latest]))
    = Some report /\
    (Gov.priority report = high <-> in_category Scarcity alerts <> []).
Proof.
  intros Hv. eexists _, _, _.
  split; [exact (generateAlerts_run _ _ _ _ _ Hv)|].
  unfold generateGovUpdates. rewrite last_snoc_record.
  split; [reflexivity|].
  rewrite in_category_alerts_for by discriminate.
  cbn [block_of Gov.priority]. unfold scarcityAlert, push.
  destruct (String.eqb (scarcityLevel latest) "Severe"
            || String.eqb (scarcityLevel latest) "Extreme");
    cbn [app]; split; intros; congruence.
Qed.

(** X18.  The Rainfall Monitoring Update and the Rainfall alert use
    different bounds: whenever the update has the priority high
    ([rainfall < 700]) the Rainfall alert is raised, and for a numeric
    rainfall the alert is raised while the update keeps the priority
    normal exactly when the rainfall is 700. *)
Theorem rainfall_update_and_alert ts today (prefix : list WaterRecord)
    (latest : WaterRecord) (st : heap) (history : option ref) :
  valid_history st history ->
  exists alerts st' update,
    generateAlerts ts latest history st = Ok alerts st' /\
    find_update 2 (generateGovUpdates today (prefix ++ [latest]))
    = Some update /\
    (Gov.priority update = high -> in_category Rainfall alerts <> []) /\
    (forall x, rainfall latest = Number x ->
       (in_category Rainfall alerts <> [] /\ Gov.priority update = normal
        <-> PrimFloat.eqb x 700 = true)).
Proof.
  intros Hv. eexists _, _, _.
  split; [exact (generateAlerts_run _ _ _ _ _ Hv)|].
  unfold generateGovUpdates. rewrite last_snoc_record.
  split; [reflexivity|].
  rewrite in_category_alerts_for by discriminate.
  cbn [block_of Gov.priority]. unfold rainfallAlerts, push, js_le, js_lt.
  cbn [ToNumber criticalRainfall lowRainfall ALERT_THRESHOLDS app].
  split.
  - destruct (num_lt (ToNumber (rainfall latest)) 700) eqn:Hlt;
      [|discriminate].
    intros _. rewrite (num_lt_le _ _ Hlt).
    destruct (num_le (ToNumber (rainfall latest)) 600); discriminate.
  - intros x ->. cbn [ToNumber]. rewrite <- num_le_not_lt.
    destruct (num_le x 600) eqn:H600.
    + rewrite (below_600_below_700 _ H600). rewrite andb_false_r.
      split; [intros [_ H]; discriminate H|discriminate].
    + destruct (num_le x 700), (num_lt x 700); cbn;
        split; try discriminate; try tauto; try (intros [? ?]; congruence);
        intros _; split; congruence.
Qed.

(** X19.  The Water Quality Assessment and the pH alert overlap on the
    two bounds: for a numeric pH, the assessment states that the water
    is within the acceptable standards while [generateAlerts] raises the
    pH alert exactly when the pH is 6.5 or 8; for a missing pH there is
    no alert and the assessment asks for attention. *)
Theorem quality_assessment_and_alert ts today (prefix : list WaterRecord)
    (latest : WaterRecord) (st : heap) (history : option ref) :
  valid_history st history ->
  exists alerts st' assessment,
    generateAlerts ts latest history st = Ok alerts st' /\
    find_update 3 (generateGovUpdates today (prefix ++ [latest]))
    = Some assessment /\
    (forall x, ph latest = Number x ->
       (verdict assessment = Some (InterpStr acceptable_text) /\
        in_category WaterQuality alerts <> []
        <-> PrimFloat.eqb x 6.5 || PrimFloat.eqb x 8 = true)) /\
    (ph latest = Undefined ->
       verdict assessment = Some (InterpStr attention_text) /\
       in_category WaterQuality alerts = []).
Proof.
  intros Hv. eexists _, _, _.
  split; [exact (generateAlerts_run _ _ _ _ _ Hv)|].
  unfold generateGovUpdates. rewrite last_snoc_record.
  split; [reflexivity|].
  rewrite in_category_alerts_for by discriminate.
  cbn [block_of]. unfold verdict, phAlerts, push, js_ge, js_le.
  cbn [Gov.body last ToNumber highPH lowPH ALERT_THRESHOLDS app].
  split.
  - intros x ->. cbn [ToNumber]. rewrite <- ph_range_and_alert.
    destruct (num_ge x 6.5 && num_le x 8), (num_ge x 8 || num_le x 6.5);
      cbn [andb]; (split;
        [ intros [H1 H2];
          first [reflexivity | discriminate H1 | now elim H2]
        | intros H;
          first [discriminate H | split; [reflexivity|discriminate]] ]).
  - intros ->. split; reflexivity.
Qed.

End UpdatesAndAlerts.

(** X20.  The updates are those of the last record alone: the records
    before it change nothing.  A missing rainfall counts as normal
    ([undefined < 700] is false) where a [null] rainfall counts as below
    700 and gives the priority high; a missing or [null] pH makes the
    assessment ask for attention. *)
Theorem gov_updates_latest_and_missing (today : string)
    (prefix : list WaterRecord) (latest : WaterRecord) :
  generateGovUpdates today (prefix ++ [latest])
  = generateGovUpdates today [latest] /\
  exists update assessment,
    find_update 2 (generateGovUpdates today (prefix ++ [latest]))
    = Some update /\
    find_update 3 (generateGovUpdates today (prefix ++ [latest]))
    = Some assessment /\
    (rainfall latest = Undefined -> Gov.priority update = normal) /\
    (rainfall latest = Null -> Gov.priority update = high) /\
    (is_nullish (ph latest) = true ->
       verdict assessment = Some (InterpStr attention_text)).
Proof.
  unfold generateGovUpdates. rewrite last_snoc_record.
  split; [reflexivity|]. eexists _, _.
  split; [reflexivity|]. split; [reflexivity|].
  unfold verdict. cbn [Gov.priority Gov.body last].
  repeat split.
  - now intros ->.
  - now intros ->.
  - destruct (ph latest); [reflexivity|reflexivity|discriminate].
Qed.

(** ** The trend badges *)

(** The change computed from an unchanged reading that is finite and
    not zero is a zero. *)
Lemma change_of_same_reading (x : float) :
  finite_nonzero x = true ->
  Prim2SF (PrimFloat.mul
             (PrimFloat.div (PrimFloat.sub x x) (PrimFloat.abs x)) 100)
  = S754_zero false.
Proof.
  unfold finite_nonzero.
  rewrite FloatAxioms.mul_spec, FloatAxioms.div_spec, FloatAxioms.sub_spec,
    FloatAxioms.abs_spec.
  destruct (Prim2SF x) as [| | |s m e]; try discriminate. intros _.
  unfold SF64sub, SFsub. rewrite Z.sub_diag. cbn [binary_normalize].
  reflexivity.
Qed.

(** The change computed against a previous reading of 0 taken for a
    number ([null]) is an infinity or NaN. *)
Lemma change_against_null (c : float) :
  num_lt (PrimFloat.abs
            (PrimFloat.mul
               (PrimFloat.div (PrimFloat.sub c 0) (PrimFloat.abs 0)) 100)) 1
  = false.
Proof.
  unfold num_lt.
  rewrite FloatAxioms.ltb_spec, FloatAxioms.abs_spec, FloatAxioms.mul_spec,
    FloatAxioms.div_spec, FloatAxioms.sub_spec.
  destruct (Prim2SF c) as [[]|[]| |s m e]; reflexivity.
Qed.

Lemma finite_nonzero_not_zero (x : float) :
  finite_nonzero x = true -> PrimFloat.eqb x 0 = false.
Proof.
  unfold finite_nonzero. rewrite FloatAxioms.eqb_spec.
  destruct (Prim2SF x) as [| | |[] m e]; try discriminate; reflexivity.
Qed.


(** X23.  In the earlier version a [null] previous reading passes the
    guards: for every current reading that is not [undefined] a badge is
    shown, and it is never the neutral one (the change is an infinity or
    NaN, so the badge is coloured and carries a percentage). *)
Theorem earlier_badge_null_previous (label unit : string) (current : field)
    (invert : bool) (icon : option string) :
  current <> Undefined ->
  exists badge,
    EarlierBadges.TrendBadge label current Null unit invert icon
    = Some badge /\
    Trend.tone badge <> gray /\
    Trend.arrow badge <> "—" /\
    Trend.percent badge <> None.
Proof.
  intros Hc. unfold EarlierBadges.TrendBadge.
  assert (Hu : is_undefined current = false) by (now destruct current).
  rewrite Hu. cbn [is_undefined strictly_zero orb].
  eexists. split; [reflexivity|].
  unfold badge_element. cbv zeta. cbn [ToNumber].
  assert (Hn : num_lt (PrimFloat.abs
                 (PrimFloat.mul
                    (PrimFloat.div (PrimFloat.sub (ToNumber current) 0)
                                   (PrimFloat.abs 0)) 100)) 1 = false)
    by apply change_against_null.
  cbn [Trend.tone Trend.arrow Trend.percent]. rewrite Hn.
  repeat split; split_ifs; discriminate.
Qed.

(** X24.  An unchanged reading that is finite and not zero gives the
    neutral badge in both versions: gray, with the flat icon and the
    dash, and without a percentage, whatever [invert] is. *)
Theorem unchanged_reading_is_neutral (label unit : string) (x : float)
    (invert : bool) :
  finite_nonzero x = true ->
  exists badge,
    LaterBadges.TrendBadge label (Number x) (Number x) unit invert None
    = Some badge /\
    EarlierBadges.TrendBadge label (Number x) (Number x) unit invert None
    = Some badge /\
    Trend.tone badge = gray /\ Trend.icon badge = FiMinus /\
    Trend.arrow badge = "—" /\ Trend.percent badge = None.
Proof.
  intros Hx. unfold LaterBadges.TrendBadge, EarlierBadges.TrendBadge.
  cbn [is_nullish is_undefined strictly_zero orb].
  rewrite (finite_nonzero_not_zero _ Hx).
  eexists. split; [reflexivity|]. split; [reflexivity|].
  unfold badge_element. cbv zeta. cbn [ToNumber].
  assert (Hn : num_lt (PrimFloat.abs
                 (PrimFloat.mul
                    (PrimFloat.div (PrimFloat.sub x x) (PrimFloat.abs x))
                    100)) 1 = true).
  { unfold num_lt. rewrite FloatAxioms.ltb_spec, FloatAxioms.abs_spec.
    now rewrite (change_of_same_reading _ Hx). }
  cbn [Trend.tone Trend.icon Trend.arrow Trend.percent]. rewrite Hn.
  repeat split.
Qed.

(** X25.  [invert] only exchanges green and red: the badge of an
    inverted metric (Water Level, Depletion) is the badge the same
    readings give without [invert], with the same icon, arrow and
    percentage, gray staying gray. *)
Theorem invert_exchanges_colours (label unit : string)
    (current previous : field) (icon : option string) :
  LaterBadges.TrendBadge label current previous unit true icon
  = option_map recoloured
      (LaterBadges.TrendBadge label current previous unit false icon) /\
  EarlierBadges.TrendBadge label current previous unit true icon
  = option_map recoloured
      (EarlierBadges.TrendBadge label current previous unit false icon).
Proof.
  unfold LaterBadges.TrendBadge, EarlierBadges.TrendBadge.
  split; split_ifs; try reflexivity; cbn [option_map]; f_equal;
    unfold recoloured, badge_element; cbv zeta;
    cbn [Trend.tone Trend.icon Trend.label Trend.shown Trend.unit
         Trend.arrow Trend.percent];
    repeat match goal with
      | |- context [num_lt ?a ?b] => destruct (num_lt a b)
      | |- context [num_gt ?a ?b] => destruct (num_gt a b)
      end; reflexivity.
Qed.

(** ** The further properties on sample inputs *)

Lemma depletion_classification_witness :
  valid_history [four_years] (Some 0) /\
  exists alerts st',
    generateAlerts synthetic_score now severe_zone (Some 0) [four_years]
    = Ok alerts st' /\
    exists a, in_category Depletion alerts = [a] /\ type a = critical.
Proof.
  assert (Hv : valid_history [four_years] (Some 0))
    by (exists four_years; reflexivity).
  split; [exact Hv|].
  destruct (depletion_classification synthetic_score now severe_zone
              [four_years] (Some 0) Hv)
    as (alerts & st' & Hrun & Hcritical & _).
  exists alerts, st'. split; [exact Hrun|].
  apply Hcritical. vm_compute. reflexivity.
Defined.

Lemma rainfall_classification_witness :
  valid_history [four_years] (Some 0) /\
  exists alerts st',
    generateAlerts synthetic_score now severe_zone (Some 0) [four_years]
    = Ok alerts st' /\
    exists a, in_category Rainfall alerts = [a] /\ type a = warning.
Proof.
  assert (Hv : valid_history [four_years] (Some 0))
    by (exists four_years; reflexivity).
  split; [exact Hv|].
  destruct (rainfall_classification synthetic_score now severe_zone
              [four_years] (Some 0) Hv)
    as (alerts & st' & Hrun & _ & Hwarning & _).
  exists alerts, st'. split; [exact Hrun|].
  apply Hwarning; vm_compute; reflexivity.
Defined.

Lemma ph_classification_witness :
  valid_history [] None /\
  exists alerts st',
    generateAlerts synthetic_score now severe_zone None [] = Ok alerts st' /\
    exists a, in_category WaterQuality alerts = [a] /\ type a = warning.
Proof.
  assert (Hv : valid_history [] None) by exact I.
  split; [exact Hv|].
  destruct (ph_classification synthetic_score now severe_zone [] None Hv)
    as (alerts & st' & Hrun & _ & _ & Hbound & _).
  exists alerts, st'. split; [exact Hrun|].
  apply Hbound. left. reflexivity.
Defined.

Lemma consumption_classification_witness :
  valid_history [] None /\
  exists alerts st',
    generateAlerts synthetic_score now severe_zone None [] = Ok alerts st' /\
    exists a, in_category Consumption alerts = [a] /\ type a = info.
Proof.
  assert (Hv : valid_history [] None) by exact I.
  split; [exact Hv|].
  destruct (consumption_classification synthetic_score now severe_zone []
              None Hv)
    as (alerts & st' & Hrun & Hinfo & _).
  exists alerts, st'. split; [exact Hrun|].
  apply Hinfo. vm_compute. reflexivity.
Defined.

Lemma scarcity_classification_witness :
  valid_history [] None /\
  exists alerts st',
    generateAlerts synthetic_score now severe_zone None [] = Ok alerts st' /\
    exists a, in_category Scarcity alerts = [a] /\
              title a = "🚨 Severe Water Scarcity".
Proof.
  assert (Hv : valid_history [] None) by exact I.
  split; [exact Hv|].
  destruct (scarcity_classification synthetic_score now severe_zone []
              None Hv)
    as (alerts & st' & Hrun & Hyes & _).
  exists alerts, st'. split; [exact Hrun|].
  destruct Hyes as (a & Ha & _ & _ & Htitle & _); [left; reflexivity|].
  exists a. split; [exact Ha|]. exact Htitle.
Defined.

Lemma alerts_report_value_and_threshold_witness :
  valid_history [four_years] (Some 0) /\
  exists alerts st',
    generateAlerts synthetic_score now severe_zone (Some 0) [four_years]
    = Ok alerts st' /\
    Forall (well_reported severe_zone) alerts.
Proof.
  assert (Hv : valid_history [four_years] (Some 0))
    by (exists four_years; reflexivity).
  split; [exact Hv|].
  exact (alerts_report_value_and_threshold synthetic_score now severe_zone
           [four_years] (Some 0) Hv).
Defined.

Lemma alerts_share_timestamp_witness :
  valid_history [four_years] (Some 0) /\
  exists alerts st',
    generateAlerts synthetic_score now severe_zone (Some 0) [four_years]
    = Ok alerts st' /\
    Forall (fun a => timestamp a = now) alerts.
Proof.
  assert (Hv : valid_history [four_years] (Some 0))
    by (exists four_years; reflexivity).
  split; [exact Hv|].
  exact (alerts_share_timestamp synthetic_score now severe_zone
           [four_years] (Some 0) Hv).
Defined.

Lemma alerts_count_bounds_witness :
  valid_history [four_years] (Some 0) /\
  exists alerts st',
    generateAlerts synthetic_score now severe_zone (Some 0) [four_years]
    = Ok alerts st' /\
    length alerts <= 10.
Proof.
  assert (Hv : valid_history [four_years] (Some 0))
    by (exists four_years; reflexivity).
  split; [exact Hv|].
  destruct (alerts_count_bounds synthetic_score now severe_zone
              [four_years] (Some 0) Hv)
    as (alerts & st' & Hrun & Hten & _).
  exists alerts, st'. split; [exact Hrun|exact Hten].
Defined.

Lemma short_history_is_no_history_witness :
  [two_years] !! 0 = Some two_years /\
  length two_years < 3 /\
  generateAlerts synthetic_score now severe_zone (Some 0) [two_years]
  = generateAlerts synthetic_score now severe_zone None [two_years].
Proof.
  assert (H0 : [two_years] !! 0 = Some two_years) by reflexivity.
  assert (H2 : length two_years < 3) by (vm_compute; lia).
  split; [exact H0|]. split; [exact H2|].
  exact (proj1 (short_history_is_no_history synthetic_score now severe_zone
                  [two_years] 0 two_years H0 H2)).
Defined.

Lemma threshold_alerts_ignore_history_witness :
  valid_history [four_years] (Some 0) /\
  exists alerts st',
    generateAlerts synthetic_score now severe_zone (Some 0) [four_years]
    = Ok alerts st' /\
    generateAlerts synthetic_score now severe_zone None [four_years]
    = Ok (filter (fun a => category a <> Trend) alerts) [four_years].
Proof.
  assert (Hv : valid_history [four_years] (Some 0))
    by (exists four_years; reflexivity).
  split; [exact Hv|].
  exact (threshold_alerts_ignore_history synthetic_score now severe_zone
           [four_years] (Some 0) Hv).
Defined.

Lemma depletion_trend_trailing_run_witness :
  [four_years] !! 0 = Some four_years /\
  3 <= length four_years /\
  exists alerts st',
    generateAlerts synthetic_score now severe_zone (Some 0) [four_years]
    = Ok alerts st' /\
    exists a, titled accelerating_title alerts = [a] /\
              type a = critical.
Proof.
  assert (H0 : [four_years] !! 0 = Some four_years) by reflexivity.
  assert (H3 : 3 <= length four_years) by (vm_compute; lia).
  split; [exact H0|]. split; [exact H3|].
  destruct (depletion_trend_trailing_run synthetic_score now severe_zone
              [four_years] 0 four_years H0 H3)
    as (alerts & st' & Hrun & Hyes & _).
  exists alerts, st'. split; [exact Hrun|].
  destruct Hyes as (a & Ha & _ & Htype & _); [vm_compute; lia|].
  exists a. split; [exact Ha|exact Htype].
Defined.

Lemma rainfall_trend_trailing_run_witness :
  [four_years] !! 0 = Some four_years /\
  3 <= length four_years /\
  exists alerts st',
    generateAlerts synthetic_score now severe_zone (Some 0) [four_years]
    = Ok alerts st' /\
    exists a, titled declining_title alerts = [a] /\ type a = warning.
Proof.
  assert (H0 : [four_years] !! 0 = Some four_years) by reflexivity.
  assert (H3 : 3 <= length four_years) by (vm_compute; lia).
  split; [exact H0|]. split; [exact H3|].
  destruct (rainfall_trend_trailing_run synthetic_score now severe_zone
              [four_years] 0 four_years H0 H3)
    as (alerts & st' & Hrun & Hyes & _).
  exists alerts, st'. split; [exact Hrun|].
  destruct Hyes as (a & Ha & _ & Htype & _); [vm_compute; lia|].
  exists a. split; [exact Ha|exact Htype].
Defined.

Lemma plateau_breaks_streak_witness :
  [plateau_years] !! 0 = Some plateau_years /\
  stable_sort comparefn plateau_years
  = [reading 2000 1 1 900; reading 2001 2 2 890; reading 2002 3 3 880]
    ++ [reading 2003 4 4 870; reading 2004 4 4 870] /\
  exists alerts st',
    generateAlerts synthetic_score now severe_zone (Some 0) [plateau_years]
    = Ok alerts st' /\
    titled sustained_title alerts = [] /\
    titled accelerating_title alerts = [] /\
    titled declining_title alerts = [].
Proof.
  assert (H0 : [plateau_years] !! 0 = Some plateau_years) by reflexivity.
  assert (Hs : stable_sort comparefn plateau_years
               = [reading 2000 1 1 900; reading 2001 2 2 890;
                  reading 2002 3 3 880]
                 ++ [reading 2003 4 4 870; reading 2004 4 4 870])
    by (vm_compute; reflexivity).
  split; [exact H0|]. split; [exact Hs|].
  destruct (plateau_breaks_streak synthetic_score now severe_zone
              [plateau_years] 0 plateau_years _ _ _ H0 Hs)
    as (alerts & st' & Hrun & H1 & H2 & H3).
  exists alerts, st'. split; [exact Hrun|].
  split; [apply H1; reflexivity|].
  split; [apply H2; reflexivity|apply H3; reflexivity].
Defined.

Lemma history_order_irrelevant_witness :
  [four_years] !! 0 = Some four_years /\
  [rev four_years] !! 0 = Some (rev four_years) /\
  four_years ≡ₚ rev four_years /\
  NoDup (map year four_years) /\
  exists alerts st1' st2',
    generateAlerts synthetic_score now severe_zone (Some 0) [four_years]
    = Ok alerts st1' /\
    generateAlerts synthetic_score now severe_zone (Some 0) [rev four_years]
    = Ok alerts st2'.
Proof.
  assert (H1 : [four_years] !! 0 = Some four_years) by reflexivity.
  assert (H2 : [rev four_years] !! 0 = Some (rev four_years)) by reflexivity.
  assert (Hp : four_years ≡ₚ rev four_years) by apply Permutation_rev.
  assert (Hnd : NoDup (map year four_years))
    by (apply (bool_decide_unpack _); vm_compute; reflexivity).
  split; [exact H1|]. split; [exact H2|]. split; [exact Hp|].
  split; [exact Hnd|].
  exact (history_order_irrelevant synthetic_score now severe_zone
           [four_years] [rev four_years] 0 0 four_years (rev four_years)
           H1 H2 Hp Hnd).
Defined.

Lemma trend_alerts_sequence_witness :
  valid_history [four_years] (Some 0) /\
  exists alerts st',
    generateAlerts synthetic_score now severe_zone (Some 0) [four_years]
    = Ok alerts st' /\
    map (fun a => (title a, type a)) (in_category Trend alerts)
    `sublist_of` trend_sequence.
Proof.
  assert (Hv : valid_history [four_years] (Some 0))
    by (exists four_years; reflexivity).
  split; [exact Hv|].
  exact (trend_alerts_sequence synthetic_score now severe_zone
           [four_years] (Some 0) Hv).
Defined.

Lemma sustained_decline_window_witness :
  [five_years] !! 0 = Some five_years /\
  3 <= trailing_run (steps rising (stable_sort comparefn five_years)) /\
  exists alerts st' a,
    generateAlerts synthetic_score now severe_zone (Some 0) [five_years]
    = Ok alerts st' /\
    titled sustained_title alerts = [a] /\
    In (InterpFixed1 4%float) (message a).
Proof.
  assert (H0 : [five_years] !! 0 = Some five_years) by reflexivity.
  assert (H3 : 3 <= trailing_run
                      (steps rising (stable_sort comparefn five_years)))
    by (vm_compute; lia).
  split; [exact H0|]. split; [exact H3|].
  destruct (sustained_decline_window synthetic_score now severe_zone
              [five_years] 0 five_years H0 H3)
    as (alerts & st' & a & first & last & Hrun & Ha & _ & Hlast & Hfirst
        & Hmsg).
  exists alerts, st', a. split; [exact Hrun|]. split; [exact Ha|].
  rewrite Hmsg.
  vm_compute in Hlast. vm_compute in Hfirst.
  injection Hlast as <-. injection Hfirst as <-.
  vm_compute. tauto.
Defined.

Lemma status_report_matches_scarcity_alert_witness :
  valid_history [] None /\
  exists alerts st' report,
    generateAlerts synthetic_score now severe_zone None [] = Ok alerts st' /\
    find_update 1 (generateGovUpdates "1/11/2026" ([] ++ [severe_zone]))
    = Some report /\
    (Gov.priority report = high <-> in_category Scarcity alerts <> []).
Proof.
  assert (Hv : valid_history [] None) by exact I.
  split; [exact Hv|].
  exact (status_report_matches_scarcity_alert synthetic_score now
           "1/11/2026" [] severe_zone [] None Hv).
Defined.

Lemma rainfall_update_and_alert_witness :
  valid_history [] None /\
  exists alerts st' update,
    generateAlerts synthetic_score now severe_zone None [] = Ok alerts st' /\
    find_update 2 (generateGovUpdates "1/11/2026" ([] ++ [severe_zone]))
    = Some update /\
    in_category Rainfall alerts <> [] /\ Gov.priority update = normal.
Proof.
  assert (Hv : valid_history [] None) by exact I.
  split; [exact Hv|].
  destruct (rainfall_update_and_alert synthetic_score now "1/11/2026" []
              severe_zone [] None Hv)
    as (alerts & st' & update & Hrun & Hfind & _ & Hbound).
  exists alerts, st', update. split; [exact Hrun|]. split; [exact Hfind|].
  apply (Hbound 700%float); reflexivity.
Defined.

Lemma quality_assessment_and_alert_witness :
  valid_history [] None /\
  exists alerts st' assessment,
    generateAlerts synthetic_score now severe_zone None [] = Ok alerts st' /\
    find_update 3 (generateGovUpdates "1/11/2026" ([] ++ [severe_zone]))
    = Some assessment /\
    verdict assessment = Some (InterpStr acceptable_text) /\
    in_category WaterQuality alerts <> [].
Proof.
  assert (Hv : valid_history [] None) by exact I.
  split; [exact Hv|].
  destruct (quality_assessment_and_alert synthetic_score now "1/11/2026" []
              severe_zone [] None Hv)
    as (alerts & st' & assessment & Hrun & Hfind & Hbound & _).
  exists alerts, st', assessment. split; [exact Hrun|].
  split; [exact Hfind|].
  apply (Hbound 8%float); reflexivity.
Defined.


Lemma earlier_badge_null_previous_witness :
  Number 9 <> Undefined /\
  exists badge,
    EarlierBadges.TrendBadge "Water Level" (Number 9) Null "m" true None
    = Some badge /\
    Trend.tone badge <> gray.
Proof.
  assert (H9 : Number 9 <> Undefined) by discriminate.
  split; [exact H9|].
  destruct (earlier_badge_null_previous "Water Level" "m" (Number 9) true
              None H9)
    as (badge & Hb & Htone & _).
  exists badge. split; [exact Hb|exact Htone].
Defined.

Lemma unchanged_reading_is_neutral_witness :
  finite_nonzero 12.5 = true /\
  exists badge,
    LaterBadges.TrendBadge "Rainfall" (Number 12.5) (Number 12.5) "mm" false
      None = Some badge /\
    Trend.tone badge = gray.
Proof.
  assert (Hx : finite_nonzero 12.5 = true) by (vm_compute; reflexivity).
  split; [exact Hx|].
  destruct (unchanged_reading_is_neutral "Rainfall" "mm" 12.5 false Hx)
    as (badge & Hb & _ & Htone & _).
  exists badge. split; [exact Hb|exact Htone].
Defined.

(** The badges of two sample years: the water level went from 8 to 9
    (up, shown red since the metric is inverted), the rainfall from 900
    to 880 (down, red), the depletion rate from 1 to 2 (up, red); the pH
    did not move. *)
Lemma trend_indicators_example :
  match LaterBadges.TrendIndicators [reading 2020 8 1 900;
                                     reading 2021 9 2 880] with
  | Render slots =>
      map (option_map (fun b => (Trend.label b, Trend.tone b, Trend.arrow b)))
          slots
  | _ => []
  end
  = [Some ("Water Level", red, "↑"); Some ("Rainfall", red, "↓");
     Some ("Depletion", red, "↑"); Some ("pH Level", gray, "—")].
Proof. vm_compute. reflexivity. Qed.

(** The icon of the caller is shown unless it is missing or the empty
    string, in which case the badge falls back on the icon of the
    direction. *)
Lemma badge_icon_examples :
  let icon_of given :=
    Trend.icon (badge_element "pH Level" (Number 9) (Number 8) "" false
                  given) in
  icon_of (Some "droplet") = GivenIcon "droplet" /\
  icon_of (Some "") = FiTrendingUp /\
  icon_of None = FiTrendingUp.
Proof. repeat split; vm_compute; reflexivity. Qed.
